(** * KREVOS restaurant system: inventory, recipe, costing and ledger engine

    A shallow embedding of [app.py] and the properties of its core
    operations.

    Numbers.  The REAL columns of the SQLite schema and the Python floats
    that flow into them are modelled as exact rationals ([Qc], canonical
    rationals with Leibniz equality): arithmetic is exact, the rounding
    and the overflow of IEEE doubles are not modelled.  A value that is
    not a finite real (the [inf] or [nan] numpy yields on a division by
    zero) is the [None] of [xreal].  SQLite stores a [nan] as NULL, and
    pandas reads a NULL cell back as [None]; what the column
    [cost_per_unit] of a row holds (a finite real, an infinity or NULL)
    is [stored_cost_per_unit].

    Store.  The five tables are the fields of [db].  A connection holds
    the committed database and the view of the open transaction; the
    functions of [app.py] are programs over the connection whose
    statements are queries, updates and commits. *)

From Stdlib Require Import QArith Qcanon Ascii String.
From stdpp Require Import base numbers strings list gmap.

Open Scope Qc_scope.

(** ** Numbers *)

(** A Python [int] used where a float is expected. *)
Definition Zc (z : Z) : Qc := Q2Qc (inject_Z z).

(** A REAL value that may fail to be finite. *)
Definition xreal : Type := option Qc.

Definition xadd (a b : xreal) : xreal :=
  match a, b with
  | Some x, Some y => Some (x + y)
  | _, _ => None
  end.

Definition xmul (a b : xreal) : xreal :=
  match a, b with
  | Some x, Some y => Some (x * y)
  | _, _ => None
  end.

(** Nearest integer, ties to the even one: what [round] does in Python 3
    and in numpy. *)
Definition round_half_even (q : Qc) : Z :=
  let n := Qnum q in
  let d := Zpos (Qden q) in
  let f := (n / d)%Z in
  let r2 := (2 * (n mod d))%Z in
  if (r2 <? d)%Z then f
  else if (d <? r2)%Z then (f + 1)%Z
  else if Z.even f then f else (f + 1)%Z.

(** [round(x, 2)] *)
Definition round2 (x : Qc) : Qc :=
  Zc (round_half_even (x * Zc 100)) / Zc 100.

Definition xround2 (x : xreal) : xreal := round2 <$> x.

(** ** Unit conversion *)

Definition conversion : gmap string Z :=
  list_to_map
    [("kg", 1000%Z); ("gm", 1%Z); ("litre", 1000%Z); ("ml", 1%Z);
     ("pieces", 1%Z)].

Definition to_base_unit (value : Qc) (unit : string) : Qc :=
  value * Zc (default 1%Z (conversion !! unit)).

Definition base_unit_type (unit : string) : string :=
  if bool_decide (unit ∈ ["kg"; "gm"]) then "gm"
  else if bool_decide (unit ∈ ["litre"; "ml"]) then "ml"
  else "pieces".

(** ** Config *)

Definition PACKAGING_COST : Z := 10.
Definition FIXED_STAFF_FOOD : Z := 100.
Definition FIXED_MANAGER_SALARY : Z := 450.

(** ** Database *)

(** A row of [inventory]; the primary key [item] is the key of the map. *)
Record inventory_row := {
  inv_quantity : Qc;
  inv_unit : string;
  inv_total_cost : Qc;
  inv_cost_per_unit : xreal
}.

Record recipe_row := {
  rec_dish : string;
  rec_ingredient : string;
  rec_amount : Qc;
  rec_unit : string
}.

Record sale_row := {
  sale_date : string;
  sale_dish : string;
  sale_qty : Z;
  sale_total : Qc
}.

Record expense_row := {
  exp_date : string;
  exp_category : string;
  exp_amount : Qc;
  exp_note : string
}.

(** The tables.  [inventory] and [menu] have a primary key and are maps
    from it; the other three are lists of rows in insertion (rowid)
    order. *)
Record db := {
  inventory : gmap string inventory_row;
  menu : gmap string Qc;
  recipes : list recipe_row;
  sales : list sale_row;
  expenses : list expense_row
}.

Definition set_inventory (f : gmap string inventory_row → gmap string inventory_row)
    (d : db) : db :=
  {| inventory := f (inventory d); menu := menu d; recipes := recipes d;
     sales := sales d; expenses := expenses d |}.

Definition set_sales (f : list sale_row → list sale_row) (d : db) : db :=
  {| inventory := inventory d; menu := menu d; recipes := recipes d;
     sales := f (sales d); expenses := expenses d |}.

Definition set_expenses (f : list expense_row → list expense_row) (d : db) : db :=
  {| inventory := inventory d; menu := menu d; recipes := recipes d;
     sales := sales d; expenses := f (expenses d) |}.

(** ** Programs over the connection *)

Inductive exn := ZeroDivisionError | IndexError | IntegrityError | TypeError.

(** The statements a function of [app.py] issues, in order:
    [pd.read_sql_query] is [Query], [c.execute] of an INSERT or UPDATE is
    [Execute], [conn.commit()] is [Commit]. *)
Inductive prog (A : Type) : Type :=
| Ret (a : A)
| Raise (e : exn)
| Query {B : Type} (q : db → B) (k : B → prog A)
| Execute (u : db → exn + db) (k : prog A)
| Commit (k : prog A).

Arguments Ret {A} a.
Arguments Raise {A} e.
Arguments Query {A B} q k.
Arguments Execute {A} u k.
Arguments Commit {A} k.

Fixpoint prog_bind {A B} (f : A → prog B) (p : prog A) : prog B :=
  match p with
  | Ret a => f a
  | Raise e => Raise e
  | Query q k => Query q (λ b, prog_bind f (k b))
  | Execute u k => Execute u (prog_bind f k)
  | Commit k => Commit (prog_bind f k)
  end.

#[global] Instance prog_mret : MRet prog := @Ret.
#[global] Instance prog_mbind : MBind prog := @prog_bind.

Definition query {B} (q : db → B) : prog B := Query q Ret.
Definition execute (u : db → exn + db) : prog () := Execute u (Ret ()).
Definition commit : prog () := Commit (Ret ()).

(** [for x in l: body x] *)
Fixpoint for_each {X} (l : list X) (body : X → prog ()) : prog () :=
  match l with
  | [] => Ret ()
  | x :: l' => body x ;; for_each l' body
  end.

(** A loop that carries an accumulator. *)
Fixpoint for_fold {X S} (l : list X) (body : S → X → prog S) (s : S) : prog S :=
  match l with
  | [] => Ret s
  | x :: l' => s' ← body s x; for_fold l' body s'
  end.

(** The connection: the database as committed, and as the open
    transaction sees it. *)
Record conn := {
  durable : db;
  session : db
}.

Definition connect (d : db) : conn := {| durable := d; session := d |}.

Inductive outcome (A : Type) : Type :=
| Returned (a : A)
| Raised (e : exn).

Arguments Returned {A} a.
Arguments Raised {A} e.

(** Run a program to its end.  An exception leaves the transaction as it
    is: nothing in [app.py] rolls back. *)
Fixpoint run {A} (p : prog A) (c : conn) : outcome A * conn :=
  match p with
  | Ret a => (Returned a, c)
  | Raise e => (Raised e, c)
  | Query q k => run (k (q (session c))) c
  | Execute u k =>
      match u (session c) with
      | inl e => (Raised e, c)
      | inr d => run k {| durable := durable c; session := d |}
      end
  | Commit k => run k {| durable := session c; session := session c |}
  end.

(** The database that survives when the process is interrupted after [n]
    statements ([Execute] or [Commit]) of the program: the open
    transaction is lost. *)
Fixpoint interrupted {A} (p : prog A) (n : nat) (c : conn) : db :=
  match p with
  | Ret _ | Raise _ => durable c
  | Query q k => interrupted (k (q (session c))) n c
  | Execute u k =>
      match n with
      | O => durable c
      | S n' =>
          match u (session c) with
          | inl _ => durable c
          | inr d => interrupted k n' {| durable := durable c; session := d |}
          end
      end
  | Commit k =>
      match n with
      | O => durable c
      | S n' => interrupted k n' {| durable := session c; session := session c |}
      end
  end.

(** The number of statements a run issues. *)
Fixpoint statements {A} (p : prog A) (c : conn) : nat :=
  match p with
  | Ret _ | Raise _ => O
  | Query q k => statements (k (q (session c))) c
  | Execute u k =>
      match u (session c) with
      | inl _ => 1
      | inr d => S (statements k {| durable := durable c; session := d |})
      end
  | Commit k => S (statements k {| durable := session c; session := session c |})
  end.

(** ** SQL statements *)

(** [INSERT INTO inventory VALUES (item, ...)]: the primary key rejects a
    second row for the same item. *)
Definition sql_insert_inventory (item : string) (row : inventory_row) (d : db)
    : exn + db :=
  match inventory d !! item with
  | Some _ => inl IntegrityError
  | None => inr (set_inventory (insert item row) d)
  end.

(** [UPDATE inventory SET ... WHERE item=?]: no row, no change. *)
Definition sql_update_inventory (item : string)
    (f : inventory_row → inventory_row) (d : db) : exn + db :=
  inr (set_inventory (alter f item) d).

Definition sql_insert_sales (row : sale_row) (d : db) : exn + db :=
  inr (set_sales (λ l, l ++ [row]) d).

Definition sql_insert_expenses (row : expense_row) (d : db) : exn + db :=
  inr (set_expenses (λ l, l ++ [row]) d).

(** [SELECT * FROM recipes WHERE dish=?] *)
Definition select_recipes (dish : string) (d : db) : list recipe_row :=
  filter (λ row, rec_dish row = dish) (recipes d).

(** [SELECT * FROM expenses WHERE date=? AND category=...] *)
Definition select_expenses_of (date category : string) (d : db)
    : list expense_row :=
  filter (λ e, exp_date e = date ∧ exp_category e = category) (expenses d).

(** SQLite's LIKE: [%] stands for any run of characters, [_] for any one
    character, and ASCII letters match without regard to case. *)
Definition lower (c : ascii) : ascii :=
  let n := Ascii.N_of_ascii c in
  if ((65 <=? n) && (n <=? 90))%N then Ascii.ascii_of_N (n + 32) else c.

Fixpoint like (pat : list ascii) : list ascii → bool :=
  match pat with
  | [] => λ s, match s with [] => true | _ => false end
  | p :: pat' =>
      if Ascii.eqb p "%"%char then
        fix any (s : list ascii) : bool :=
          like pat' s || match s with [] => false | _ :: s' => any s' end
      else if Ascii.eqb p "_"%char then
        λ s, match s with [] => false | _ :: s' => like pat' s' end
      else
        λ s, match s with
             | [] => false
             | x :: s' => Ascii.eqb (lower p) (lower x) && like pat' s'
             end
  end.

Definition sql_like (pat s : string) : bool :=
  like (list_ascii_of_string pat) (list_ascii_of_string s).

(** ** Arithmetic of the two number libraries *)

(** Python's [/] on floats raises on a zero divisor. *)
Definition py_div (a b : Qc) : prog Qc :=
  if decide (b = 0) then Raise ZeroDivisionError else Ret (a / b).

(** numpy's [/] on [float64] gives [inf] or [nan] on a zero divisor and
    does not raise. *)
Definition np_div (a b : Qc) : xreal :=
  if decide (b = 0) then None else Some (a / b).

(** [Series.sum()] *)
Definition sum (l : list Qc) : Qc := foldr Qcplus 0 l.

(** ** The column [cost_per_unit] *)

(** What a REAL column holds: a finite real, an infinity, or NULL, which
    is how SQLite stores a [nan]. *)
Inductive sql_real :=
| Finite (q : Qc)
| Infinity
| Null.

(** numpy's quotient as the column keeps it: [0/0] is [nan] and is stored
    as NULL, [x/0] for another [x] is an infinity. *)
Definition numpy_divide (a b : Qc) : sql_real :=
  if decide (b = 0) then (if decide (a = 0) then Null else Infinity)
  else Finite (a / b).

(** The cell [cost_per_unit] of a row.  The only statement that writes a
    cost per unit that is not finite is the UPDATE of [update_inventory],
    which writes [new_cost / new_qty] together with [new_cost] as total
    cost; no other statement writes one of the two columns.  So a row
    whose cost per unit is not finite holds NULL when its total cost is
    zero and an infinity otherwise. *)
Definition stored_cost_per_unit (row : inventory_row) : sql_real :=
  match inv_cost_per_unit row with
  | Some q => Finite q
  | None => if decide (inv_total_cost row = 0) then Null else Infinity
  end.

(** The float a cell that is not NULL reads as. *)
Definition as_float (cell : sql_real) : xreal :=
  match cell with
  | Finite q => Some q
  | Infinity | Null => None
  end.

(** ** Fixed daily cost *)

Section App.

(** [datetime.now().strftime("%Y-%m-%d")] and [strftime("%Y-%m")] *)
Variable today : string.
Variable month : string.

Definition add_fixed_costs (staff_food manager_salary : bool) : prog () :=
  (if staff_food then
     exists_ ← query (select_expenses_of today "Staff Food");
     match exists_ with
     | [] => execute (sql_insert_expenses
               {| exp_date := today; exp_category := "Staff Food";
                  exp_amount := Zc FIXED_STAFF_FOOD; exp_note := "Daily fixed" |})
     | _ => Ret ()
     end
   else Ret ());;
  (if manager_salary then
     exists_ ← query (select_expenses_of today "Manager Salary");
     match exists_ with
     | [] => execute (sql_insert_expenses
               {| exp_date := today; exp_category := "Manager Salary";
                  exp_amount := Zc FIXED_MANAGER_SALARY; exp_note := "Daily fixed" |})
     | _ => Ret ()
     end
   else Ret ());;
  commit.

(** ** Inventory *)

Definition update_inventory (item : string) (qty : Qc) (unit : string)
    (cost : Qc) : prog () :=
  df ← query (λ d, inventory d !! item);
  match df with
  | None =>
      cpu ← py_div cost qty;
      execute (sql_insert_inventory item
        {| inv_quantity := qty; inv_unit := unit; inv_total_cost := cost;
           inv_cost_per_unit := Some cpu |})
  | Some row =>
      let new_qty := inv_quantity row + qty in
      let new_cost := inv_total_cost row + cost in
      let cpu := np_div new_cost new_qty in
      execute (sql_update_inventory item (λ r,
        {| inv_quantity := new_qty; inv_unit := inv_unit r;
           inv_total_cost := new_cost; inv_cost_per_unit := cpu |}))
  end;;
  commit.

(** ** Auto ingredient deduction *)

Definition deduct_ingredients (dish : string) (qty : Z) : prog () :=
  r ← query (select_recipes dish);
  for_each r (λ row,
    let used := rec_amount row * Zc qty in
    execute (sql_update_inventory (rec_ingredient row) (λ r,
      {| inv_quantity := inv_quantity r - used; inv_unit := inv_unit r;
         inv_total_cost := inv_total_cost r;
         inv_cost_per_unit := inv_cost_per_unit r |})));;
  commit.

(** ** Cost calculation *)

Record detail := {
  Ingredient : string;
  Used_Amount : Qc;
  Cost : xreal
}.

(** [inv.iloc[0]["cost_per_unit"] * row["amount"]]: a NULL cell is read
    as [None], and [None * float] raises. *)
Definition calculate_dish_cost (dish : string) : prog (xreal * list detail) :=
  r ← query (select_recipes dish);
  acc ← for_fold r (λ acc row,
    inv ← query (λ d,
      stored_cost_per_unit <$> inventory d !! rec_ingredient row);
    match inv with
    | Some Null => Raise TypeError
    | Some cpu =>
        let cost := xmul (as_float cpu) (Some (rec_amount row)) in
        Ret (xadd acc.1 cost,
             acc.2 ++ [{| Ingredient := rec_ingredient row;
                          Used_Amount := rec_amount row;
                          Cost := xround2 cost |}])
    | None => Ret acc
    end) (Some 0, []);
  Ret (xadd acc.1 (Some (Zc PACKAGING_COST)), acc.2).

(** ** POS billing: the "Generate Bill" button

    [menu_items] is read when the page is drawn; [.values[0]] on the
    rows of the chosen dish raises when there is none.  The invoice file
    [generate_bill] writes after the commit is no part of the store and
    is left out. *)
Definition pos_billing (dish : string) (qty : Z) : prog sale_row :=
  menu_items ← query menu;
  price ← match menu_items !! dish with
          | Some p => Ret p
          | None => Raise IndexError
          end;
  let total := price * Zc qty in
  deduct_ingredients dish qty;;
  let record := {| sale_date := today; sale_dish := dish; sale_qty := qty;
                   sale_total := total |} in
  execute (sql_insert_sales record);;
  commit;;
  Ret record.

(** ** Bazar entry: the "Add Inventory" button *)
Definition bazar_entry (item : string) (qty : Qc) (unit : string) (cost : Qc)
    : prog () :=
  update_inventory item qty unit cost;;
  execute (sql_insert_expenses
    {| exp_date := today; exp_category := "Bazar"; exp_amount := cost;
       exp_note := item |});;
  commit.

(** ** Daily report *)

Definition daily_report
    : prog (list sale_row * list expense_row * Qc) :=
  sales_ ← query (λ d, filter (λ s, sale_date s = today) (sales d));
  exp ← query (λ d, filter (λ e, exp_date e = today) (expenses d));
  Ret (sales_, exp,
       (match sales_ with [] => 0 | _ => sum (sale_total <$> sales_) end)
       - (match exp with [] => 0 | _ => sum (exp_amount <$> exp) end)).

(** ** Monthly report *)

Definition monthly_report : prog (list sale_row * list expense_row) :=
  sales_ ← query (λ d,
    filter (λ s, sql_like (month +:+ "%") (sale_date s) = true) (sales d));
  exp ← query (λ d,
    filter (λ e, sql_like (month +:+ "%") (exp_date e) = true) (expenses d));
  Ret (sales_, exp).

End App.

(** What a program returns and leaves committed when run on a database
    with no open transaction. *)
Definition result {A} (p : prog A) (d : db) : outcome A :=
  (run p (connect d)).1.

Definition final {A} (p : prog A) (d : db) : conn :=
  (run p (connect d)).2.

(** ** Transactions *)

(** Programs that never commit, and programs that commit at most once on
    every path. *)
Inductive commit_free {A} : prog A → Prop :=
| cf_ret a : commit_free (Ret a)
| cf_raise e : commit_free (Raise e)
| cf_query {B} (q : db → B) k :
    (∀ b, commit_free (k b)) → commit_free (Query q k)
| cf_execute u k : commit_free k → commit_free (Execute u k).

Inductive single_txn {A} : prog A → Prop :=
| st_ret a : single_txn (Ret a)
| st_raise e : single_txn (Raise e)
| st_query {B} (q : db → B) k :
    (∀ b, single_txn (k b)) → single_txn (Query q k)
| st_execute u k : single_txn k → single_txn (Execute u k)
| st_commit k : commit_free k → single_txn (Commit k).

Create HintDb txn.
#[local] Hint Constructors commit_free single_txn : txn.

(** All-or-nothing: whenever the program is interrupted, the database is
    the one it started from or the one it ends with. *)
Definition all_or_nothing {A} (p : prog A) (c : conn) : Prop :=
  ∀ n, interrupted p n c = durable c ∨ interrupted p n c = durable (run p c).2.

(** ** Auxiliary definitions for the statements *)

Definition committed (d : db) : outcome () * conn := (Returned (), connect d).

(** The row [update_inventory] writes. *)
Definition stocked (old : option inventory_row) (qty : Qc) (unit : string)
    (cost : Qc) : inventory_row :=
  match old with
  | None =>
      {| inv_quantity := qty; inv_unit := unit; inv_total_cost := cost;
         inv_cost_per_unit := Some (cost / qty) |}
  | Some row =>
      {| inv_quantity := inv_quantity row + qty; inv_unit := inv_unit row;
         inv_total_cost := inv_total_cost row + cost;
         inv_cost_per_unit :=
           np_div (inv_total_cost row + cost) (inv_quantity row + qty) |}
  end.

Definition empty_db : db :=
  {| inventory := ∅; menu := ∅; recipes := []; sales := []; expenses := [] |}.

(** A purchase is the triple (qty, unit, cost) given to [update_inventory];
    [stock_all] makes the purchases of a list in order. *)
Definition purchase : Type := Qc * string * Qc.

Definition stock_all (item : string) (calls : list purchase) : prog () :=
  for_each calls (λ p, update_inventory item p.1.1 p.1.2 p.2).

Definition total_qty (calls : list purchase) : Qc :=
  sum ((λ p : purchase, p.1.1) <$> calls).

Definition total_spend (calls : list purchase) : Qc :=
  sum ((λ p : purchase, p.2) <$> calls).

(** Quantity and total cost on record for an item: zero when it has no
    row. *)
Definition on_hand (d : db) (item : string) : Qc * Qc :=
  match inventory d !! item with
  | Some row => (inv_quantity row, inv_total_cost row)
  | None => (0, 0)
  end.

(** The first purchase of an item that has no row must have a nonzero
    quantity. *)
Definition can_start (d : db) (item : string) (calls : list purchase) : Prop :=
  inventory d !! item = None → ∀ p, head calls = Some p → p.1.1 ≠ 0.

(** The stored cost per unit is what [total_cost / quantity] evaluates
    to. *)
Definition cost_consistent (row : inventory_row) : Prop :=
  inv_cost_per_unit row = np_div (inv_total_cost row) (inv_quantity row).

(** [SET quantity = quantity - used] *)
Definition deducted (used : Qc) (r : inventory_row) : inventory_row :=
  {| inv_quantity := inv_quantity r - used; inv_unit := inv_unit r;
     inv_total_cost := inv_total_cost r;
     inv_cost_per_unit := inv_cost_per_unit r |}.

(** The inventory after the updates of [deduct_ingredients] for the recipe
    rows [rows]. *)
Definition deduct_rows (rows : list recipe_row) (qty : Z)
    (inv : gmap string inventory_row) : gmap string inventory_row :=
  foldl (λ m row, alter (deducted (rec_amount row * Zc qty))
                        (rec_ingredient row) m) inv rows.

(** The amount of [item] the recipe of [dish] asks for: the sum over the
    rows that name it. *)
Definition recipe_amount (d : db) (dish item : string) : Qc :=
  sum (rec_amount <$>
         filter (λ r, rec_ingredient r = item) (select_recipes dish d)).

(** A store with one stocked ingredient and one recipe row. *)
Definition oil_db : db :=
  {| inventory :=
       {[ "Oil" := {| inv_quantity := Zc 3; inv_unit := "kg";
                      inv_total_cost := Zc 650;
                      inv_cost_per_unit := Some (Zc 650 / Zc 3) |} ]};
     menu := {[ "Burger" := Zc 120 ]};
     recipes := [ {| rec_dish := "Burger"; rec_ingredient := "Oil";
                     rec_amount := Zc 1; rec_unit := "gm" |} ];
     sales := [];
     expenses := [] |}.

(** The record a sale appends. *)
Definition sale_record (today dish : string) (qty : Z) (price : Qc) : sale_row :=
  {| sale_date := today; sale_dish := dish; sale_qty := qty;
     sale_total := price * Zc qty |}.

Definition xsum (l : list xreal) : xreal := foldr xadd (Some 0) l.

(** The recipe rows of a dish whose ingredient has an inventory row, each
    with its line cost [cost_per_unit * amount]. *)
Definition line_cost (d : db) (r : recipe_row) : option xreal :=
  (λ row, xmul (inv_cost_per_unit row) (Some (rec_amount r)))
    <$> inventory d !! rec_ingredient r.

Definition priced_rows (d : db) (dish : string) : list (recipe_row * xreal) :=
  omap (λ r, (λ cost, (r, cost)) <$> line_cost d r) (select_recipes dish d).

Definition line_item (rc : recipe_row * xreal) : detail :=
  {| Ingredient := rec_ingredient rc.1; Used_Amount := rec_amount rc.1;
     Cost := xround2 rc.2 |}.

(** The rows [add_fixed_costs] inserts: one for each requested category
    that has no row for today. *)
Definition fixed_row (today category : string) (amount : Z) : expense_row :=
  {| exp_date := today; exp_category := category; exp_amount := Zc amount;
     exp_note := "Daily fixed" |}.

Definition missing (today category : string) (d : db) : bool :=
  match select_expenses_of today category d with [] => true | _ => false end.

Definition fixed_rows (today : string) (staff_food manager_salary : bool)
    (d : db) : list expense_row :=
  (if staff_food && missing today "Staff Food" d
   then [fixed_row today "Staff Food" FIXED_STAFF_FOOD] else [])
  ++ (if manager_salary && missing today "Manager Salary" d
      then [fixed_row today "Manager Salary" FIXED_MANAGER_SALARY] else []).

(** The number of rows of a category for today. *)
Definition count_fixed (today category : string) (d : db) : nat :=
  length (select_expenses_of today category d).

(** Several presses of "Apply Fixed Costs for Today" on the same day, each
    with its two checkboxes. *)
Definition apply_fixed_costs (today : string) (calls : list (bool * bool))
    : prog () :=
  for_each calls (λ f, add_fixed_costs today f.1 f.2).

(** The characters [strftime("%Y-%m")] produces: digits and the dash. *)
Definition plain (c : ascii) : bool :=
  let n := Ascii.N_of_ascii c in
  (((48 <=? n) && (n <=? 57)) || (n =? 45))%N.

Definition strftime_shaped (s : string) : Prop :=
  forallb plain (list_ascii_of_string s) = true.

(** A ledger with sales and expenses on three days of two months. *)
Definition ledger_db : db :=
  {| inventory := ∅; menu := ∅; recipes := [];
     sales :=
       [ {| sale_date := "2026-01-15"; sale_dish := "Burger"; sale_qty := 2;
            sale_total := Zc 240 |};
         {| sale_date := "2026-02-01"; sale_dish := "Burger"; sale_qty := 1;
            sale_total := Zc 120 |} ];
     expenses :=
       [ {| exp_date := "2026-01-15"; exp_category := "Staff Food";
            exp_amount := Zc 100; exp_note := "Daily fixed" |};
         {| exp_date := "2026-01-20"; exp_category := "Gas";
            exp_amount := Zc 50; exp_note := "cylinder" |} ] |}.

(** ** Further actions of [app.py] *)

Definition ADMIN_PASSWORD : string := "87654321".

Definition set_menu (f : gmap string Qc → gmap string Qc) (d : db) : db :=
  {| inventory := inventory d; menu := f (menu d); recipes := recipes d;
     sales := sales d; expenses := expenses d |}.

Definition set_recipes (f : list recipe_row → list recipe_row) (d : db) : db :=
  {| inventory := inventory d; menu := menu d; recipes := f (recipes d);
     sales := sales d; expenses := expenses d |}.

Definition sql_insert_recipes (row : recipe_row) (d : db) : exn + db :=
  inr (set_recipes (λ l, l ++ [row]) d).

(** [INSERT INTO menu VALUES (?,?) ON CONFLICT(dish) DO UPDATE SET
    price=excluded.price] *)
Definition sql_upsert_menu (dish : string) (price : Qc) (d : db) : exn + db :=
  inr (set_menu (insert dish price) d).

(** [DELETE FROM inventory WHERE item=?] and [DELETE FROM menu WHERE
    dish=?] *)
Definition sql_delete_inventory (item : string) (d : db) : exn + db :=
  inr (set_inventory (delete item) d).

Definition sql_delete_menu (dish : string) (d : db) : exn + db :=
  inr (set_menu (delete dish) d).

(** Recipe builder, the "Add Ingredient" button.  The form is drawn, and
    the button can be pressed, only when the menu and the inventory both
    have a row; the dish and the ingredient are picked from them. *)
Definition recipe_builder_add (dish ing : string) (amt : Qc) (unit : string)
    : prog () :=
  dishes ← query (λ d, dom (menu d) : gset string);
  ingredients ← query (λ d, dom (inventory d) : gset string);
  if bool_decide (dishes ≠ ∅) && bool_decide (ingredients ≠ ∅) then
    execute (sql_insert_recipes
      {| rec_dish := dish; rec_ingredient := ing;
         rec_amount := to_base_unit amt unit;
         rec_unit := base_unit_type unit |});;
    commit
  else Ret ().

(** Monthly expense manager, the "Add Expense" button; the category is
    picked from [expense_types]. *)
Definition expense_types : list string :=
  ["Rent"; "Gas"; "Water"; "Utility"; "Salary"; "Others"].

Definition add_expense (today category : string) (amount : Qc) (note : string)
    : prog () :=
  execute (sql_insert_expenses
    {| exp_date := today; exp_category := category; exp_amount := amount;
       exp_note := note |});;
  commit.

(** Admin panel: the three buttons act only behind the password. *)
Definition admin_save_menu (pwd d : string) (p : Qc) : prog () :=
  if bool_decide (pwd = ADMIN_PASSWORD) then
    execute (sql_upsert_menu d p);; commit
  else Ret ().

Definition admin_delete_inventory (pwd del_item : string) : prog () :=
  if bool_decide (pwd = ADMIN_PASSWORD) then
    execute (sql_delete_inventory del_item);; commit
  else Ret ().

Definition admin_delete_menu (pwd del_menu : string) : prog () :=
  if bool_decide (pwd = ADMIN_PASSWORD) then
    execute (sql_delete_menu del_menu);; commit
  else Ret ().

(** Menu cost analysis: what the page shows for one row of the menu. *)
Definition xsub (a b : xreal) : xreal :=
  match a, b with
  | Some x, Some y => Some (x - y)
  | _, _ => None
  end.

Record cost_card := {
  card_dish : string;
  card_details : list detail;
  card_making_cost : xreal;
  card_price : Qc;
  card_profit : xreal
}.

(** The rows of [menu] come in the order the map lists them; what is
    proved of the page does not depend on that order. *)
Definition menu_cost_analysis : prog (list cost_card) :=
  menu_df ← query (λ d, map_to_list (menu d));
  for_fold menu_df (λ cards row,
    r ← calculate_dish_cost row.1;
    let profit := xsub (Some row.2) r.1 in
    Ret (cards ++ [{| card_dish := row.1; card_details := r.2;
                      card_making_cost := xround2 r.1; card_price := row.2;
                      card_profit := xround2 profit |}])) [].

(** The net profit of the daily report. *)
Definition net_profit (today : string) (d : db) : Qc :=
  sum (sale_total <$> filter (λ s, sale_date s = today) (sales d))
  - sum (exp_amount <$> filter (λ e, exp_date e = today) (expenses d)).

(** The making cost [calculate_dish_cost] returns. *)
Definition making_cost (d : db) (dish : string) : xreal :=
  xadd (xsum (snd <$> priced_rows d dish)) (Some (Zc PACKAGING_COST)).

(** The card the menu cost analysis shows for a row (dish, price) of the
    menu. *)
Definition card_of (d : db) (row : string * Qc) : cost_card :=
  {| card_dish := row.1;
     card_details := line_item <$> priced_rows d row.1;
     card_making_cost := xround2 (making_cost d row.1);
     card_price := row.2;
     card_profit := xround2 (xsub (Some row.2) (making_cost d row.1)) |}.

(** ** The operator's actions

    What the forms of the page offer: the item of a purchase is one of
    six suggestions, units come from a fixed list, quantities, costs,
    amounts and prices have a minimum of zero, the quantity sold a minimum
    of one, the dish sold and the dish and ingredient of a recipe row are
    picked from the rows of the menu and of the inventory, and the
    category of an expense from [expense_types]. *)

Definition suggestions : list string :=
  ["Chicken"; "Oil"; "Potato"; "Rice"; "Milk"; "Tomato"].

Definition units : list string := ["kg"; "gm"; "litre"; "ml"; "pieces"].

(** One action of the operator.  [DELETE FROM recipes WHERE rowid=?]
    removes the row with that rowid, if there is one: the row at some
    position of the table, or none. *)
Inductive step : db → db → Prop :=
| step_add_inventory d today item qty unit cost :
    item ∈ suggestions → unit ∈ units → 0 ≤ qty → 0 ≤ cost →
    step d (durable (final (bazar_entry today item qty unit cost) d))
| step_generate_bill d today dish qty :
    is_Some (menu d !! dish) → (1 ≤ qty)%Z →
    step d (durable (final (pos_billing today dish qty) d))
| step_fixed_costs d today staff manager :
    step d (durable (final (add_fixed_costs today staff manager) d))
| step_add_expense d today category amount note :
    category ∈ expense_types →
    step d (durable (final (add_expense today category amount note) d))
| step_add_ingredient d dish ing amt unit :
    is_Some (menu d !! dish) → is_Some (inventory d !! ing) →
    0 ≤ amt → unit ∈ units →
    step d (durable (final (recipe_builder_add dish ing amt unit) d))
| step_delete_recipe d (i : nat) :
    step d (set_recipes (delete i) d)
| step_save_menu d pwd dish p :
    0 ≤ p →
    step d (durable (final (admin_save_menu pwd dish p) d))
| step_delete_inventory d pwd item :
    step d (durable (final (admin_delete_inventory pwd item) d))
| step_delete_menu d pwd dish :
    step d (durable (final (admin_delete_menu pwd dish) d)).

(** The stores the operator can reach from the empty one. *)
Definition reachable (d : db) : Prop := rtc step empty_db d.

(** Each day has at most one row of each fixed category, and the rows of
    the fixed categories carry the fixed amounts. *)
Definition fixed_costs_ok (d : db) : Prop :=
  (∀ day, (count_fixed day "Staff Food" d ≤ 1)%nat
          ∧ (count_fixed day "Manager Salary" d ≤ 1)%nat)
  ∧ Forall (λ e, (exp_category e = "Staff Food" →
                  exp_amount e = Zc FIXED_STAFF_FOOD)
                 ∧ (exp_category e = "Manager Salary" →
                    exp_amount e = Zc FIXED_MANAGER_SALARY))
           (expenses d).

(** Inventory rows are rows of suggested items, in a listed unit, with a
    total cost that is not negative; recipe rows name a suggested item and
    hold an amount that is not negative, in a base unit. *)
Definition stock_ok (d : db) : Prop :=
  map_Forall (λ item row, item ∈ suggestions ∧ inv_unit row ∈ units
                          ∧ 0 ≤ inv_total_cost row) (inventory d)
  ∧ Forall (λ r, rec_ingredient r ∈ suggestions
                 ∧ rec_unit r ∈ ["gm"; "ml"; "pieces"]
                 ∧ 0 ≤ rec_amount r) (recipes d).

(** Prices are not negative; a sale has a quantity of at least one and a
    total that is not negative. *)
Definition money_ok (d : db) : Prop :=
  map_Forall (λ _ p, 0 ≤ p) (menu d)
  ∧ Forall (λ s, (1 ≤ sale_qty s)%Z ∧ 0 ≤ sale_total s) (sales d).

(** ** Costing and the NULL cell *)

(** The recipe rows of a dish each find a cost per unit that is not NULL,
    or no inventory row at all. *)
Definition costed (d : db) (dish : string) : Prop :=
  ∀ r row, r ∈ select_recipes dish d →
    inventory d !! rec_ingredient r = Some row →
    stored_cost_per_unit row ≠ Null.

Definition null_cost (d : db) (r : recipe_row) : bool :=
  match stored_cost_per_unit <$> inventory d !! rec_ingredient r with
  | Some Null => true
  | _ => false
  end.

(** Some recipe row of the dish finds a NULL cost per unit. *)
Definition cost_raises (d : db) (dish : string) : bool :=
  existsb (null_cost d) (select_recipes dish d).

(** What [calculate_dish_cost] ends with. *)
Definition dish_cost_outcome (d : db) (dish : string)
    : outcome (xreal * list detail) :=
  if cost_raises d dish then Raised TypeError
  else Returned (making_cost d dish, line_item <$> priced_rows d dish).

(** ** What the two report pages show

    The daily report shows its two tables and the metric "Net Profit
    Today"; the monthly report shows its two tables and no metric. *)
Record report_page := {
  shown_sales : list sale_row;
  shown_expenses : list expense_row;
  shown_net_profit : option Qc
}.

Definition daily_report_page (today : string) : prog report_page :=
  r ← daily_report today;
  Ret {| shown_sales := r.1.1; shown_expenses := r.1.2;
         shown_net_profit := Some r.2 |}.

Definition monthly_report_page (month : string) : prog report_page :=
  r ← monthly_report month;
  Ret {| shown_sales := r.1; shown_expenses := r.2;
         shown_net_profit := None |}.

(** ** Stores of the examples *)

(** Two dishes that share an ingredient; the recipe of the burger names
    oil twice and cheese, which is not in stock. *)
Definition kitchen_db : db :=
  {| inventory :=
       list_to_map
         [ ("Oil", {| inv_quantity := Zc 10; inv_unit := "litre";
                      inv_total_cost := Zc 650;
                      inv_cost_per_unit := Some (Zc 65) |});
           ("Rice", {| inv_quantity := Zc 10; inv_unit := "kg";
                       inv_total_cost := Zc 500;
                       inv_cost_per_unit := Some (Zc 50) |});
           ("Potato", {| inv_quantity := Zc 5; inv_unit := "kg";
                         inv_total_cost := Zc 100;
                         inv_cost_per_unit := Some (Zc 20) |}) ];
     menu := list_to_map [("Burger", Zc 120); ("Fries", Zc 60)];
     recipes :=
       [ {| rec_dish := "Burger"; rec_ingredient := "Oil";
            rec_amount := Zc 2; rec_unit := "ml" |};
         {| rec_dish := "Fries"; rec_ingredient := "Potato";
            rec_amount := Zc 4; rec_unit := "gm" |};
         {| rec_dish := "Burger"; rec_ingredient := "Rice";
            rec_amount := Zc 3; rec_unit := "gm" |};
         {| rec_dish := "Fries"; rec_ingredient := "Oil";
            rec_amount := Zc 5; rec_unit := "ml" |};
         {| rec_dish := "Burger"; rec_ingredient := "Cheese";
            rec_amount := Zc 30; rec_unit := "gm" |};
         {| rec_dish := "Burger"; rec_ingredient := "Oil";
            rec_amount := Zc 1; rec_unit := "ml" |} ];
     sales := [];
     expenses := [] |}.

(** A day with several sales and several expenses, and rows of other
    days. *)
Definition busy_db : db :=
  {| inventory := ∅; menu := ∅; recipes := [];
     sales :=
       [ {| sale_date := "2026-01-15"; sale_dish := "Burger"; sale_qty := 2;
            sale_total := Zc 240 |};
         {| sale_date := "2026-01-16"; sale_dish := "Fries"; sale_qty := 1;
            sale_total := Zc 60 |};
         {| sale_date := "2026-01-15"; sale_dish := "Fries"; sale_qty := 3;
            sale_total := Zc 180 |};
         {| sale_date := "2026-02-01"; sale_dish := "Burger"; sale_qty := 1;
            sale_total := Zc 120 |};
         {| sale_date := "2026-01-15"; sale_dish := "Burger"; sale_qty := 1;
            sale_total := Zc 120 |} ];
     expenses :=
       [ {| exp_date := "2026-01-15"; exp_category := "Staff Food";
            exp_amount := Zc 100; exp_note := "Daily fixed" |};
         {| exp_date := "2026-01-20"; exp_category := "Gas";
            exp_amount := Zc 50; exp_note := "cylinder" |};
         {| exp_date := "2026-01-15"; exp_category := "Manager Salary";
            exp_amount := Zc 450; exp_note := "Daily fixed" |};
         {| exp_date := "2026-01-15"; exp_category := "Bazar";
            exp_amount := Zc 35; exp_note := "Oil" |} ] |}.

(** The store after five actions of the operator: a price for the
    burger, oil bought for nothing, one unit of oil in the burger's
    recipe, a burger sold, and "Add Inventory" pressed for oil with the
    form's quantity and cost left at zero. *)
Definition priced_db : db :=
  durable (final (admin_save_menu ADMIN_PASSWORD "Burger" (Zc 120)) empty_db).

Definition free_oil_db : db :=
  durable (final (bazar_entry "2026-01-15" "Oil" (Zc 1) "kg" 0) priced_db).

Definition oil_recipe_db : db :=
  durable (final (recipe_builder_add "Burger" "Oil" (Zc 1) "gm") free_oil_db).

Definition sold_out_db : db :=
  durable (final (pos_billing "2026-01-15" "Burger" 1) oil_recipe_db).

Definition null_db : db :=
  durable (final (bazar_entry "2026-01-16" "Oil" 0 "kg" 0) sold_out_db).

(** * Properties *)

(** ** Running programs *)

Lemma run_bind {A B} (p : prog A) (f : A → prog B) (c : conn) :
  run (p ≫= f) c =
    match run p c with
    | (Returned a, c') => run (f a) c'
    | (Raised e, c') => (Raised e, c')
    end.
Proof.
  revert c. induction p as [a|e|X q k IH|u k IH|k IH]; intros c; cbn.
  - reflexivity.
  - reflexivity.
  - apply IH.
  - destruct (u (session c)); [reflexivity | apply IH].
  - apply IH.
Qed.

Lemma interrupted_bind {A B} (p : prog A) (f : A → prog B) (n : nat) (c : conn) :
  interrupted (p ≫= f) n c =
    match run p c with
    | (Returned a, c') =>
        if (n <? statements p c)%nat then interrupted p n c
        else interrupted (f a) (n - statements p c) c'
    | (Raised e, c') => interrupted p n c
    end.
Proof.
  revert n c. induction p as [a|e|X q k IH|u k IH|k IH]; intros n c; cbn.
  - f_equal. lia.
  - reflexivity.
  - apply IH.
  - destruct n as [|n].
    + destruct (u (session c)) as [e|d]; [reflexivity|].
      destruct (run k _) as [[a|e] c']; reflexivity.
    + destruct (u (session c)) as [e|d]; [reflexivity|]. apply IH.
  - destruct n as [|n].
    + destruct (run k _) as [[a|e] c']; reflexivity.
    + apply IH.
Qed.

Lemma commit_free_bind {A B} (p : prog A) (f : A → prog B) :
  commit_free p → (∀ a, commit_free (f a)) → commit_free (p ≫= f).
Proof. induction 1; intros Hf; cbn; auto with txn. Qed.

Lemma single_txn_bind {A B} (p : prog A) (f : A → prog B) :
  commit_free p → (∀ a, single_txn (f a)) → single_txn (p ≫= f).
Proof. induction 1; intros Hf; cbn; auto with txn. Qed.

Lemma commit_free_for_each {X} (l : list X) (body : X → prog ()) :
  (∀ x, commit_free (body x)) → commit_free (for_each l body).
Proof.
  intros Hb. induction l as [|x l IH]; cbn; [constructor|].
  apply commit_free_bind; auto.
Qed.

Lemma commit_free_durable {A} (p : prog A) :
  commit_free p →
  ∀ n c, interrupted p n c = durable c ∧ durable (run p c).2 = durable c.
Proof.
  induction 1 as [a|e|X q k _ IH|u k _ IH]; intros n c; cbn; auto.
  destruct (u (session c)) as [e|d]; cbn.
  - by destruct n.
  - pose (c1 := {| durable := durable c; session := d |}).
    destruct n as [|n]; [split; [done | apply (IH 0%nat c1)] | apply (IH n c1)].
Qed.

Lemma single_txn_all_or_nothing {A} (p : prog A) :
  single_txn p → ∀ c, all_or_nothing p c.
Proof.
  induction 1 as [a|e|X q k _ IH|u k _ IH|k Hk]; intros c n; cbn; auto.
  - apply IH.
  - destruct n as [|n]; [auto|].
    destruct (u (session c)) as [e|d]; [auto|].
    exact (IH {| durable := durable c; session := d |} n).
  - destruct n as [|n]; [auto|]. right.
    destruct (commit_free_durable k Hk n
                {| durable := session c; session := session c |}) as [-> ->].
    reflexivity.
Qed.


(** ** Rounding *)

(** The integer [round_half_even q] is within one half of [q]. *)
Lemma round_half_even_close (q : Qc) :
  (Z.abs (2 * Qnum q - 2 * round_half_even q * Zpos (Qden q))
   <= Zpos (Qden q))%Z.
Proof.
  unfold round_half_even.
  set (n := Qnum q). set (d := Zpos (Qden q)).
  assert (Hd : (0 < d)%Z) by (unfold d; lia).
  pose proof (Z.div_mod n d ltac:(lia)) as Hdiv.
  pose proof (Z.mod_pos_bound n d Hd) as Hmod.
  destruct (Z.ltb_spec (2 * (n mod d)) d);
    [|destruct (Z.ltb_spec d (2 * (n mod d))); [|destruct (Z.even (n / d))]];
    nia.
Qed.

(** [round2] on values that fall between two hundredths, and on ties. *)
Example round2_third : round2 (Q2Qc (650 # 3)) = Q2Qc (21667 # 100).
Proof. apply Qc_is_canon. reflexivity. Qed.

Example round2_tie_down : round2 (Q2Qc (125 # 1000)) = Q2Qc (12 # 100).
Proof. apply Qc_is_canon. reflexivity. Qed.

Example round2_tie_up : round2 (Q2Qc (375 # 1000)) = Q2Qc (38 # 100).
Proof. apply Qc_is_canon. reflexivity. Qed.

Example round2_negative : round2 (Q2Qc (-1 # 3)) = Q2Qc (-33 # 100).
Proof. apply Qc_is_canon. reflexivity. Qed.

(** ** Unit normalizer *)

Lemma Zc_1 : Zc 1 = 1.
Proof. apply Qc_is_canon. reflexivity. Qed.

Lemma conversion_lookup (unit : string) :
  conversion !! unit =
    if bool_decide (unit = "kg" ∨ unit = "litre") then Some 1000%Z
    else if bool_decide (unit = "gm" ∨ unit = "ml" ∨ unit = "pieces")
         then Some 1%Z else None.
Proof.
  unfold conversion. cbn [list_to_map foldr fst snd].
  repeat (rewrite lookup_insert; case_decide; [subst unit; reflexivity|]).
  rewrite lookup_empty.
  rewrite !bool_decide_eq_false_2; [reflexivity | intuition congruence..].
Qed.

(** C8.  [to_base_unit] multiplies by 1000 for kg and litre and by 1 for
    gm, ml, pieces and any other unit; [base_unit_type] sends kg and gm
    to gm, litre and ml to ml, and every other unit to pieces.  Both are
    total functions of their arguments. *)
Theorem unit_normalizer_total (value : Qc) (unit : string) :
  to_base_unit value unit =
    (if bool_decide (unit = "kg" ∨ unit = "litre") then value * Zc 1000
     else value * Zc 1)
  ∧ value * Zc 1 = value
  ∧ base_unit_type unit =
    (if bool_decide (unit = "kg" ∨ unit = "gm") then "gm"
     else if bool_decide (unit = "litre" ∨ unit = "ml") then "ml"
     else "pieces").
Proof.
  split; [|split].
  - unfold to_base_unit. rewrite conversion_lookup.
    repeat case_bool_decide; reflexivity.
  - rewrite Zc_1. ring.
  - unfold base_unit_type.
    assert (Hin : ∀ a b : string, unit ∈ [a; b] ↔ unit = a ∨ unit = b).
    { intros a b. rewrite !elem_of_cons, elem_of_nil. tauto. }
    by rewrite !(bool_decide_ext _ _ (Hin _ _)).
Qed.

(** ** Inventory ledger *)

Lemma alter_present {V} (f : V → V) (i : string) (m : gmap string V) (x : V) :
  m !! i = Some x → alter f i m = <[i:=f x]> m.
Proof.
  intros Hx. apply map_eq. intros j. rewrite lookup_alter, lookup_insert.
  case_decide; [subst j; by rewrite Hx | reflexivity].
Qed.

Lemma run_update_inventory item qty unit cost (c : conn) :
  run (update_inventory item qty unit cost) c =
    match inventory (session c) !! item with
    | None =>
        if decide (qty = 0) then (Raised ZeroDivisionError, c)
        else committed (set_inventory
               (insert item (stocked None qty unit cost)) (session c))
    | Some row =>
        committed (set_inventory
          (insert item (stocked (Some row) qty unit cost)) (session c))
    end.
Proof.
  unfold update_inventory, query, py_div. cbn.
  destruct (inventory (session c) !! item) as [row|] eqn:Hrow; cbn.
  - unfold committed, set_inventory.
    rewrite (alter_present _ _ _ _ Hrow). reflexivity.
  - destruct (decide (qty = 0)); cbn; [reflexivity|].
    unfold sql_insert_inventory. rewrite Hrow. reflexivity.
Qed.

Lemma result_update_inventory_fresh item qty unit cost d :
  inventory d !! item = None →
  result (update_inventory item qty unit cost) d =
    if decide (qty = 0) then Raised ZeroDivisionError else Returned ().
Proof.
  intros Hnone. unfold result. rewrite run_update_inventory. cbn.
  rewrite Hnone. by destruct (decide (qty = 0)).
Qed.

(** C7.  Stocking an item that has no row raises ZeroDivisionError when
    the quantity is zero, and writes nothing; with any other quantity it
    returns. *)
Theorem stocking_unseen_item_fails_only_at_zero item qty unit cost d :
  inventory d !! item = None →
  (result (update_inventory item qty unit cost) d = Raised ZeroDivisionError
     ↔ qty = 0)
  ∧ (result (update_inventory item qty unit cost) d = Returned ()
     ↔ qty ≠ 0)
  ∧ (qty = 0 → final (update_inventory item qty unit cost) d = connect d).
Proof.
  intros Hnone.
  rewrite (result_update_inventory_fresh _ _ _ _ _ Hnone).
  unfold final. rewrite run_update_inventory. cbn. rewrite Hnone.
  destruct (decide (qty = 0)) as [Hz|Hz]; cbn.
  - repeat split; intros; try done.
  - repeat split; intros; try done.
Qed.

Lemma stocking_unseen_item_witness :
  inventory empty_db !! "Oil" = None
  ∧ result (update_inventory "Oil" 0 "kg" (Zc 400)) empty_db
      = Raised ZeroDivisionError
  ∧ result (update_inventory "Oil" (Zc 2) "kg" (Zc 400)) empty_db
      = Returned ().
Proof.
  split; [reflexivity|]. split.
  - apply (stocking_unseen_item_fails_only_at_zero
             "Oil" 0 "kg" (Zc 400) empty_db); reflexivity.
  - apply (stocking_unseen_item_fails_only_at_zero
             "Oil" (Zc 2) "kg" (Zc 400) empty_db); [reflexivity|].
    intros H. discriminate (f_equal this H).
Defined.

(** C10.  Restocking an item that has a row keeps the stored unit and
    adds the given quantity to the stored one as a number, whatever unit
    is given. *)
Theorem restock_ignores_unit item qty unit cost d row :
  inventory d !! item = Some row →
  result (update_inventory item qty unit cost) d = Returned ()
  ∧ ∃ row',
      inventory (durable (final (update_inventory item qty unit cost) d)) !! item
        = Some row'
      ∧ inv_unit row' = inv_unit row
      ∧ inv_quantity row' = inv_quantity row + qty
      ∧ final (update_inventory item qty unit cost) d
        = final (update_inventory item qty (inv_unit row) cost) d.
Proof.
  intros Hrow. unfold result, final. rewrite !run_update_inventory. cbn.
  rewrite Hrow. cbn. split; [reflexivity|].
  eexists. split; [apply lookup_insert_eq|]. by cbn.
Qed.

Lemma restock_ignores_unit_witness :
  inventory oil_db !! "Oil" = Some
    {| inv_quantity := Zc 3; inv_unit := "kg"; inv_total_cost := Zc 650;
       inv_cost_per_unit := Some (Zc 650 / Zc 3) |}
  ∧ ∃ row',
      inventory (durable (final (update_inventory "Oil" (Zc 500) "gm" (Zc 90))
                            oil_db)) !! "Oil" = Some row'
      ∧ inv_unit row' = "kg"
      ∧ inv_quantity row' = Zc 3 + Zc 500.
Proof.
  split; [reflexivity|].
  destruct (restock_ignores_unit "Oil" (Zc 500) "gm" (Zc 90) oil_db _ eq_refl)
    as (_ & row' & H1 & H2 & H3 & _).
  exists row'. auto.
Defined.

Lemma np_div_nonzero (a b : Qc) : b ≠ 0 → np_div a b = Some (a / b).
Proof. intros Hb. unfold np_div. by destruct (decide (b = 0)). Qed.

Lemma stocked_consistent old qty unit cost :
  (old = None → qty ≠ 0) → cost_consistent (stocked old qty unit cost).
Proof.
  intros Hq. unfold cost_consistent. destruct old as [row|]; cbn; [done|].
  symmetry. apply np_div_nonzero. auto.
Qed.

(** [update_inventory], when it returns, rewrites the row of its item and
    no other. *)
Lemma update_inventory_returns item qty unit cost d :
  result (update_inventory item qty unit cost) d = Returned () →
  (inventory d !! item = None → qty ≠ 0)
  ∧ final (update_inventory item qty unit cost) d =
      connect (set_inventory
        (insert item (stocked (inventory d !! item) qty unit cost)) d).
Proof.
  unfold result, final. rewrite run_update_inventory. cbn.
  destruct (inventory d !! item) as [row|]; cbn; [done|].
  destruct (decide (qty = 0)); cbn; [done|]. done.
Qed.

(** ** Deduction *)

Lemma run_for_each_execute {X} (l : list X) (body : X → prog ())
    (u : X → db → db) (c : conn) :
  (∀ x, body x = execute (λ d, inr (u x d))) →
  run (for_each l body) c =
    (Returned (),
     {| durable := durable c; session := foldl (λ d x, u x d) (session c) l |}).
Proof.
  intros Hb. revert c. induction l as [|x l IH]; intros c; cbn.
  - by destruct c.
  - rewrite Hb. cbn. apply IH.
Qed.

Lemma foldl_set_inventory {X} (l : list X)
    (g : X → gmap string inventory_row → gmap string inventory_row) (d : db) :
  foldl (λ d x, set_inventory (g x) d) d l =
    set_inventory (λ m, foldl (λ m x, g x m) m l) d.
Proof.
  revert d. induction l as [|x l IH]; intros d; cbn.
  - by destruct d.
  - by rewrite IH.
Qed.

Lemma run_deduct_ingredients dish qty (c : conn) :
  run (deduct_ingredients dish qty) c =
    committed (set_inventory
      (deduct_rows (select_recipes dish (session c)) qty) (session c)).
Proof.
  unfold deduct_ingredients, query. cbn.
  rewrite run_bind.
  rewrite (run_for_each_execute _ _
    (λ row, set_inventory (alter (deducted (rec_amount row * Zc qty))
                                 (rec_ingredient row)))) by reflexivity.
  cbn. rewrite foldl_set_inventory. reflexivity.
Qed.

Lemma lookup_deduct_rows rows qty inv item :
  deduct_rows rows qty inv !! item =
    deducted (sum (rec_amount <$> filter (λ r, rec_ingredient r = item) rows)
              * Zc qty) <$> inv !! item.
Proof.
  unfold deduct_rows. revert inv.
  induction rows as [|row rows IH]; intros inv; cbn [foldl].
  - destruct (inv !! item) as [[q u t cpu]|]; cbn; [|done].
    unfold deducted; cbn. do 2 f_equal. ring.
  - rewrite IH, lookup_alter. rewrite filter_cons.
    destruct (decide (rec_ingredient row = item)) as [->|Hne].
    + destruct (inv !! item) as [[q u t cpu]|]; cbn; [|done].
      unfold deducted, sum; cbn. do 2 f_equal. ring.
    + destruct (decide (item = rec_ingredient row)); [congruence|done].
Qed.

Lemma Qc_neq (a b : Qc) : this a ≠ this b → a ≠ b.
Proof. intros Hne ->. by apply Hne. Qed.

(** Equality of closed rows and values: down to the rationals in them. *)
Ltac qc_eq := repeat first [ by apply Qc_is_canon | progress f_equal ].

Lemma final_deduct_ingredients dish qty d item :
  inventory (durable (final (deduct_ingredients dish qty) d)) !! item =
    deducted (recipe_amount d dish item * Zc qty) <$> inventory d !! item.
Proof.
  unfold final. rewrite run_deduct_ingredients. cbn.
  apply lookup_deduct_rows.
Qed.

(** C1 (as stated, refuted).  A deduction leaves the row of Oil with
    quantity 2, total cost 650 and cost per unit 650/3: the stored cost per
    unit is no longer the total cost divided by the quantity. *)
Lemma deduction_breaks_cost_per_unit :
  ∃ row row',
    inventory oil_db !! "Oil" = Some row
    ∧ cost_consistent row
    ∧ inventory (durable (final (deduct_ingredients "Burger" 1) oil_db)) !! "Oil"
      = Some row'
    ∧ inv_quantity row' ≠ 0
    ∧ inv_cost_per_unit row' ≠ Some (inv_total_cost row' / inv_quantity row')
    ∧ ¬ cost_consistent row'.
Proof.
  exists {| inv_quantity := Zc 3; inv_unit := "kg"; inv_total_cost := Zc 650;
            inv_cost_per_unit := Some (Zc 650 / Zc 3) |},
         {| inv_quantity := Zc 2; inv_unit := "kg"; inv_total_cost := Zc 650;
            inv_cost_per_unit := Some (Zc 650 / Zc 3) |}.
  assert (H3 : Zc 3 ≠ 0) by by apply Qc_neq.
  assert (H2 : Zc 2 ≠ 0) by by apply Qc_neq.
  assert (Hne : Some (Zc 650 / Zc 3) ≠ Some (Zc 650 / Zc 2)).
  { intros [= H]. }
  unfold cost_consistent. cbn. rewrite !np_div_nonzero by done.
  repeat split; done.
Qed.

(** C1 (amended).  A purchase that returns leaves the row of its item
    with the cost per unit equal to total cost over quantity, and leaves
    every other row as it was; a deduction subtracts from the quantity of
    a row and leaves its unit, total cost and cost per unit as they were. *)
Theorem cost_per_unit_set_by_purchase_only item qty unit cost dish n d :
  result (update_inventory item qty unit cost) d = Returned () →
  (∃ row,
      inventory (durable (final (update_inventory item qty unit cost) d)) !! item
        = Some row
      ∧ cost_consistent row
      ∧ (inv_quantity row ≠ 0 →
         inv_cost_per_unit row = Some (inv_total_cost row / inv_quantity row)))
  ∧ (∀ other, other ≠ item →
       inventory (durable (final (update_inventory item qty unit cost) d)) !! other
         = inventory d !! other)
  ∧ (∀ it,
       inventory (durable (final (deduct_ingredients dish n) d)) !! it
         = deducted (recipe_amount d dish it * Zc n) <$> inventory d !! it).
Proof.
  intros Hret. apply update_inventory_returns in Hret as [Hq ->]. cbn.
  split; [|split].
  - eexists. split; [apply lookup_insert_eq|].
    pose proof (stocked_consistent (inventory d !! item) qty unit cost Hq) as Hc.
    split; [exact Hc|]. intros Hnz. rewrite Hc. by apply np_div_nonzero.
  - intros other Hne. by apply lookup_insert_ne.
  - intros it. apply final_deduct_ingredients.
Qed.

Lemma cost_per_unit_set_by_purchase_only_witness :
  result (update_inventory "Oil" (Zc 1) "kg" (Zc 250)) oil_db = Returned ()
  ∧ ∃ row,
      inventory (durable (final (update_inventory "Oil" (Zc 1) "kg" (Zc 250))
                            oil_db)) !! "Oil" = Some row
      ∧ cost_consistent row.
Proof.
  split; [reflexivity|].
  destruct (cost_per_unit_set_by_purchase_only
              "Oil" (Zc 1) "kg" (Zc 250) "Burger" 1 oil_db eq_refl)
    as ((row & H1 & H2 & _) & _).
  exists row. auto.
Defined.

(** ** Weighted-average costing *)

Lemma run_stock_all_cons item p calls (c : conn) :
  run (stock_all item (p :: calls)) c =
    match run (update_inventory item p.1.1 p.1.2 p.2) c with
    | (Returned _, c') => run (stock_all item calls) c'
    | (Raised e, c') => (Raised e, c')
    end.
Proof.
  unfold stock_all. cbn [for_each]. rewrite run_bind.
  by destruct (run _ c) as [[[]|e] c'].
Qed.

(** Purchases of an item that has a row always return; they add the
    quantities and the costs, one purchase after the other, to what the
    row holds, and keep the unit. *)
Lemma stock_all_existing item calls :
  ∀ d row, inventory d !! item = Some row → calls ≠ [] →
  ∃ d' row',
    run (stock_all item calls) (connect d) = committed d'
    ∧ inventory d' !! item = Some row'
    ∧ inv_quantity row'
      = foldl Qcplus (inv_quantity row) ((λ p : purchase, p.1.1) <$> calls)
    ∧ inv_total_cost row'
      = foldl Qcplus (inv_total_cost row) ((λ p : purchase, p.2) <$> calls)
    ∧ inv_unit row' = inv_unit row
    ∧ cost_consistent row'.
Proof.
  induction calls as [|p calls IH]; intros d row Hrow Hne; [done|].
  rewrite run_stock_all_cons, run_update_inventory. cbn [connect session].
  rewrite Hrow. unfold committed at 1.
  set (row1 := stocked (Some row) p.1.1 p.1.2 p.2).
  set (d1 := set_inventory (insert item row1) d).
  assert (Hrow1 : inventory d1 !! item = Some row1) by apply lookup_insert_eq.
  destruct calls as [|p2 calls].
  - exists d1, row1. cbn. by repeat split.
  - destruct (IH d1 row1 Hrow1) as (d' & row' & Hrun & Hl & Hq & Ht & Hu & Hc);
      [done|].
    exists d', row'. rewrite Hrun, Hq, Ht, Hu. by repeat split.
Qed.

Lemma stock_all_spec item calls d :
  calls ≠ [] → can_start d item calls →
  ∃ d' row,
    run (stock_all item calls) (connect d) = committed d'
    ∧ inventory d' !! item = Some row
    ∧ inv_quantity row
      = foldl Qcplus (on_hand d item).1 ((λ p : purchase, p.1.1) <$> calls)
    ∧ inv_total_cost row
      = foldl Qcplus (on_hand d item).2 ((λ p : purchase, p.2) <$> calls)
    ∧ cost_consistent row.
Proof.
  intros Hne Hstart. unfold on_hand.
  destruct (inventory d !! item) as [row|] eqn:Hrow.
  - destruct (stock_all_existing item calls d row Hrow Hne)
      as (d' & row' & Hrun & Hl & Hq & Ht & _ & Hc).
    by exists d', row'.
  - destruct calls as [|p calls]; [done|].
    assert (Hp : p.1.1 ≠ 0) by by apply (Hstart Hrow).
    rewrite run_stock_all_cons, run_update_inventory. cbn [connect session].
    rewrite Hrow. rewrite decide_False by done. unfold committed at 1.
    set (row1 := stocked None p.1.1 p.1.2 p.2).
    set (d1 := set_inventory (insert item row1) d).
    assert (Hrow1 : inventory d1 !! item = Some row1) by apply lookup_insert_eq.
    cbn [fmap list_fmap foldl fst snd]. rewrite !Qcplus_0_l.
    destruct calls as [|p2 calls].
    + exists d1, row1. cbn. repeat split; try done.
      by apply (stocked_consistent None).
    + destruct (stock_all_existing item (p2 :: calls) d1 row1 Hrow1)
        as (d' & row' & Hrun & Hl & Hq & Ht & _ & Hc); [done|].
      exists d', row'. rewrite Hrun, Hq, Ht. by repeat split.
Qed.

(** C2 (as stated, refuted).  Oil, which has no row, is bought twice: a
    quantity of 0 for 250 and a quantity of 2 for 400, so the cumulative
    quantity is 2 and the cumulative cost 650.  In this order the first
    purchase raises and stores nothing, and the second one, made after it,
    stores a cost per unit of 200; in the other order both purchases
    return and the cost per unit is 325.  So the cost per unit is not the
    cumulative cost over the cumulative quantity, and it depends on the
    order. *)
Lemma zero_quantity_first_breaks_weighted_average :
  total_qty [(0, "kg", Zc 250); (Zc 2, "kg", Zc 400)] = Zc 2
  ∧ total_spend [(0, "kg", Zc 250); (Zc 2, "kg", Zc 400)] = Zc 650
  ∧ result (stock_all "Oil" [(0, "kg", Zc 250); (Zc 2, "kg", Zc 400)])
      empty_db = Raised ZeroDivisionError
  ∧ final (update_inventory "Oil" 0 "kg" (Zc 250)) empty_db = connect empty_db
  ∧ inv_cost_per_unit <$>
      inventory (durable (final (update_inventory "Oil" (Zc 2) "kg" (Zc 400))
                   (durable (final (update_inventory "Oil" 0 "kg" (Zc 250))
                               empty_db)))) !! "Oil"
    = Some (Some (Zc 200))
  ∧ result (stock_all "Oil" [(Zc 2, "kg", Zc 400); (0, "kg", Zc 250)])
      empty_db = Returned ()
  ∧ inv_cost_per_unit <$>
      inventory (durable (final
        (stock_all "Oil" [(Zc 2, "kg", Zc 400); (0, "kg", Zc 250)])
        empty_db)) !! "Oil"
    = Some (Some (Zc 325))
  ∧ Zc 200 ≠ Zc 650 / Zc 2
  ∧ Zc 200 ≠ Zc 325.
Proof.
  split; [by apply Qc_is_canon|]. split; [by apply Qc_is_canon|].
  split; [reflexivity|]. split; [reflexivity|].
  split.
  { unfold final. rewrite !run_update_inventory.
    cbn [connect session inventory empty_db].
    rewrite lookup_empty, decide_True by done.
    cbn [snd durable connect session inventory empty_db].
    rewrite lookup_empty, decide_False by by apply Qc_neq.
    cbn. rewrite lookup_insert_eq. cbn. do 2 f_equal. by apply Qc_is_canon. }
  split; [reflexivity|].
  split.
  { unfold final. rewrite !run_stock_all_cons, !run_update_inventory.
    cbn [connect session inventory empty_db fst snd].
    rewrite lookup_empty, decide_False by by apply Qc_neq.
    unfold committed at 1. rewrite run_stock_all_cons, run_update_inventory.
    cbn [connect session inventory set_inventory fst snd].
    rewrite lookup_insert_eq. cbn. rewrite lookup_insert_eq. cbn.
    rewrite np_div_nonzero by by apply Qc_neq.
    do 2 f_equal. by apply Qc_is_canon. }
  split; by apply Qc_neq.
Qed.

(** C2 (amended).  Purchases of one item add up in the order they are
    made: after a nonempty list of purchases, the first of which has a
    quantity other than zero when the item has no row yet, every purchase
    has returned and the row holds the quantity and the total cost on
    record before (zero for an item with no row) with the purchased
    quantities and costs added one after the other, and as cost per unit
    the quotient of the two, which is finite when the quantity is not
    zero. *)
Theorem weighted_average_costing item (calls : list purchase) d :
  calls ≠ [] →
  can_start d item calls →
  ∃ row,
    result (stock_all item calls) d = Returned ()
    ∧ inventory (durable (final (stock_all item calls) d)) !! item = Some row
    ∧ inv_quantity row
      = foldl Qcplus (on_hand d item).1 ((λ p : purchase, p.1.1) <$> calls)
    ∧ inv_total_cost row
      = foldl Qcplus (on_hand d item).2 ((λ p : purchase, p.2) <$> calls)
    ∧ inv_cost_per_unit row = np_div (inv_total_cost row) (inv_quantity row)
    ∧ (inv_quantity row ≠ 0 →
       inv_cost_per_unit row = Some (inv_total_cost row / inv_quantity row)).
Proof.
  intros Hne Hs.
  destruct (stock_all_spec item calls d Hne Hs)
    as (d1 & row & Hrun & Hl & Hrq & Hrt & Hc).
  exists row. unfold result, final. rewrite Hrun. cbn.
  unfold cost_consistent in Hc.
  split; [done|]. split; [done|]. split; [done|]. split; [done|].
  split; [done|]. intros Hnz. rewrite Hc. by apply np_div_nonzero.
Qed.

Lemma weighted_average_costing_witness :
  ∃ row,
    inventory (durable (final
      (stock_all "Oil" [(Zc 2, "kg", Zc 400); (Zc 1, "kg", Zc 250)]) empty_db))
      !! "Oil" = Some row
    ∧ inv_quantity row = Zc 3
    ∧ inv_total_cost row = Zc 650
    ∧ inv_cost_per_unit row = Some (Q2Qc (650 # 3)).
Proof.
  destruct (weighted_average_costing "Oil"
              [(Zc 2, "kg", Zc 400); (Zc 1, "kg", Zc 250)] empty_db)
    as (row & _ & Hl & Hq & Ht & _ & Hc).
  - done.
  - intros _ p [= <-]. by apply Qc_neq.
  - exists row.
    assert (Hq3 : inv_quantity row = Zc 3)
      by (rewrite Hq; by apply Qc_is_canon).
    assert (Ht650 : inv_total_cost row = Zc 650)
      by (rewrite Ht; by apply Qc_is_canon).
    split; [exact Hl|]. split; [exact Hq3|]. split; [exact Ht650|].
    rewrite Hc by (rewrite Hq3; by apply Qc_neq).
    rewrite Hq3, Ht650. f_equal; by apply Qc_is_canon.
Defined.

(** ** Sale processor *)

Lemma filter_none {X} (P : X → Prop) `{!∀ x, Decision (P x)} (l : list X) :
  (∀ x, x ∈ l → ¬ P x) → filter P l = [].
Proof.
  induction l as [|x l IH]; intros Hl; [done|].
  rewrite filter_cons, decide_False by (apply Hl; left).
  apply IH. intros y Hy. apply Hl. by right.
Qed.

Lemma run_pos_billing today dish qty (c : conn) :
  run (pos_billing today dish qty) c =
    match menu (session c) !! dish with
    | None => (Raised IndexError, c)
    | Some price =>
        (Returned (sale_record today dish qty price),
         connect (set_sales (λ l, l ++ [sale_record today dish qty price])
                   (set_inventory
                      (deduct_rows (select_recipes dish (session c)) qty)
                      (session c))))
    end.
Proof.
  unfold pos_billing, query. cbn [mbind prog_mbind prog_bind run].
  destruct (menu (session c) !! dish) as [price|]; cbn [prog_bind run];
    [|reflexivity].
  rewrite run_bind. cbn [run].
  rewrite run_bind, run_deduct_ingredients. reflexivity.
Qed.

Lemma filter_dish_ingredient dish item (l : list recipe_row) :
  filter (λ r, rec_ingredient r = item) (filter (λ r, rec_dish r = dish) l)
  = filter (λ r, rec_dish r = dish ∧ rec_ingredient r = item) l.
Proof.
  rewrite list_filter_filter. apply list_filter_iff. intros r. tauto.
Qed.

(** C3.  A sale of a dish that has a menu price returns the record
    (today, dish, qty, price * qty) and appends it, and nothing else, to
    the sales.  Every inventory row keeps its unit, its total cost and its
    cost per unit, and its quantity goes down by qty times the amounts of
    the rows of the recipe table that belong to the dish and name the
    item: by that row's amount times qty where there is one such row, by
    nothing where there is none, whatever the recipes of other dishes ask
    for.  No inventory row is created, and the expenses, the menu and the
    recipes stay as they were. *)
Theorem sale_deducts_and_records today dish qty price d :
  menu d !! dish = Some price →
  result (pos_billing today dish qty) d
    = Returned {| sale_date := today; sale_dish := dish; sale_qty := qty;
                  sale_total := price * Zc qty |}
  ∧ sales (durable (final (pos_billing today dish qty) d))
    = sales d ++ [{| sale_date := today; sale_dish := dish; sale_qty := qty;
                     sale_total := price * Zc qty |}]
  ∧ (∀ item row,
       inventory d !! item = Some row →
       inventory (durable (final (pos_billing today dish qty) d)) !! item
       = Some
           {| inv_quantity :=
                inv_quantity row
                - foldr Qcplus 0
                    (rec_amount <$>
                       filter (λ r, rec_dish r = dish ∧ rec_ingredient r = item)
                              (recipes d))
                  * Zc qty;
              inv_unit := inv_unit row;
              inv_total_cost := inv_total_cost row;
              inv_cost_per_unit := inv_cost_per_unit row |})
  ∧ (∀ item,
       inventory d !! item = None →
       inventory (durable (final (pos_billing today dish qty) d)) !! item
       = None)
  ∧ (∀ item row r,
       inventory d !! item = Some row →
       filter (λ r, rec_dish r = dish ∧ rec_ingredient r = item) (recipes d)
       = [r] →
       ∃ row',
         inventory (durable (final (pos_billing today dish qty) d)) !! item
           = Some row'
         ∧ inv_quantity row' = inv_quantity row - rec_amount r * Zc qty)
  ∧ (∀ item,
       (∀ r, r ∈ recipes d → rec_dish r = dish → rec_ingredient r ≠ item) →
       inventory (durable (final (pos_billing today dish qty) d)) !! item
         = inventory d !! item)
  ∧ expenses (durable (final (pos_billing today dish qty) d)) = expenses d
  ∧ menu (durable (final (pos_billing today dish qty) d)) = menu d
  ∧ recipes (durable (final (pos_billing today dish qty) d)) = recipes d.
Proof.
  intros Hprice. unfold result, final. rewrite run_pos_billing.
  cbn [connect session]. rewrite Hprice.
  cbn [fst snd durable connect sales inventory expenses menu recipes
       set_sales set_inventory].
  assert (Hall : ∀ item,
    deduct_rows (select_recipes dish d) qty (inventory d) !! item
    = deducted
        (sum (rec_amount <$>
                filter (λ r, rec_dish r = dish ∧ rec_ingredient r = item)
                       (recipes d)) * Zc qty) <$> inventory d !! item).
  { intros item. rewrite lookup_deduct_rows. unfold select_recipes.
    by rewrite filter_dish_ingredient. }
  split; [done|]. split; [done|]. split.
  { intros item row Hrow. by rewrite Hall, Hrow. }
  split.
  { intros item Hrow. by rewrite Hall, Hrow. }
  split.
  { intros item row r Hrow Hone. rewrite Hall, Hrow, Hone. cbn.
    eexists. split; [reflexivity|]. unfold sum. cbn. ring. }
  split; [|done].
  intros item Hnot. rewrite Hall.
  rewrite (filter_none (λ r, rec_dish r = dish ∧ rec_ingredient r = item))
    by (intros r Hr [Hd Hi]; by apply (Hnot r Hr Hd)).
  destruct (inventory d !! item) as [[q u t cpu]|]; cbn; [|done].
  unfold deducted, sum. cbn. do 2 f_equal. ring.
Qed.

Lemma sale_deducts_and_records_witness :
  menu kitchen_db !! "Burger" = Some (Zc 120)
  ∧ result (pos_billing "2026-01-15" "Burger" 2) kitchen_db
      = Returned {| sale_date := "2026-01-15"; sale_dish := "Burger";
                    sale_qty := 2; sale_total := Zc 240 |}
  ∧ sales (durable (final (pos_billing "2026-01-15" "Burger" 2) kitchen_db))
      = [{| sale_date := "2026-01-15"; sale_dish := "Burger";
            sale_qty := 2; sale_total := Zc 240 |}]
  ∧ inventory (durable (final (pos_billing "2026-01-15" "Burger" 2) kitchen_db))
      !! "Oil"
    = Some {| inv_quantity := Zc 4; inv_unit := "litre";
              inv_total_cost := Zc 650; inv_cost_per_unit := Some (Zc 65) |}
  ∧ inventory (durable (final (pos_billing "2026-01-15" "Burger" 2) kitchen_db))
      !! "Rice"
    = Some {| inv_quantity := Zc 4; inv_unit := "kg";
              inv_total_cost := Zc 500; inv_cost_per_unit := Some (Zc 50) |}
  ∧ inventory (durable (final (pos_billing "2026-01-15" "Burger" 2) kitchen_db))
      !! "Potato"
    = Some {| inv_quantity := Zc 5; inv_unit := "kg";
              inv_total_cost := Zc 100; inv_cost_per_unit := Some (Zc 20) |}
  ∧ inventory (durable (final (pos_billing "2026-01-15" "Burger" 2) kitchen_db))
      !! "Cheese" = None.
Proof.
  split; [reflexivity|].
  destruct (sale_deducts_and_records "2026-01-15" "Burger" 2 (Zc 120)
              kitchen_db eq_refl)
    as (Hres & Hsales & Hinv & Hnone & _ & Hsame & _).
  assert (H240 : Zc 120 * Zc 2 = Zc 240) by by apply Qc_is_canon.
  rewrite H240 in Hres, Hsales.
  split; [exact Hres|]. split; [exact Hsales|].
  split.
  { rewrite (Hinv "Oil" _ eq_refl). cbn.
    do 2 f_equal; by apply Qc_is_canon. }
  split.
  { rewrite (Hinv "Rice" _ eq_refl). cbn.
    do 2 f_equal; by apply Qc_is_canon. }
  split.
  { rewrite Hsame; [reflexivity|].
    intros r Hr Hd. unfold kitchen_db in Hr. cbn [recipes] in Hr.
    rewrite !elem_of_cons in Hr. rewrite elem_of_nil in Hr.
    destruct Hr as [-> | [-> | [-> | [-> | [-> | [-> | []]]]]]];
      cbn in Hd |- *; congruence. }
  apply Hnone. reflexivity.
Defined.

(** ** Costing engine *)

Lemma xadd_assoc (a b c : xreal) : xadd (xadd a b) c = xadd a (xadd b c).
Proof. destruct a, b, c; cbn; try done. f_equal. ring. Qed.

Lemma foldl_xadd (a : xreal) (l : list xreal) :
  foldl xadd a l = xadd a (xsum l).
Proof.
  revert a. induction l as [|x l IH]; intros a; cbn.
  - destruct a; cbn; [|done]. f_equal. ring.
  - by rewrite IH, xadd_assoc.
Qed.

Lemma omap_cons_match {X Y} (f : X → option Y) (x : X) (l : list X) :
  omap f (x :: l)
  = match f x with Some y => y :: omap f l | None => omap f l end.
Proof. reflexivity. Qed.

(** A cell that is not NULL reads as the cost per unit of its row. *)
Lemma as_float_stored (row : inventory_row) :
  as_float (stored_cost_per_unit row) = inv_cost_per_unit row.
Proof.
  unfold stored_cost_per_unit.
  destruct (inv_cost_per_unit row); [done|]. by case_decide.
Qed.

(** The loop of [calculate_dish_cost] only reads.  It raises at the first
    recipe row that finds a NULL cost per unit; otherwise it ends with the
    total and the details of the priced rows added to the ones it started
    with. *)
Lemma run_cost_loop (body : xreal * list detail → recipe_row → prog _)
    (rows : list recipe_row) (acc : xreal * list detail) (c : conn) :
  (∀ acc row, body acc row =
     Query (λ d, stored_cost_per_unit <$> inventory d !! rec_ingredient row)
       (λ inv,
          match inv with
          | Some Null => Raise TypeError
          | Some cpu =>
              Ret (xadd acc.1 (xmul (as_float cpu) (Some (rec_amount row))),
                   acc.2 ++ [{| Ingredient := rec_ingredient row;
                                Used_Amount := rec_amount row;
                                Cost := xround2
                                  (xmul (as_float cpu)
                                        (Some (rec_amount row))) |}])
          | None => Ret acc
          end)) →
  let priced :=
    omap (λ r, (λ cost, (r, cost)) <$> line_cost (session c) r) rows in
  run (for_fold rows body acc) c
  = if existsb (null_cost (session c)) rows then (Raised TypeError, c)
    else (Returned (foldl xadd acc.1 (snd <$> priced),
                    acc.2 ++ (line_item <$> priced)), c).
Proof.
  intros Hb. revert acc.
  induction rows as [|row rows IH]; intros acc; cbn [for_fold].
  - cbn. rewrite app_nil_r. by destruct acc.
  - rewrite run_bind, Hb. cbn [run existsb]. rewrite !omap_cons_match.
    assert (Hlc : line_cost (session c) row
      = (λ irow, xmul (inv_cost_per_unit irow) (Some (rec_amount row)))
          <$> inventory (session c) !! rec_ingredient row) by reflexivity.
    rewrite !Hlc. clear Hlc. unfold null_cost at 1.
    destruct (inventory (session c) !! rec_ingredient row) as [irow|];
      cbn [fmap option_fmap option_map run orb].
    + rewrite <- (as_float_stored irow).
      destruct (stored_cost_per_unit irow) as [q| |]; cbn [run orb];
        [| |done]; rewrite IH; (destruct (existsb _ rows); [done|]);
        cbn; by rewrite <- app_assoc.
    + by rewrite IH.
Qed.

Lemma run_calculate_dish_cost dish (c : conn) :
  run (calculate_dish_cost dish) c = (dish_cost_outcome (session c) dish, c).
Proof.
  unfold calculate_dish_cost, query. cbn [mbind prog_mbind prog_bind run].
  change (prog_bind ?f ?p) with (p ≫= f). rewrite run_bind.
  rewrite run_cost_loop by reflexivity.
  unfold dish_cost_outcome, cost_raises.
  destruct (existsb _ _); [done|]. cbn [run fst snd].
  rewrite foldl_xadd. unfold making_cost, priced_rows.
  destruct (xsum _) as [q|]; cbn; [|done].
  by replace (0 + q + Zc PACKAGING_COST) with (q + Zc PACKAGING_COST) by ring.
Qed.

Lemma result_calculate_dish_cost dish d :
  result (calculate_dish_cost dish) d = dish_cost_outcome d dish.
Proof. unfold result. by rewrite run_calculate_dish_cost. Qed.

Lemma cost_raises_false d dish : cost_raises d dish = false ↔ costed d dish.
Proof.
  unfold cost_raises, costed.
  rewrite <- not_true_iff_false, existsb_exists. split.
  - intros Hno r row Hr Hrow Hnull. apply Hno. exists r.
    split; [by apply list_elem_of_In|]. unfold null_cost.
    by rewrite Hrow; cbn; rewrite Hnull.
  - intros Hall (r & Hr%list_elem_of_In & Hnull). unfold null_cost in Hnull.
    destruct (inventory d !! rec_ingredient r) as [row|] eqn:Hrow;
      cbn in Hnull; [|done].
    apply (Hall r row Hr Hrow).
    by destruct (stored_cost_per_unit row).
Qed.

Lemma dish_cost_outcome_costed d dish :
  costed d dish →
  dish_cost_outcome d dish
  = Returned (making_cost d dish, line_item <$> priced_rows d dish).
Proof.
  intros Hc%cost_raises_false. unfold dish_cost_outcome. by rewrite Hc.
Qed.

Lemma dish_cost_outcome_not_costed d dish :
  ¬ costed d dish → dish_cost_outcome d dish = Raised TypeError.
Proof.
  intros Hc. unfold dish_cost_outcome.
  destruct (cost_raises d dish) eqn:Hr; [done|].
  by apply cost_raises_false in Hr.
Qed.

(** The five actions that lead to [null_db] are actions of the
    operator. *)
Lemma reachable_null_db : reachable null_db.
Proof.
  assert (Hoil : "Oil" ∈ suggestions)
    by (unfold suggestions; rewrite !elem_of_cons; auto).
  assert (Hkg : "kg" ∈ units) by (unfold units; rewrite !elem_of_cons; auto).
  assert (Hgm : "gm" ∈ units) by (unfold units; rewrite !elem_of_cons; auto).
  assert (H0 : (0 : Qc) ≤ 0) by (by intros [=]).
  assert (H1 : 0 ≤ Zc 1) by (by intros [=]).
  assert (H120 : 0 ≤ Zc 120) by (by intros [=]).
  unfold reachable.
  eapply rtc_l; [exact (step_save_menu _ ADMIN_PASSWORD "Burger" _ H120)|].
  fold priced_db.
  eapply rtc_l;
    [exact (step_add_inventory priced_db "2026-01-15" _ _ _ _ Hoil Hkg H1 H0)|].
  fold free_oil_db.
  eapply rtc_l.
  { apply (step_add_ingredient free_oil_db "Burger" "Oil" (Zc 1) "gm");
      [by eexists | by eexists | exact H1 | exact Hgm]. }
  fold oil_recipe_db.
  eapply rtc_l.
  { apply (step_generate_bill oil_recipe_db "2026-01-15" "Burger" 1);
      [by eexists | lia]. }
  fold sold_out_db.
  apply rtc_once.
  exact (step_add_inventory sold_out_db "2026-01-16" _ _ _ _ Hoil Hkg H0 H0).
Qed.

(** C4 (the defect).  The operator sets a price for the burger, buys one
    kg of oil for nothing, puts one unit of oil in the burger's recipe,
    sells a burger, and presses "Add Inventory" for oil with quantity and
    cost left at zero.  The row of oil then holds quantity 0, total cost 0
    and, 0/0 being [nan], a NULL cost per unit; the cost calculation of
    the burger raises TypeError instead of returning a total, and so does
    the menu cost analysis. *)
Theorem dish_cost_raises_on_null_cost_per_unit :
  reachable null_db
  ∧ inventory null_db !! "Oil"
    = Some {| inv_quantity := 0; inv_unit := "kg"; inv_total_cost := 0;
              inv_cost_per_unit := None |}
  ∧ numpy_divide 0 0 = Null
  ∧ stored_cost_per_unit <$> inventory null_db !! "Oil" = Some Null
  ∧ menu null_db !! "Burger" = Some (Zc 120)
  ∧ select_recipes "Burger" null_db
    = [{| rec_dish := "Burger"; rec_ingredient := "Oil"; rec_amount := Zc 1;
          rec_unit := "gm" |}]
  ∧ result (calculate_dish_cost "Burger") null_db = Raised TypeError
  ∧ result menu_cost_analysis null_db = Raised TypeError.
Proof.
  split; [exact reachable_null_db|].
  assert (Hoil : inventory null_db !! "Oil"
    = Some {| inv_quantity := 0; inv_unit := "kg"; inv_total_cost := 0;
              inv_cost_per_unit := None |}).
  { vm_compute. do 2 f_equal; by apply Qc_is_canon. }
  split; [exact Hoil|]. split; [reflexivity|].
  split; [by rewrite Hoil|].
  split; [reflexivity|].
  assert (Hrec : select_recipes "Burger" null_db
    = [{| rec_dish := "Burger"; rec_ingredient := "Oil"; rec_amount := Zc 1;
          rec_unit := "gm" |}]).
  { vm_compute. do 2 f_equal; by apply Qc_is_canon. }
  split; [exact Hrec|].
  split; reflexivity.
Qed.

(** ** Transactions of the actions *)

Lemma single_txn_update_inventory item qty unit cost :
  single_txn (update_inventory item qty unit cost).
Proof.
  unfold update_inventory, query, py_div, execute, commit.
  cbn. constructor. intros [row|]; cbn.
  - repeat constructor.
  - destruct (decide (qty = 0)); cbn; repeat constructor.
Qed.

Lemma single_txn_add_fixed_costs today staff_food manager_salary :
  single_txn (add_fixed_costs today staff_food manager_salary).
Proof.
  unfold add_fixed_costs, query, execute, commit.
  destruct staff_food, manager_salary; cbn;
    repeat (first [ constructor | intros [|? ?]; cbn ]).
Qed.

Lemma single_txn_deduct_ingredients dish qty :
  single_txn (deduct_ingredients dish qty).
Proof.
  unfold deduct_ingredients, query. cbn. constructor. intros rows.
  change (prog_bind ?f ?p) with (p ≫= f).
  apply single_txn_bind.
  - apply commit_free_for_each. intros row. repeat constructor.
  - intros []. repeat constructor.
Qed.

Lemma add_fixed_costs_returns today staff_food manager_salary (c : conn) :
  (run (add_fixed_costs today staff_food manager_salary) c).1 = Returned ().
Proof.
  unfold add_fixed_costs, query, execute, commit.
  destruct staff_food, manager_salary; cbn;
    repeat (match goal with
            | |- context [match ?l with [] => _ | _ :: _ => _ end] =>
                destruct l; cbn
            end); reflexivity.
Qed.

(** Two transactions in a row: an interruption leaves the database as it
    was at the start, after the first, or after the second. *)
Lemma interrupted_seq {A B} (p : prog A) (f : A → prog B) (k : nat) (c : conn) :
  single_txn p → (∀ a, single_txn (f a)) →
  interrupted (p ≫= f) k c = durable c
  ∨ interrupted (p ≫= f) k c = durable (run p c).2
  ∨ interrupted (p ≫= f) k c = durable (run (p ≫= f) c).2.
Proof.
  intros Hp Hf. rewrite interrupted_bind, run_bind.
  pose proof (single_txn_all_or_nothing p Hp c k) as Hk.
  destruct (run p c) as [[a|e] c'] eqn:Hrun; cbn [snd] in *.
  - destruct (k <? statements p c)%nat.
    + destruct Hk as [E|E]; rewrite E; auto.
    + destruct (single_txn_all_or_nothing (f a) (Hf a) c'
                  (k - statements p c)%nat) as [E|E]; rewrite E; auto.
  - destruct Hk as [E|E]; rewrite E; auto.
Qed.

(** A sale is two transactions: the deductions, committed by
    [deduct_ingredients], then the sale record. *)
Lemma interrupted_pos_billing today dish qty (k : nat) d :
  interrupted (pos_billing today dish qty) k (connect d) = d
  ∨ interrupted (pos_billing today dish qty) k (connect d)
    = durable (final (deduct_ingredients dish qty) d)
  ∨ interrupted (pos_billing today dish qty) k (connect d)
    = durable (final (pos_billing today dish qty) d).
Proof.
  unfold final. rewrite run_pos_billing. change (session (connect d)) with d.
  remember (interrupted (pos_billing today dish qty) k (connect d)) as X eqn:HX.
  unfold pos_billing in HX. rewrite interrupted_bind in HX.
  unfold query in HX. cbn [run statements] in HX.
  rewrite Nat.sub_0_r in HX. change (k <? 0)%nat with false in HX.
  cbn match in HX. change (session (connect d)) with d in HX.
  destruct (menu d !! dish) as [price|]; [|left; exact HX].
  rewrite interrupted_bind in HX. cbn [run statements] in HX.
  rewrite Nat.sub_0_r in HX. change (k <? 0)%nat with false in HX.
  cbn match in HX.
  match type of HX with
  | _ = interrupted (deduct_ingredients dish qty ≫= ?f) k (connect d) =>
      destruct (interrupted_seq (deduct_ingredients dish qty) f k (connect d))
        as [E|[E|E]]
  end.
  - apply single_txn_deduct_ingredients.
  - intros []. unfold execute, commit. cbn. repeat constructor.
  - left. by rewrite HX, E.
  - right; left. rewrite HX, E, run_deduct_ingredients. reflexivity.
  - right; right. rewrite HX, E, run_bind, run_deduct_ingredients. reflexivity.
Qed.

(** The "Add Inventory" button is two transactions as well: the purchase,
    committed by [update_inventory], then the Bazar expense. *)
Lemma interrupted_bazar_entry today item qty unit cost (k : nat) d :
  interrupted (bazar_entry today item qty unit cost) k (connect d) = d
  ∨ interrupted (bazar_entry today item qty unit cost) k (connect d)
    = durable (final (update_inventory item qty unit cost) d)
  ∨ interrupted (bazar_entry today item qty unit cost) k (connect d)
    = durable (final (bazar_entry today item qty unit cost) d).
Proof.
  unfold bazar_entry, final. apply interrupted_seq.
  - apply single_txn_update_inventory.
  - intros []. unfold execute, commit. cbn. repeat constructor.
Qed.

(** C5 (as stated, refuted).  Interrupted after its second statement (the
    commit of [deduct_ingredients]), the sale of two Burgers leaves Oil
    deducted from 3 to 1 and no sale record: the sale is not
    all-or-nothing. *)
Lemma sale_interrupted_between_commits :
  inv_quantity <$> inventory oil_db !! "Oil" = Some (Zc 3)
  ∧ inv_quantity <$>
      inventory (interrupted (pos_billing "2026-01-15" "Burger" 2) 2
                   (connect oil_db)) !! "Oil" = Some (Zc 1)
  ∧ sales (interrupted (pos_billing "2026-01-15" "Burger" 2) 2
             (connect oil_db)) = []
  ∧ sales (durable (final (pos_billing "2026-01-15" "Burger" 2) oil_db))
    = [sale_record "2026-01-15" "Burger" 2 (Zc 120)]
  ∧ ¬ all_or_nothing (pos_billing "2026-01-15" "Burger" 2) (connect oil_db).
Proof.
  assert (H1 : inv_quantity <$>
      inventory (interrupted (pos_billing "2026-01-15" "Burger" 2) 2
                   (connect oil_db)) !! "Oil" = Some (Zc 1)) by reflexivity.
  assert (H2 : sales (interrupted (pos_billing "2026-01-15" "Burger" 2) 2
             (connect oil_db)) = []) by reflexivity.
  assert (H3 : sales (durable (final (pos_billing "2026-01-15" "Burger" 2)
                                 oil_db))
               = [sale_record "2026-01-15" "Burger" 2 (Zc 120)])
    by reflexivity.
  repeat split; try done.
  intros Hall. destruct (Hall 2%nat) as [E|E].
  - rewrite E in H1. cbn in H1. by injection H1.
  - unfold final in H3. rewrite E, H3 in H2. discriminate H2.
Qed.

Lemma raise_writes_nothing_update_inventory item qty unit cost d e :
  result (update_inventory item qty unit cost) d = Raised e →
  final (update_inventory item qty unit cost) d = connect d.
Proof.
  unfold result, final. rewrite run_update_inventory. cbn [connect session].
  destruct (inventory d !! item); [done|].
  by destruct (decide (qty = 0)).
Qed.

Lemma raise_writes_nothing_pos_billing today dish qty d e :
  result (pos_billing today dish qty) d = Raised e →
  final (pos_billing today dish qty) d = connect d.
Proof.
  unfold result, final. rewrite run_pos_billing. cbn [connect session].
  by destruct (menu d !! dish).
Qed.

(** C5 (amended).  [update_inventory] and [add_fixed_costs] commit once,
    at their end: interrupted at any point they leave the database as it
    was or as they leave it when they end.  A sale and the "Add Inventory"
    action commit twice, the first time inside [deduct_ingredients] or
    [update_inventory]: interrupted, they leave the database as it was, as
    it is after the inventory update alone, or as it is at their end.  An
    action that raises has written nothing. *)
Theorem helpers_commit_one_transaction_each
    today item qty unit cost staff_food manager_salary dish n (k : nat) d :
  all_or_nothing (update_inventory item qty unit cost) (connect d)
  ∧ all_or_nothing (add_fixed_costs today staff_food manager_salary) (connect d)
  ∧ (interrupted (pos_billing today dish n) k (connect d) = d
     ∨ interrupted (pos_billing today dish n) k (connect d)
       = durable (final (deduct_ingredients dish n) d)
     ∨ interrupted (pos_billing today dish n) k (connect d)
       = durable (final (pos_billing today dish n) d))
  ∧ (interrupted (bazar_entry today item qty unit cost) k (connect d) = d
     ∨ interrupted (bazar_entry today item qty unit cost) k (connect d)
       = durable (final (update_inventory item qty unit cost) d)
     ∨ interrupted (bazar_entry today item qty unit cost) k (connect d)
       = durable (final (bazar_entry today item qty unit cost) d))
  ∧ (∀ e, result (update_inventory item qty unit cost) d = Raised e →
          final (update_inventory item qty unit cost) d = connect d)
  ∧ (∀ e, result (pos_billing today dish n) d = Raised e →
          final (pos_billing today dish n) d = connect d)
  ∧ result (add_fixed_costs today staff_food manager_salary) d = Returned ().
Proof.
  split; [apply single_txn_all_or_nothing, single_txn_update_inventory|].
  split; [apply single_txn_all_or_nothing, single_txn_add_fixed_costs|].
  split; [apply interrupted_pos_billing|].
  split; [apply interrupted_bazar_entry|].
  split; [intros e; apply raise_writes_nothing_update_inventory|].
  split; [intros e; apply raise_writes_nothing_pos_billing|].
  apply add_fixed_costs_returns.
Qed.

Lemma helpers_commit_one_transaction_each_witness :
  result (update_inventory "Oil" 0 "kg" (Zc 400)) empty_db
    = Raised ZeroDivisionError
  ∧ final (update_inventory "Oil" 0 "kg" (Zc 400)) empty_db = connect empty_db.
Proof.
  split; [reflexivity|].
  destruct (helpers_commit_one_transaction_each "2026-01-15" "Oil" 0 "kg"
              (Zc 400) true true "Burger" 1 0%nat empty_db)
    as (_ & _ & _ & _ & H & _).
  by apply (H ZeroDivisionError).
Defined.

(** ** Fixed daily costs *)

Lemma select_expenses_of_app today category extra d :
  select_expenses_of today category (set_expenses (λ l, l ++ extra) d)
  = select_expenses_of today category d
    ++ filter (λ e, exp_date e = today ∧ exp_category e = category) extra.
Proof. unfold select_expenses_of. cbn. apply filter_app. Qed.

Lemma filter_fixed_row today category category' amount :
  filter (λ e, exp_date e = today ∧ exp_category e = category)
    [fixed_row today category' amount]
  = if decide (category' = category) then [fixed_row today category' amount]
    else [].
Proof.
  rewrite filter_cons, filter_nil. cbn.
  destruct (decide (category' = category)) as [->|Hne].
  - by rewrite decide_True.
  - rewrite decide_False; [done | intros [_ ?]; done].
Qed.

Lemma set_expenses_nil d : set_expenses (λ l, l ++ []) d = d.
Proof. destruct d. unfold set_expenses. cbn. by rewrite app_nil_r. Qed.

Lemma set_expenses_app extra extra' d :
  set_expenses (λ l, l ++ extra') (set_expenses (λ l, l ++ extra) d)
  = set_expenses (λ l, l ++ (extra ++ extra')) d.
Proof. unfold set_expenses. cbn. by rewrite app_assoc. Qed.

Lemma missing_after_other today category category' amount d :
  category' ≠ category →
  missing today category
    (set_expenses (λ l, l ++ [fixed_row today category' amount]) d)
  = missing today category d.
Proof.
  intros Hne. unfold missing.
  rewrite select_expenses_of_app, filter_fixed_row, decide_False by done.
  by rewrite app_nil_r.
Qed.

Lemma run_add_fixed_costs today staff_food manager_salary (c : conn) :
  run (add_fixed_costs today staff_food manager_salary) c =
    committed (set_expenses
      (λ l, l ++ fixed_rows today staff_food manager_salary (session c))
      (session c)).
Proof.
  unfold add_fixed_costs, fixed_rows.
  assert (Hblock : ∀ (flag : bool) category amount (c0 : conn),
    run (if flag then
           exists_ ← query (select_expenses_of today category);
           match exists_ with
           | [] => execute (sql_insert_expenses
                     {| exp_date := today; exp_category := category;
                        exp_amount := Zc amount; exp_note := "Daily fixed" |})
           | _ => Ret ()
           end
         else Ret ()) c0
    = (Returned (),
       {| durable := durable c0;
          session := set_expenses
            (λ l, l ++ (if flag && missing today category (session c0)
                        then [fixed_row today category amount] else []))
            (session c0) |})).
  { intros flag category amount c0. unfold missing.
    destruct flag; cbn.
    - destruct (select_expenses_of today category (session c0)); cbn.
      + reflexivity.
      + rewrite set_expenses_nil. by destruct c0.
    - rewrite set_expenses_nil. by destruct c0. }
  rewrite run_bind, (Hblock staff_food "Staff Food" FIXED_STAFF_FOOD c).
  cbv beta iota.
  rewrite run_bind, (Hblock manager_salary "Manager Salary" FIXED_MANAGER_SALARY).
  cbn [session durable run commit]. unfold committed, connect.
  rewrite set_expenses_app.
  destruct (staff_food && missing today "Staff Food" (session c)).
  - rewrite missing_after_other by done. reflexivity.
  - rewrite set_expenses_nil. reflexivity.
Qed.

Lemma filter_if_fixed_row today category category' amount (b : bool) :
  filter (λ e, exp_date e = today ∧ exp_category e = category)
    (if b then [fixed_row today category' amount] else [])
  = if b && bool_decide (category' = category)
    then [fixed_row today category' amount] else [].
Proof.
  destruct b; cbn [andb]; [|done].
  rewrite filter_fixed_row. by case_bool_decide; case_decide.
Qed.

Lemma select_after_fixed_costs today staff_food manager_salary d :
  let d' := set_expenses
              (λ l, l ++ fixed_rows today staff_food manager_salary d) d in
  select_expenses_of today "Staff Food" d'
    = select_expenses_of today "Staff Food" d
      ++ (if staff_food && missing today "Staff Food" d
          then [fixed_row today "Staff Food" FIXED_STAFF_FOOD] else [])
  ∧ select_expenses_of today "Manager Salary" d'
    = select_expenses_of today "Manager Salary" d
      ++ (if manager_salary && missing today "Manager Salary" d
          then [fixed_row today "Manager Salary" FIXED_MANAGER_SALARY] else []).
Proof.
  cbv zeta. rewrite !select_expenses_of_app. unfold fixed_rows.
  rewrite !filter_app, !filter_if_fixed_row.
  rewrite !bool_decide_eq_true_2 by done.
  rewrite !bool_decide_eq_false_2 by done.
  rewrite !andb_true_r, !andb_false_r. cbn [app]. by rewrite app_nil_r.
Qed.

Lemma count_after_fixed_costs today staff_food manager_salary d :
  let d' := set_expenses
              (λ l, l ++ fixed_rows today staff_food manager_salary d) d in
  count_fixed today "Staff Food" d'
    = (if staff_food && missing today "Staff Food" d then 1
       else count_fixed today "Staff Food" d)%nat
  ∧ count_fixed today "Manager Salary" d'
    = (if manager_salary && missing today "Manager Salary" d then 1
       else count_fixed today "Manager Salary" d)%nat.
Proof.
  cbv zeta. unfold count_fixed.
  destruct (select_after_fixed_costs today staff_food manager_salary d)
    as [-> ->].
  unfold missing. split.
  - destruct staff_food, (select_expenses_of today "Staff Food" d); cbn;
      rewrite ?app_nil_r; done.
  - destruct manager_salary, (select_expenses_of today "Manager Salary" d);
      cbn; rewrite ?app_nil_r; done.
Qed.

Lemma fixed_rows_after_fixed_costs today staff_food manager_salary d :
  fixed_rows today staff_food manager_salary
    (set_expenses (λ l, l ++ fixed_rows today staff_food manager_salary d) d)
  = [].
Proof.
  unfold fixed_rows at 1. unfold missing at 1 2.
  destruct (select_after_fixed_costs today staff_food manager_salary d)
    as [-> ->].
  unfold missing.
  destruct staff_food, manager_salary,
    (select_expenses_of today "Staff Food" d),
    (select_expenses_of today "Manager Salary" d); reflexivity.
Qed.

Lemma run_apply_fixed_costs today (calls : list (bool * bool)) :
  ∀ d,
    (count_fixed today "Staff Food" d ≤ 1)%nat →
    (count_fixed today "Manager Salary" d ≤ 1)%nat →
    ∃ d', run (apply_fixed_costs today calls) (connect d) = committed d'
          ∧ (count_fixed today "Staff Food" d' ≤ 1)%nat
          ∧ (count_fixed today "Manager Salary" d' ≤ 1)%nat.
Proof.
  induction calls as [|[sf ms] calls IH]; intros d Hs Hm.
  - exists d. by repeat split.
  - unfold apply_fixed_costs. cbn [for_each fst snd].
    rewrite run_bind, run_add_fixed_costs. unfold committed at 1.
    cbn [connect session].
    apply IH.
    + destruct (count_after_fixed_costs today sf ms d) as [-> _].
      destruct (sf && _); lia.
    + destruct (count_after_fixed_costs today sf ms d) as [_ ->].
      destruct (ms && _); lia.
Qed.

(** C6.  One call inserts, for each requested category, the fixed row of
    today when no row of today has that category, and nothing otherwise;
    a second call with the same request changes nothing; and when the
    day starts with at most one row of each category, any number of calls
    leaves at most one Staff Food row and at most one Manager Salary row
    for today. *)
Theorem fixed_costs_once_per_day today staff_food manager_salary
    (calls : list (bool * bool)) d :
  (count_fixed today "Staff Food" d ≤ 1)%nat →
  (count_fixed today "Manager Salary" d ≤ 1)%nat →
  expenses (durable (final (add_fixed_costs today staff_food manager_salary) d))
    = expenses d
      ++ (if staff_food && missing today "Staff Food" d
          then [fixed_row today "Staff Food" 100] else [])
      ++ (if manager_salary && missing today "Manager Salary" d
          then [fixed_row today "Manager Salary" 450] else [])
  ∧ final (add_fixed_costs today staff_food manager_salary)
      (durable (final (add_fixed_costs today staff_food manager_salary) d))
    = final (add_fixed_costs today staff_food manager_salary) d
  ∧ result (apply_fixed_costs today calls) d = Returned ()
  ∧ (count_fixed today "Staff Food"
       (durable (final (apply_fixed_costs today calls) d)) ≤ 1)%nat
  ∧ (count_fixed today "Manager Salary"
       (durable (final (apply_fixed_costs today calls) d)) ≤ 1)%nat.
Proof.
  intros Hs Hm. unfold result, final.
  rewrite !run_add_fixed_costs. cbn [committed connect session durable snd].
  split; [reflexivity|]. split.
  - rewrite fixed_rows_after_fixed_costs, set_expenses_nil. reflexivity.
  - destruct (run_apply_fixed_costs today calls d Hs Hm)
      as (d' & -> & Hs' & Hm').
    by repeat split.
Qed.

Lemma fixed_costs_once_per_day_witness :
  (count_fixed "2026-01-15" "Staff Food" empty_db ≤ 1)%nat
  ∧ expenses (durable (final (add_fixed_costs "2026-01-15" true true) empty_db))
    = [fixed_row "2026-01-15" "Staff Food" 100;
       fixed_row "2026-01-15" "Manager Salary" 450]
  ∧ (count_fixed "2026-01-15" "Staff Food"
       (durable (final (apply_fixed_costs "2026-01-15"
                          [(true, true); (true, false); (true, true)])
                       empty_db)) ≤ 1)%nat.
Proof.
  assert (H0 : (count_fixed "2026-01-15" "Staff Food" empty_db ≤ 1)%nat)
    by (cbn; lia).
  assert (H1 : (count_fixed "2026-01-15" "Manager Salary" empty_db ≤ 1)%nat)
    by (cbn; lia).
  destruct (fixed_costs_once_per_day "2026-01-15" true true
              [(true, true); (true, false); (true, true)] empty_db H0 H1)
    as (He & _ & _ & Hs & _).
  split; [exact H0|]. split; [exact He | exact Hs].
Defined.

(** ** Ledger reports *)

Lemma plain_no_wildcard (c : ascii) :
  plain c = true →
  Ascii.eqb c "%" = false ∧ Ascii.eqb c "_" = false
  ∧ ∀ x, Ascii.eqb (lower c) (lower x) = Ascii.eqb c x.
Proof.
  destruct c as [[] [] [] [] [] [] [] []]; intros Hc;
    try discriminate Hc; (split; [reflexivity|]; split; [reflexivity|]);
    intros [[] [] [] [] [] [] [] []]; reflexivity.
Qed.

Lemma like_percent (l : list ascii) : like ["%"%char] l = true.
Proof. induction l as [|x l IH]; [reflexivity|]. exact IH. Qed.

(** For a pattern made of a month and [%], LIKE is the prefix test. *)
Lemma sql_like_prefix (month s : string) :
  strftime_shaped month →
  sql_like (month +:+ "%") s = String.prefix month s.
Proof.
  unfold strftime_shaped, sql_like. revert s.
  induction month as [|c month IH]; intros s Hm.
  - change (like ["%"%char] (list_ascii_of_string s)
            = String.prefix EmptyString s).
    rewrite like_percent. by destruct s.
  - cbn in Hm. apply andb_true_iff in Hm as [Hc Hm].
    destruct (plain_no_wildcard c Hc) as (Hp & Hu & Hx).
    change (String c month +:+ "%") with (String c (month +:+ "%")).
    cbn [list_ascii_of_string like]. rewrite Hp, Hu.
    destruct s as [|x s]; cbn [list_ascii_of_string String.prefix];
      [reflexivity|].
    rewrite Hx. destruct (ascii_dec c x) as [->|Hne].
    + rewrite Ascii.eqb_refl. cbn. by apply IH.
    + apply Ascii.eqb_neq in Hne. by rewrite Hne.
Qed.

Lemma run_daily_report today (c : conn) :
  run (daily_report today) c =
    (Returned (filter (λ s, sale_date s = today) (sales (session c)),
               filter (λ e, exp_date e = today) (expenses (session c)),
               sum (sale_total <$>
                      filter (λ s, sale_date s = today) (sales (session c)))
               - sum (exp_amount <$>
                        filter (λ e, exp_date e = today) (expenses (session c)))),
     c).
Proof.
  unfold daily_report, query. cbn [mbind prog_mbind prog_bind run].
  by destruct (filter _ (sales _)), (filter _ (expenses _)).
Qed.

Lemma run_monthly_report month (c : conn) :
  strftime_shaped month →
  run (monthly_report month) c =
    (Returned
       (filter (λ s, String.prefix month (sale_date s) = true)
               (sales (session c)),
        filter (λ e, String.prefix month (exp_date e) = true)
               (expenses (session c))),
     c).
Proof.
  intros Hm. unfold monthly_report, query.
  cbn [mbind prog_mbind prog_bind run]. do 3 f_equal.
  - apply list_filter_iff. intros s. by rewrite sql_like_prefix.
  - apply list_filter_iff. intros e. by rewrite sql_like_prefix.
Qed.

Lemma sum_foldl (l : list Qc) : sum l = foldl Qcplus 0 l.
Proof.
  unfold sum.
  assert (H : ∀ a, foldl Qcplus a l = a + foldr Qcplus 0 l).
  { induction l as [|x l IH]; intros a; cbn; [ring|]. rewrite IH. ring. }
  rewrite H. ring.
Qed.

Lemma run_daily_report_page today (c : conn) :
  run (daily_report_page today) c =
    (Returned
       {| shown_sales := filter (λ s, sale_date s = today) (sales (session c));
          shown_expenses :=
            filter (λ e, exp_date e = today) (expenses (session c));
          shown_net_profit :=
            Some (sum (sale_total <$>
                         filter (λ s, sale_date s = today) (sales (session c)))
                  - sum (exp_amount <$>
                           filter (λ e, exp_date e = today)
                                  (expenses (session c)))) |},
     c).
Proof.
  unfold daily_report_page. by rewrite run_bind, run_daily_report.
Qed.

Lemma run_monthly_report_page month (c : conn) :
  strftime_shaped month →
  run (monthly_report_page month) c =
    (Returned
       {| shown_sales :=
            filter (λ s, String.prefix month (sale_date s) = true)
                   (sales (session c));
          shown_expenses :=
            filter (λ e, String.prefix month (exp_date e) = true)
                   (expenses (session c));
          shown_net_profit := None |},
     c).
Proof.
  intros Hm. unfold monthly_report_page.
  by rewrite run_bind, (run_monthly_report _ _ Hm).
Qed.

(** C9 (as stated, refuted).  On a store with no sale and no expense the
    monthly report shows two empty tables and no net profit: it computes
    no sum, so it does not show a net profit of zero.  The daily report
    does. *)
Lemma monthly_report_shows_no_net_profit :
  result (monthly_report "2026-01") empty_db = Returned ([], [])
  ∧ result (monthly_report_page "2026-01") empty_db
    = Returned {| shown_sales := []; shown_expenses := [];
                  shown_net_profit := None |}
  ∧ result (monthly_report_page "2026-01") empty_db
    ≠ Returned {| shown_sales := []; shown_expenses := [];
                  shown_net_profit := Some 0 |}
  ∧ result (daily_report_page "2026-01-15") empty_db
    = Returned {| shown_sales := []; shown_expenses := [];
                  shown_net_profit := Some 0 |}.
Proof.
  split; [reflexivity|]. split; [reflexivity|].
  split; [intros [=]|reflexivity].
Qed.

(** C9 (amended).  The daily report shows the sales and the expenses
    whose date is today and, as net profit, the totals of those sales
    added up minus the amounts of those expenses added up; with no such
    row it shows two empty tables and a net profit of zero.  The monthly
    report shows the sales and the expenses whose date starts with the
    month and no net profit; with no such row it shows two empty tables.
    Neither raises, neither writes. *)
Theorem reports_filter_and_sum today month d :
  strftime_shaped month →
  result (daily_report today) d
    = Returned (filter (λ s, sale_date s = today) (sales d),
                filter (λ e, exp_date e = today) (expenses d),
                foldl Qcplus 0
                  (sale_total <$> filter (λ s, sale_date s = today) (sales d))
                - foldl Qcplus 0
                    (exp_amount <$>
                       filter (λ e, exp_date e = today) (expenses d)))
  ∧ result (daily_report_page today) d
    = Returned
        {| shown_sales := filter (λ s, sale_date s = today) (sales d);
           shown_expenses := filter (λ e, exp_date e = today) (expenses d);
           shown_net_profit :=
             Some (foldl Qcplus 0
                     (sale_total <$>
                        filter (λ s, sale_date s = today) (sales d))
                   - foldl Qcplus 0
                       (exp_amount <$>
                          filter (λ e, exp_date e = today) (expenses d))) |}
  ∧ result (monthly_report month) d
    = Returned (filter (λ s, String.prefix month (sale_date s) = true) (sales d),
                filter (λ e, String.prefix month (exp_date e) = true)
                       (expenses d))
  ∧ result (monthly_report_page month) d
    = Returned
        {| shown_sales :=
             filter (λ s, String.prefix month (sale_date s) = true) (sales d);
           shown_expenses :=
             filter (λ e, String.prefix month (exp_date e) = true) (expenses d);
           shown_net_profit := None |}
  ∧ final (daily_report today) d = connect d
  ∧ final (monthly_report month) d = connect d
  ∧ (filter (λ s, sale_date s = today) (sales d) = [] →
     filter (λ e, exp_date e = today) (expenses d) = [] →
     result (daily_report today) d = Returned ([], [], 0))
  ∧ (filter (λ s, String.prefix month (sale_date s) = true) (sales d) = [] →
     filter (λ e, String.prefix month (exp_date e) = true) (expenses d) = [] →
     result (monthly_report month) d = Returned ([], []))
  ∧ (sales d = [] → expenses d = [] →
     result (daily_report today) d = Returned ([], [], 0)
     ∧ result (monthly_report month) d = Returned ([], [])).
Proof.
  intros Hm. unfold result, final.
  rewrite run_daily_report, run_daily_report_page,
    (run_monthly_report _ _ Hm), (run_monthly_report_page _ _ Hm).
  rewrite !sum_foldl.
  cbn [fst snd connect session].
  do 6 (split; [done|]). split; [|split].
  - intros -> ->. reflexivity.
  - intros -> ->. reflexivity.
  - intros Hs He. rewrite Hs, He. by split.
Qed.

Lemma reports_filter_and_sum_witness :
  strftime_shaped "2026-01"
  ∧ (∃ s1 s2 s3 e1 e2 e3,
       result (daily_report "2026-01-15") busy_db
       = Returned ([s1; s2; s3], [e1; e2; e3], Zc (-45)))
  ∧ (∃ s1 s2 s3 s4 e1 e2 e3 e4,
       result (monthly_report_page "2026-01") busy_db
       = Returned {| shown_sales := [s1; s2; s3; s4];
                     shown_expenses := [e1; e2; e3; e4];
                     shown_net_profit := None |})
  ∧ result (daily_report "2026-01-15") empty_db = Returned ([], [], 0)
  ∧ result (monthly_report "2026-01") empty_db = Returned ([], []).
Proof.
  assert (Hm : strftime_shaped "2026-01") by reflexivity.
  destruct (reports_filter_and_sum "2026-01-15" "2026-01" busy_db Hm)
    as (Hd & _ & _ & Hmo & _).
  destruct (reports_filter_and_sum "2026-01-15" "2026-01" empty_db Hm)
    as (_ & _ & _ & _ & _ & _ & _ & _ & He).
  destruct (He eq_refl eq_refl) as [He1 He2].
  split; [exact Hm|]. split.
  { do 6 eexists. rewrite Hd. cbn.
    apply (f_equal Returned), (f_equal2 pair); [reflexivity|].
    by apply Qc_is_canon. }
  split.
  { do 8 eexists. rewrite Hmo. reflexivity. }
  split; [exact He1 | exact He2].
Defined.

(** * Further properties *)

(** ** Unit normalizer *)

Lemma base_unit_type_cases (unit : string) :
  base_unit_type unit = "gm" ∨ base_unit_type unit = "ml"
  ∨ base_unit_type unit = "pieces".
Proof. unfold base_unit_type. repeat case_bool_decide; auto. Qed.

(** X1.  The unit of a normalized amount is gm, ml or pieces, and
    normalizing once more changes neither the unit nor the amount. *)
Theorem normalizing_twice_changes_nothing (value : Qc) (unit : string) :
  base_unit_type unit ∈ ["gm"; "ml"; "pieces"]
  ∧ base_unit_type (base_unit_type unit) = base_unit_type unit
  ∧ to_base_unit (to_base_unit value unit) (base_unit_type unit)
    = to_base_unit value unit.
Proof.
  assert (Hone : ∀ v u, u = "gm" ∨ u = "ml" ∨ u = "pieces" →
                        base_unit_type u = u ∧ to_base_unit v u = v).
  { intros v u Hu. unfold to_base_unit. rewrite conversion_lookup.
    destruct Hu as [-> | [-> | ->]]; (split; [reflexivity|]);
      (transitivity (v * 1); [f_equal; apply Qc_is_canon; reflexivity | ring]). }
  pose proof (base_unit_type_cases unit) as Hu.
  destruct (Hone (to_base_unit value unit) _ Hu) as [H1 H2].
  split; [|by split].
  destruct Hu as [-> | [-> | ->]]; rewrite !elem_of_cons; auto.
Qed.

(** ** What purchases and sales leave alone *)

(** X2.  A purchase changes no table but the inventory, and there no row
    but the one of its item; it removes no row and adds at most the row of
    its item.  This holds whether it returns or raises. *)
Theorem purchase_touches_one_inventory_row item qty unit cost d :
  menu (durable (final (update_inventory item qty unit cost) d)) = menu d
  ∧ recipes (durable (final (update_inventory item qty unit cost) d))
    = recipes d
  ∧ sales (durable (final (update_inventory item qty unit cost) d)) = sales d
  ∧ expenses (durable (final (update_inventory item qty unit cost) d))
    = expenses d
  ∧ (∀ other, other ≠ item →
       inventory (durable (final (update_inventory item qty unit cost) d))
         !! other = inventory d !! other)
  ∧ dom (inventory d)
    ⊆ dom (inventory (durable (final (update_inventory item qty unit cost) d)))
  ∧ dom (inventory (durable (final (update_inventory item qty unit cost) d)))
    ⊆ {[item]} ∪ dom (inventory d).
Proof.
  unfold final. rewrite run_update_inventory. cbn [connect session].
  destruct (inventory d !! item) as [row|] eqn:Hrow;
    [|destruct (decide (qty = 0))]; cbn.
  - do 4 (split; [done|]). split; [intros; by apply lookup_insert_ne|].
    rewrite dom_insert_L. set_solver.
  - do 5 (split; [done|]). set_solver.
  - do 4 (split; [done|]). split; [intros; by apply lookup_insert_ne|].
    rewrite dom_insert_L. set_solver.
Qed.

Lemma dom_deduct_rows rows qty (inv : gmap string inventory_row) :
  dom (deduct_rows rows qty inv) = dom inv.
Proof.
  apply set_eq. intros item.
  by rewrite !elem_of_dom, lookup_deduct_rows, fmap_is_Some.
Qed.

(** X3.  A sale never looks at the stock: for a dish with a menu price it
    returns whatever the quantities are, it keeps the set of inventory
    items (no row is created for an ingredient that has none), and when
    the recipe asks for more than the quantity on record the quantity
    becomes negative. *)
Theorem sale_never_checks_stock today dish qty price d item row :
  menu d !! dish = Some price →
  inventory d !! item = Some row →
  inv_quantity row < recipe_amount d dish item * Zc qty →
  result (pos_billing today dish qty) d
    = Returned (sale_record today dish qty price)
  ∧ dom (inventory (durable (final (pos_billing today dish qty) d)))
    = dom (inventory d)
  ∧ ∃ row',
      inventory (durable (final (pos_billing today dish qty) d)) !! item
        = Some row'
      ∧ inv_quantity row' < 0.
Proof.
  intros Hprice Hrow Hlt. unfold result, final. rewrite run_pos_billing.
  cbn [connect session]. rewrite Hprice. cbn.
  split; [done|]. split; [apply dom_deduct_rows|].
  rewrite lookup_deduct_rows, Hrow. cbn. eexists. split; [reflexivity|].
  cbn. fold (recipe_amount d dish item).
  apply Qclt_minus_iff in Hlt. apply Qclt_minus_iff.
  replace (0 + - (inv_quantity row - recipe_amount d dish item * Zc qty))
    with (recipe_amount d dish item * Zc qty + - inv_quantity row) by ring.
  exact Hlt.
Qed.

Lemma sale_never_checks_stock_witness :
  menu oil_db !! "Burger" = Some (Zc 120)
  ∧ ∃ row',
      inventory (durable (final (pos_billing "2026-01-15" "Burger" 5) oil_db))
        !! "Oil" = Some row'
      ∧ inv_quantity row' < 0.
Proof.
  split; [reflexivity|].
  destruct (sale_never_checks_stock "2026-01-15" "Burger" 5 (Zc 120) oil_db
              "Oil" _ eq_refl eq_refl) as (_ & _ & H); [reflexivity|].
  exact H.
Defined.

(** ** Actions and the daily report *)

Lemma sum_app (l l' : list Qc) : sum (l ++ l') = sum l + sum l'.
Proof.
  unfold sum. induction l as [|x l IH]; cbn; [ring|]. rewrite IH. ring.
Qed.

Lemma result_daily_report today d :
  result (daily_report today) d
  = Returned (filter (λ s, sale_date s = today) (sales d),
              filter (λ e, exp_date e = today) (expenses d),
              net_profit today d).
Proof. unfold result. by rewrite run_daily_report. Qed.

Lemma net_profit_more_sales t extra d0 d :
  sales d = sales d0 ++ extra → expenses d = expenses d0 →
  net_profit t d
  = net_profit t d0 + sum (sale_total <$> filter (λ s, sale_date s = t) extra).
Proof.
  intros Hs He. unfold net_profit. rewrite Hs, He.
  rewrite filter_app, fmap_app, sum_app. ring.
Qed.

Lemma net_profit_more_expenses t extra d0 d :
  sales d = sales d0 → expenses d = expenses d0 ++ extra →
  net_profit t d
  = net_profit t d0 - sum (exp_amount <$> filter (λ e, exp_date e = t) extra).
Proof.
  intros Hs He. unfold net_profit. rewrite Hs, He.
  rewrite filter_app, fmap_app, sum_app. ring.
Qed.

(** X4.  A sale raises the net profit the daily report shows for its day
    by price times quantity, and leaves the net profit of every other day
    as it was. *)
Theorem sale_raises_net_profit_of_its_day today t dish qty price d :
  menu d !! dish = Some price →
  result (daily_report t) (durable (final (pos_billing today dish qty) d))
  = Returned
      (filter (λ s, sale_date s = t) (sales d)
         ++ (if decide (today = t) then [sale_record today dish qty price]
             else []),
       filter (λ e, exp_date e = t) (expenses d),
       net_profit t d + (if decide (today = t) then price * Zc qty else 0))
  ∧ result (daily_report t) d
    = Returned (filter (λ s, sale_date s = t) (sales d),
                filter (λ e, exp_date e = t) (expenses d),
                net_profit t d).
Proof.
  intros Hprice. split; [|apply result_daily_report].
  rewrite result_daily_report. unfold final. rewrite run_pos_billing.
  cbn [connect session]. rewrite Hprice. cbn [snd durable connect].
  set (d' := set_sales _ _).
  rewrite (net_profit_more_sales t [sale_record today dish qty price]
             d d') by done.
  subst d'. cbn [sales expenses set_sales set_inventory].
  rewrite filter_app, filter_cons, filter_nil. cbn [sale_date sale_record].
  destruct (decide (today = t)); cbn; unfold sum; cbn; do 3 f_equal; ring.
Qed.

Lemma sale_raises_net_profit_witness :
  menu oil_db !! "Burger" = Some (Zc 120)
  ∧ ∃ s e,
      result (daily_report "2026-01-15")
        (durable (final (pos_billing "2026-01-15" "Burger" 2) oil_db))
      = Returned (s, e, Zc 240).
Proof.
  split; [reflexivity|].
  destruct (sale_raises_net_profit_of_its_day "2026-01-15" "2026-01-15"
              "Burger" 2 (Zc 120) oil_db eq_refl) as [H _].
  do 2 eexists. rewrite H. do 2 f_equal.
Defined.

Lemma run_add_expense today category amount note (c : conn) :
  run (add_expense today category amount note) c
  = committed (set_expenses
      (λ l, l ++ [{| exp_date := today; exp_category := category;
                     exp_amount := amount; exp_note := note |}])
      (session c)).
Proof. reflexivity. Qed.

Lemma run_bazar_entry today item qty unit cost (c : conn) :
  run (bazar_entry today item qty unit cost) c
  = match run (update_inventory item qty unit cost) c with
    | (Returned _, c') =>
        committed (set_expenses
          (λ l, l ++ [{| exp_date := today; exp_category := "Bazar";
                         exp_amount := cost; exp_note := item |}])
          (session c'))
    | (Raised e, c') => (Raised e, c')
    end.
Proof.
  unfold bazar_entry. rewrite run_bind.
  by destruct (run (update_inventory item qty unit cost) c) as [[[]|e] c'].
Qed.

(** X5.  An expense entered on a day lowers that day's net profit by its
    amount and changes no other day's; it changes no table but the
    expenses. *)
Theorem expense_lowers_net_profit_of_its_day today t category amount note d :
  result (daily_report t)
    (durable (final (add_expense today category amount note) d))
  = Returned
      (filter (λ s, sale_date s = t) (sales d),
       filter (λ e, exp_date e = t) (expenses d)
         ++ (if decide (today = t)
             then [{| exp_date := today; exp_category := category;
                      exp_amount := amount; exp_note := note |}]
             else []),
       net_profit t d - (if decide (today = t) then amount else 0))
  ∧ inventory (durable (final (add_expense today category amount note) d))
    = inventory d
  ∧ menu (durable (final (add_expense today category amount note) d)) = menu d
  ∧ recipes (durable (final (add_expense today category amount note) d))
    = recipes d
  ∧ sales (durable (final (add_expense today category amount note) d))
    = sales d.
Proof.
  unfold final. rewrite run_add_expense. cbn [connect session snd committed durable].
  split; [|done].
  rewrite result_daily_report. set (d' := set_expenses _ _).
  rewrite (net_profit_more_expenses t
             [{| exp_date := today; exp_category := category;
                 exp_amount := amount; exp_note := note |}] d d') by done.
  subst d'. cbn [sales expenses set_expenses].
  rewrite filter_app, filter_cons, filter_nil. cbn [exp_date].
  destruct (decide (today = t)); cbn; unfold sum; cbn; do 3 f_equal; ring.
Qed.

(** X6.  The "Add Inventory" action, when the purchase returns, leaves
    the inventory as [update_inventory] does and appends one Bazar expense
    of the purchase cost, noted with the item; when the purchase raises
    (an item with no row and quantity zero) it writes nothing, the
    expense included. *)
Theorem bazar_entry_records_purchase_and_expense today item qty unit cost d :
  (result (update_inventory item qty unit cost) d = Returned () →
   result (bazar_entry today item qty unit cost) d = Returned ()
   ∧ inventory (durable (final (bazar_entry today item qty unit cost) d))
     = inventory (durable (final (update_inventory item qty unit cost) d))
   ∧ expenses (durable (final (bazar_entry today item qty unit cost) d))
     = expenses d ++ [{| exp_date := today; exp_category := "Bazar";
                         exp_amount := cost; exp_note := item |}]
   ∧ sales (durable (final (bazar_entry today item qty unit cost) d))
     = sales d)
  ∧ (result (bazar_entry today item qty unit cost) d = Raised ZeroDivisionError
     ↔ inventory d !! item = None ∧ qty = 0)
  ∧ (inventory d !! item = None → qty = 0 →
     final (bazar_entry today item qty unit cost) d = connect d).
Proof.
  unfold result, final. rewrite run_bazar_entry, run_update_inventory.
  cbn [connect session].
  destruct (inventory d !! item) as [row|] eqn:Hrow;
    [|destruct (decide (qty = 0)) as [Hz|Hz]]; cbn.
  - split; [done|]. split; [|done]. split; [done|]. by intros [? _].
  - split; [done|]. split; [|done]. done.
  - split; [done|]. split; [|done]. split; [done|]. by intros [_ ?].
Qed.

Lemma bazar_entry_witness :
  result (update_inventory "Oil" (Zc 1) "kg" (Zc 250)) oil_db = Returned ()
  ∧ expenses (durable (final (bazar_entry "2026-01-15" "Oil" (Zc 1) "kg"
                                (Zc 250)) oil_db))
    = [{| exp_date := "2026-01-15"; exp_category := "Bazar";
          exp_amount := Zc 250; exp_note := "Oil" |}]
  ∧ final (bazar_entry "2026-01-15" "Rice" 0 "kg" (Zc 90)) oil_db
    = connect oil_db.
Proof.
  split; [reflexivity|].
  destruct (bazar_entry_records_purchase_and_expense
              "2026-01-15" "Oil" (Zc 1) "kg" (Zc 250) oil_db)
    as (H & _ & _).
  destruct (H eq_refl) as (_ & _ & He & _).
  destruct (bazar_entry_records_purchase_and_expense
              "2026-01-15" "Rice" 0 "kg" (Zc 90) oil_db)
    as (_ & _ & Hr).
  split; [exact He|]. by apply Hr.
Defined.

Lemma fixed_rows_of_today today staff_food manager_salary d :
  filter (λ e, exp_date e = today) (fixed_rows today staff_food manager_salary d)
  = fixed_rows today staff_food manager_salary d
  ∧ sum (exp_amount <$> fixed_rows today staff_food manager_salary d)
    = (if staff_food && missing today "Staff Food" d then Zc 100 else 0)
      + (if manager_salary && missing today "Manager Salary" d
         then Zc 450 else 0).
Proof.
  unfold fixed_rows.
  destruct (staff_food && _), (manager_salary && _); cbn [app];
    rewrite ?filter_cons, ?filter_nil; cbn [exp_date fixed_row];
    rewrite ?decide_True by done; (split; [done|]);
    apply Qc_is_canon; reflexivity.
Qed.

(** X7.  Applying the fixed costs lowers today's net profit by 100 when
    Staff Food is requested and has no row for today, and by 450 when
    Manager Salary is requested and has no row for today; applying them
    again leaves the daily report as it is. *)
Theorem fixed_costs_lower_net_profit_once today staff_food manager_salary d :
  result (daily_report today)
    (durable (final (add_fixed_costs today staff_food manager_salary) d))
  = Returned
      (filter (λ s, sale_date s = today) (sales d),
       filter (λ e, exp_date e = today) (expenses d)
         ++ fixed_rows today staff_food manager_salary d,
       net_profit today d
       - ((if staff_food && missing today "Staff Food" d then Zc 100 else 0)
          + (if manager_salary && missing today "Manager Salary" d
             then Zc 450 else 0)))
  ∧ result (daily_report today)
      (durable (final (add_fixed_costs today staff_food manager_salary)
         (durable (final (add_fixed_costs today staff_food manager_salary) d))))
    = result (daily_report today)
        (durable (final (add_fixed_costs today staff_food manager_salary) d)).
Proof.
  unfold final. rewrite !run_add_fixed_costs.
  cbn [connect session snd committed durable].
  rewrite fixed_rows_after_fixed_costs, set_expenses_nil.
  split; [|done].
  rewrite result_daily_report. set (d' := set_expenses _ _).
  destruct (fixed_rows_of_today today staff_food manager_salary d)
    as [Hf Hs].
  rewrite (net_profit_more_expenses today
             (fixed_rows today staff_food manager_salary d) d d') by done.
  subst d'. cbn [sales expenses set_expenses].
  by rewrite filter_app, Hf, Hs.
Qed.

(** ** Recipe builder *)

Lemma run_recipe_builder_add dish ing amt unit (c : conn) :
  run (recipe_builder_add dish ing amt unit) c
  = if bool_decide (dom (menu (session c)) ≠ (∅ : gset string))
       && bool_decide (dom (inventory (session c)) ≠ (∅ : gset string))
    then committed (set_recipes
           (λ l, l ++ [{| rec_dish := dish; rec_ingredient := ing;
                          rec_amount := to_base_unit amt unit;
                          rec_unit := base_unit_type unit |}])
           (session c))
    else (Returned (), c).
Proof.
  unfold recipe_builder_add, query. cbn [mbind prog_mbind prog_bind run].
  by destruct (_ && _).
Qed.

Lemma run_recipe_builder_add_shown dish ing amt unit d price row :
  menu d !! dish = Some price → inventory d !! ing = Some row →
  run (recipe_builder_add dish ing amt unit) (connect d)
  = committed (set_recipes
      (λ l, l ++ [{| rec_dish := dish; rec_ingredient := ing;
                     rec_amount := to_base_unit amt unit;
                     rec_unit := base_unit_type unit |}]) d).
Proof.
  intros Hm Hi. rewrite run_recipe_builder_add. cbn [connect session].
  rewrite !bool_decide_eq_true_2; [done| |].
  - intros He. apply dom_empty_iff_L in He. by rewrite He in Hi.
  - intros He. apply dom_empty_iff_L in He. by rewrite He in Hm.
Qed.

Lemma select_recipes_app dish' extra d :
  select_recipes dish' (set_recipes (λ l, l ++ extra) d)
  = select_recipes dish' d ++ filter (λ r, rec_dish r = dish') extra.
Proof. unfold select_recipes. cbn. apply filter_app. Qed.

Lemma recipe_amount_after_add dish ing amt unit d price row :
  menu d !! dish = Some price →
  inventory d !! ing = Some row →
  recipe_amount (durable (final (recipe_builder_add dish ing amt unit) d))
      dish ing
    = recipe_amount d dish ing + to_base_unit amt unit
  ∧ inventory (durable (final (recipe_builder_add dish ing amt unit) d))
    = inventory d
  ∧ menu (durable (final (recipe_builder_add dish ing amt unit) d)) = menu d.
Proof.
  intros Hm Hi. unfold final.
  rewrite (run_recipe_builder_add_shown _ _ _ _ _ _ _ Hm Hi).
  cbn [snd committed durable connect].
  split; [|done].
  unfold recipe_amount. rewrite select_recipes_app.
  rewrite filter_cons, filter_nil. cbn [rec_dish].
  rewrite decide_True by done.
  rewrite filter_app, filter_cons, filter_nil. cbn [rec_ingredient].
  rewrite decide_True by done. rewrite fmap_app, sum_app.
  unfold sum. cbn. ring.
Qed.

(** X8.  "Add Ingredient" for a dish of the menu and an item of the
    inventory appends one recipe row holding the amount in base units and
    the base unit; an ingredient already in the recipe gets a second row,
    so the amount the recipe asks of it grows by the normalized amount.
    No other table and no other dish's recipe changes.  When the menu or
    the inventory is empty, nothing is written. *)
Theorem recipe_builder_appends_normalized_row dish ing amt unit d price row :
  menu d !! dish = Some price →
  inventory d !! ing = Some row →
  recipes (durable (final (recipe_builder_add dish ing amt unit) d))
    = recipes d ++ [{| rec_dish := dish; rec_ingredient := ing;
                       rec_amount := to_base_unit amt unit;
                       rec_unit := base_unit_type unit |}]
  ∧ recipe_amount (durable (final (recipe_builder_add dish ing amt unit) d))
      dish ing
    = recipe_amount d dish ing + to_base_unit amt unit
  ∧ (∀ dish', dish' ≠ dish →
       select_recipes dish'
         (durable (final (recipe_builder_add dish ing amt unit) d))
       = select_recipes dish' d)
  ∧ inventory (durable (final (recipe_builder_add dish ing amt unit) d))
    = inventory d
  ∧ menu (durable (final (recipe_builder_add dish ing amt unit) d)) = menu d
  ∧ sales (durable (final (recipe_builder_add dish ing amt unit) d)) = sales d
  ∧ expenses (durable (final (recipe_builder_add dish ing amt unit) d))
    = expenses d
  ∧ (∀ d0, menu d0 = ∅ ∨ inventory d0 = ∅ →
       final (recipe_builder_add dish ing amt unit) d0 = connect d0).
Proof.
  intros Hm Hi. unfold final.
  rewrite (run_recipe_builder_add_shown _ _ _ _ _ _ _ Hm Hi).
  cbn [snd committed durable connect].
  split; [done|]. split; [|split; [|do 4 (split; [done|])]].
  - unfold recipe_amount. rewrite select_recipes_app.
    rewrite filter_cons, filter_nil. cbn [rec_dish].
    rewrite decide_True by done.
    rewrite filter_app, filter_cons, filter_nil. cbn [rec_ingredient].
    rewrite decide_True by done. rewrite fmap_app, sum_app.
    unfold sum. cbn. ring.
  - intros dish' Hne. rewrite select_recipes_app.
    rewrite filter_cons, filter_nil. cbn [rec_dish].
    rewrite decide_False by done. apply app_nil_r.
  - intros d0 Hempty. rewrite run_recipe_builder_add. cbn [connect session].
    destruct Hempty as [-> | ->]; rewrite dom_empty_L.
    + by rewrite bool_decide_eq_false_2 by (intros H; by apply H).
    + rewrite (bool_decide_eq_false_2 (∅ ≠ ∅)) by (intros H; by apply H).
      by rewrite andb_false_r.
Qed.

Lemma recipe_builder_witness :
  menu oil_db !! "Burger" = Some (Zc 120)
  ∧ recipes (durable (final (recipe_builder_add "Burger" "Oil"
                               (Q2Qc (5 # 100)) "kg") oil_db))
    = recipes oil_db
      ++ [{| rec_dish := "Burger"; rec_ingredient := "Oil";
             rec_amount := to_base_unit (Q2Qc (5 # 100)) "kg";
             rec_unit := "gm" |}]
  ∧ to_base_unit (Q2Qc (5 # 100)) "kg" = Zc 50.
Proof.
  split; [reflexivity|].
  destruct (recipe_builder_appends_normalized_row "Burger" "Oil"
              (Q2Qc (5 # 100)) "kg" oil_db _ _ eq_refl eq_refl) as (H & _).
  split; [exact H|]. apply Qc_is_canon. reflexivity.
Defined.

(** X9.  After "Add Ingredient", a sale of the dish takes the normalized
    amount (1000 times the amount entered in kg or litre) times the sold
    quantity off the quantity of the ingredient, on top of what the recipe
    asked before; the unit of the inventory row plays no part and stays as
    it was, and so do its total cost and its cost per unit. *)
Theorem new_recipe_row_is_deducted_in_base_units
    today dish ing amt unit qty price d row :
  menu d !! dish = Some price →
  inventory d !! ing = Some row →
  ∃ row',
    inventory
      (durable (final (pos_billing today dish qty)
         (durable (final (recipe_builder_add dish ing amt unit) d)))) !! ing
      = Some row'
    ∧ inv_quantity row'
      = inv_quantity row
        - (recipe_amount d dish ing + to_base_unit amt unit) * Zc qty
    ∧ inv_unit row' = inv_unit row
    ∧ inv_total_cost row' = inv_total_cost row
    ∧ inv_cost_per_unit row' = inv_cost_per_unit row.
Proof.
  intros Hm Hi.
  destruct (recipe_amount_after_add dish ing amt unit d
              price row Hm Hi) as (Hamount & Hinv & Hmenu).
  unfold final at 1. rewrite run_pos_billing. cbn [connect session].
  rewrite Hmenu, Hm. cbn [snd durable connect set_sales set_inventory inventory].
  rewrite lookup_deduct_rows.
  fold (recipe_amount (durable (final (recipe_builder_add dish ing amt unit) d))
          dish ing).
  rewrite Hamount, Hinv, Hi. cbn. eexists. by repeat split.
Qed.

Lemma new_recipe_row_witness :
  inventory oil_db !! "Oil" = Some
    {| inv_quantity := Zc 3; inv_unit := "kg"; inv_total_cost := Zc 650;
       inv_cost_per_unit := Some (Zc 650 / Zc 3) |}
  ∧ ∃ row',
      inventory
        (durable (final (pos_billing "2026-01-15" "Burger" 2)
           (durable (final (recipe_builder_add "Burger" "Oil"
                              (Q2Qc (5 # 100)) "kg") oil_db)))) !! "Oil"
        = Some row'
      ∧ inv_quantity row' = Zc (-99)
      ∧ inv_unit row' = "kg"
      ∧ inv_total_cost row' = Zc 650
      ∧ inv_cost_per_unit row' = Some (Zc 650 / Zc 3).
Proof.
  split; [reflexivity|].
  destruct (new_recipe_row_is_deducted_in_base_units "2026-01-15" "Burger"
              "Oil" (Q2Qc (5 # 100)) "kg" 2 (Zc 120) oil_db _ eq_refl eq_refl)
    as (row' & Hl & Hq & Hu & Ht & Hc).
  exists row'. split; [exact Hl|]. split; [|by repeat split].
  rewrite Hq. apply Qc_is_canon. reflexivity.
Defined.

(** ** Costing after changes of the recipe and of the inventory *)

Lemma xadd_comm (a b : xreal) : xadd a b = xadd b a.
Proof. destruct a, b; cbn; try done. f_equal. ring. Qed.

Lemma xsum_app (l l' : list xreal) : xsum (l ++ l') = xadd (xsum l) (xsum l').
Proof.
  unfold xsum. induction l as [|x l IH]; cbn.
  - destruct (foldr xadd (Some 0) l') as [q|]; cbn; [|done]. f_equal. ring.
  - by rewrite IH, xadd_assoc.
Qed.

Lemma existsb_app {X} (f : X → bool) (l l' : list X) :
  existsb f (l ++ l') = existsb f l || existsb f l'.
Proof.
  induction l as [|x l IH]; [done|]. cbn. by rewrite IH, orb_assoc.
Qed.

Lemma stored_cost_per_unit_cases (row : inventory_row) :
  match stored_cost_per_unit row with
  | Finite q => inv_cost_per_unit row = Some q
  | Infinity => inv_cost_per_unit row = None ∧ inv_total_cost row ≠ 0
  | Null => inv_cost_per_unit row = None ∧ inv_total_cost row = 0
  end.
Proof.
  unfold stored_cost_per_unit.
  destruct (inv_cost_per_unit row); [done|]. by case_decide.
Qed.

Lemma fst_priced (d : db) (l : list recipe_row) :
  (omap (λ r, (λ cost, (r, cost)) <$> line_cost d r) l).*1
  = filter (λ r, is_Some (inventory d !! rec_ingredient r)) l.
Proof.
  induction l as [|r l IH]; [done|].
  rewrite omap_cons_match, filter_cons. unfold line_cost at 1.
  destruct (inventory d !! rec_ingredient r) as [row|]; cbn.
  - rewrite decide_True by by eexists. by rewrite IH.
  - rewrite decide_False by by intros [? ?]. exact IH.
Qed.

(** X27.  When no recipe row of the dish finds a NULL cost per unit, the
    cost calculation returns the sum of [cost_per_unit * amount] over the
    recipe rows of the dish whose ingredient has an inventory row, plus
    the packaging cost, and one line (ingredient, amount, cost rounded to
    two decimals) for each of these rows, in the order of the recipe
    table; a recipe row whose ingredient has no inventory row adds
    nothing to either, and a dish with no recipe row costs the packaging
    cost.  When some recipe row of the dish finds a NULL cost per unit,
    the calculation raises TypeError.  Either way nothing is written. *)
Theorem dish_cost_sums_priced_rows dish d :
  (costed d dish →
   result (calculate_dish_cost dish) d
   = Returned (xadd (xsum (snd <$> priced_rows d dish))
                    (Some (Zc PACKAGING_COST)),
               line_item <$> priced_rows d dish))
  ∧ (¬ costed d dish →
     result (calculate_dish_cost dish) d = Raised TypeError)
  ∧ final (calculate_dish_cost dish) d = connect d
  ∧ (priced_rows d dish).*1
    = filter (λ r, is_Some (inventory d !! rec_ingredient r))
        (filter (λ r, rec_dish r = dish) (recipes d))
  ∧ (∀ r cost, (r, cost) ∈ priced_rows d dish ↔
       r ∈ recipes d ∧ rec_dish r = dish
       ∧ ∃ row, inventory d !! rec_ingredient r = Some row
                ∧ cost = match inv_cost_per_unit row with
                         | Some cpu => Some (cpu * rec_amount r)
                         | None => None
                         end)
  ∧ (∀ r cost,
       line_item (r, cost)
       = {| Ingredient := rec_ingredient r; Used_Amount := rec_amount r;
            Cost := round2 <$> cost |})
  ∧ (filter (λ r, rec_dish r = dish) (recipes d) = [] →
     result (calculate_dish_cost dish) d
     = Returned (Some (Zc PACKAGING_COST), [])).
Proof.
  unfold final. rewrite result_calculate_dish_cost, run_calculate_dish_cost.
  cbn [fst snd connect session].
  split; [apply dish_cost_outcome_costed|].
  split; [apply dish_cost_outcome_not_costed|].
  split; [done|]. split; [apply fst_priced|]. split; [|split; [done|]].
  - intros r cost. unfold priced_rows. rewrite list_elem_of_omap.
    unfold line_cost, select_recipes. split.
    + intros (r' & Hr'%list_elem_of_filter & Heq).
      destruct (inventory d !! rec_ingredient r') as [row|] eqn:Hrow;
        cbn in Heq; [|done].
      injection Heq as -> <-. destruct Hr' as [Hd Hr'].
      split; [done|]. split; [done|]. exists row. split; [done|].
      by destruct (inv_cost_per_unit row).
    + intros (Hr & Hd & row & Hrow & ->). exists r.
      split; [by apply list_elem_of_filter|]. rewrite Hrow. cbn.
      by destruct (inv_cost_per_unit row).
  - intros Hnil. rewrite dish_cost_outcome_costed.
    + unfold making_cost, priced_rows, select_recipes. by rewrite Hnil.
    + intros r row Hr. unfold select_recipes in Hr. rewrite Hnil in Hr.
      by apply elem_of_nil in Hr.
Qed.

Lemma costed_kitchen_burger : costed kitchen_db "Burger".
Proof. apply cost_raises_false. reflexivity. Qed.

Lemma not_costed_null_burger : ¬ costed null_db "Burger".
Proof. intros Hc%cost_raises_false. by vm_compute in Hc. Qed.

Lemma dish_cost_sums_priced_rows_witness :
  costed kitchen_db "Burger"
  ∧ result (calculate_dish_cost "Burger") kitchen_db
    = Returned (Some (Zc 355),
                [ {| Ingredient := "Oil"; Used_Amount := Zc 2;
                     Cost := Some (Zc 130) |};
                  {| Ingredient := "Rice"; Used_Amount := Zc 3;
                     Cost := Some (Zc 150) |};
                  {| Ingredient := "Oil"; Used_Amount := Zc 1;
                     Cost := Some (Zc 65) |} ])
  ∧ ¬ costed null_db "Burger"
  ∧ result (calculate_dish_cost "Burger") null_db = Raised TypeError
  ∧ result (calculate_dish_cost "Tea") kitchen_db
    = Returned (Some (Zc PACKAGING_COST), []).
Proof.
  split; [exact costed_kitchen_burger|].
  split.
  { destruct (dish_cost_sums_priced_rows "Burger" kitchen_db) as (H & _).
    rewrite (H costed_kitchen_burger). cbn.
    apply (f_equal Returned), (f_equal2 pair).
    - apply (f_equal Some). by apply Qc_is_canon.
    - repeat (apply (f_equal2 cons);
              [apply (f_equal (Build_detail _ _)), (f_equal Some);
               by apply Qc_is_canon|]).
      reflexivity. }
  split; [exact not_costed_null_burger|].
  split.
  { destruct (dish_cost_sums_priced_rows "Burger" null_db) as (_ & H & _).
    exact (H not_costed_null_burger). }
  destruct (dish_cost_sums_priced_rows "Tea" kitchen_db)
    as (_ & _ & _ & _ & _ & _ & H).
  apply H. reflexivity.
Defined.

(** The cell the UPDATE of [update_inventory] writes is numpy's quotient
    of the two sums it writes next to it. *)
Lemma stored_cost_per_unit_stocked row qty unit cost :
  stored_cost_per_unit (stocked (Some row) qty unit cost)
  = numpy_divide (inv_total_cost row + cost) (inv_quantity row + qty).
Proof.
  unfold stored_cost_per_unit, numpy_divide, stocked, np_div. cbn.
  by destruct (decide (inv_quantity row + qty = 0)).
Qed.

(** X28.  A purchase of an item that has a row never raises.  It stores
    the two sums and, as cost per unit, what numpy's division of them
    gives: their quotient when the new quantity is not zero, an infinity
    when the new quantity is zero and the new total cost is not, and NULL
    (SQLite's rendering of [nan]) when both are zero.  A deduction leaves
    that cell as it is. *)
Theorem restock_stores_numpy_quotient item qty unit cost dish n d row :
  inventory d !! item = Some row →
  (∃ row',
     result (update_inventory item qty unit cost) d = Returned ()
     ∧ inventory (durable (final (update_inventory item qty unit cost) d))
         !! item = Some row'
     ∧ inv_quantity row' = inv_quantity row + qty
     ∧ inv_total_cost row' = inv_total_cost row + cost
     ∧ stored_cost_per_unit row'
       = numpy_divide (inv_total_cost row + cost) (inv_quantity row + qty)
     ∧ (inv_quantity row + qty ≠ 0 →
        stored_cost_per_unit row'
        = Finite ((inv_total_cost row + cost) / (inv_quantity row + qty)))
     ∧ (inv_quantity row + qty = 0 → inv_total_cost row + cost ≠ 0 →
        stored_cost_per_unit row' = Infinity)
     ∧ (inv_quantity row + qty = 0 → inv_total_cost row + cost = 0 →
        stored_cost_per_unit row' = Null))
  ∧ stored_cost_per_unit <$>
      inventory (durable (final (deduct_ingredients dish n) d)) !! item
    = Some (stored_cost_per_unit row).
Proof.
  intros Hrow. split.
  - exists (stocked (Some row) qty unit cost).
    unfold result, final. rewrite run_update_inventory.
    cbn [connect session]. rewrite Hrow.
    cbn [fst snd committed durable connect inventory set_inventory].
    rewrite lookup_insert_eq, stored_cost_per_unit_stocked.
    unfold numpy_divide.
    split; [done|]. split; [done|]. split; [done|]. split; [done|].
    split; [done|]. split; [|split].
    + intros Hq. by rewrite decide_False.
    + intros Hq Hc. by rewrite decide_True, decide_False.
    + intros Hq Hc. by rewrite !decide_True.
  - rewrite final_deduct_ingredients, Hrow. reflexivity.
Qed.

Lemma restock_stores_numpy_quotient_witness :
  inventory sold_out_db !! "Oil"
  = Some {| inv_quantity := 0; inv_unit := "kg"; inv_total_cost := 0;
            inv_cost_per_unit := Some 0 |}
  ∧ result (update_inventory "Oil" 0 "kg" 0) sold_out_db = Returned ()
  ∧ stored_cost_per_unit <$>
      inventory (durable (final (update_inventory "Oil" 0 "kg" 0) sold_out_db))
        !! "Oil" = Some Null
  ∧ stored_cost_per_unit <$>
      inventory (durable (final (update_inventory "Oil" 0 "kg" (Zc 250))
                            sold_out_db)) !! "Oil" = Some Infinity
  ∧ stored_cost_per_unit <$>
      inventory (durable (final (update_inventory "Oil" (Zc 2) "kg" (Zc 250))
                            sold_out_db)) !! "Oil" = Some (Finite (Zc 125)).
Proof.
  assert (Hrow : inventory sold_out_db !! "Oil"
    = Some {| inv_quantity := 0; inv_unit := "kg"; inv_total_cost := 0;
              inv_cost_per_unit := Some 0 |}).
  { vm_compute. qc_eq. }
  split; [exact Hrow|].
  destruct (restock_stores_numpy_quotient "Oil" 0 "kg" 0 "Burger" 1
              sold_out_db _ Hrow)
    as ((r0 & Hres & Hl0 & _ & _ & _ & _ & _ & Hnull) & _).
  destruct (restock_stores_numpy_quotient "Oil" 0 "kg" (Zc 250) "Burger" 1
              sold_out_db _ Hrow)
    as ((r1 & _ & Hl1 & _ & _ & _ & _ & Hinf & _) & _).
  destruct (restock_stores_numpy_quotient "Oil" (Zc 2) "kg" (Zc 250) "Burger" 1
              sold_out_db _ Hrow)
    as ((r2 & _ & Hl2 & _ & _ & _ & Hfin & _) & _).
  split; [exact Hres|].
  split; [rewrite Hl0; cbn; f_equal; by apply Hnull|].
  split.
  { rewrite Hl1. cbn. f_equal. apply Hinf; [done|]. by apply Qc_neq. }
  rewrite Hl2. cbn. f_equal. rewrite Hfin by by apply Qc_neq.
  f_equal. by apply Qc_is_canon.
Defined.

Lemma cost_raises_after_add dish r d :
  rec_dish r = dish →
  cost_raises (set_recipes (λ l, l ++ [r]) d) dish
  = cost_raises d dish || null_cost d r.
Proof.
  intros Hd. unfold cost_raises. rewrite select_recipes_app.
  rewrite filter_cons, filter_nil, decide_True by done.
  rewrite existsb_app. cbn. by rewrite orb_false_r.
Qed.

(** X10.  After "Add Ingredient", when neither the recipe rows the dish
    had nor the new one find a NULL cost per unit, the making cost of the
    dish is the making cost before plus the cost per unit of the
    ingredient times the normalized amount, and the breakdown has one
    more line, at its end.  When one of them finds a NULL cost per unit,
    the cost calculation raises TypeError. *)
Theorem new_recipe_row_adds_its_line_cost dish ing amt unit d price row :
  menu d !! dish = Some price →
  inventory d !! ing = Some row →
  (costed d dish → stored_cost_per_unit row ≠ Null →
   result (calculate_dish_cost dish)
     (durable (final (recipe_builder_add dish ing amt unit) d))
   = Returned
       (xadd (making_cost d dish)
             (xmul (inv_cost_per_unit row) (Some (to_base_unit amt unit))),
        (line_item <$> priced_rows d dish)
          ++ [{| Ingredient := ing; Used_Amount := to_base_unit amt unit;
                 Cost := xround2 (xmul (inv_cost_per_unit row)
                                       (Some (to_base_unit amt unit))) |}])
   ∧ result (calculate_dish_cost dish) d
     = Returned (making_cost d dish, line_item <$> priced_rows d dish))
  ∧ (¬ costed d dish ∨ stored_cost_per_unit row = Null →
     result (calculate_dish_cost dish)
       (durable (final (recipe_builder_add dish ing amt unit) d))
     = Raised TypeError).
Proof.
  intros Hm Hi. rewrite !result_calculate_dish_cost. unfold final.
  rewrite (run_recipe_builder_add_shown _ _ _ _ _ _ _ Hm Hi).
  cbn [snd committed durable connect].
  set (r := {| rec_dish := dish; rec_ingredient := ing;
               rec_amount := to_base_unit amt unit;
               rec_unit := base_unit_type unit |}).
  assert (Hraise : cost_raises (set_recipes (λ l, l ++ [r]) d) dish
                   = cost_raises d dish || null_cost d r)
    by by apply cost_raises_after_add.
  assert (Hnull : null_cost d r = true ↔ stored_cost_per_unit row = Null).
  { unfold null_cost. cbn [rec_ingredient r]. rewrite Hi. cbn.
    by destruct (stored_cost_per_unit row). }
  split.
  - intros Hc Hrow. split; [|by apply dish_cost_outcome_costed].
    apply cost_raises_false in Hc.
    unfold dish_cost_outcome at 1. rewrite Hraise, Hc.
    destruct (null_cost d r); [by destruct Hrow; apply Hnull|].
    cbn [orb].
    assert (Hp : priced_rows (set_recipes (λ l, l ++ [r]) d) dish
                 = priced_rows d dish
                   ++ [(r, xmul (inv_cost_per_unit row)
                                (Some (to_base_unit amt unit)))]).
    { unfold priced_rows. rewrite select_recipes_app.
      rewrite filter_cons, filter_nil. cbn [rec_dish r].
      rewrite decide_True by done. rewrite omap_app. f_equal.
      cbn. unfold line_cost. cbn. by rewrite Hi. }
    unfold making_cost. rewrite Hp, !fmap_app, xsum_app. cbn.
    f_equal. f_equal.
    destruct (xsum _) as [s|], (xmul _ _) as [q|]; cbn; try done.
    f_equal. ring.
  - intros Hbad. unfold dish_cost_outcome. rewrite Hraise.
    destruct Hbad as [Hc | Hrow].
    + destruct (cost_raises d dish) eqn:Hr; [done|].
      by apply cost_raises_false in Hr.
    + apply Hnull in Hrow. rewrite Hrow. by rewrite orb_true_r.
Qed.

Lemma new_recipe_row_cost_witness :
  menu kitchen_db !! "Burger" = Some (Zc 120)
  ∧ costed kitchen_db "Burger"
  ∧ result (calculate_dish_cost "Burger")
      (durable (final (recipe_builder_add "Burger" "Potato"
                         (Q2Qc (5 # 100)) "kg") kitchen_db))
    = Returned
        (Some (Zc 1355),
         [ {| Ingredient := "Oil"; Used_Amount := Zc 2;
              Cost := Some (Zc 130) |};
           {| Ingredient := "Rice"; Used_Amount := Zc 3;
              Cost := Some (Zc 150) |};
           {| Ingredient := "Oil"; Used_Amount := Zc 1;
              Cost := Some (Zc 65) |};
           {| Ingredient := "Potato"; Used_Amount := Zc 50;
              Cost := Some (Zc 1000) |} ])
  ∧ result (calculate_dish_cost "Burger")
      (durable (final (recipe_builder_add "Burger" "Oil" (Zc 2) "gm") null_db))
    = Raised TypeError.
Proof.
  split; [reflexivity|]. split; [exact costed_kitchen_burger|].
  split.
  { destruct (new_recipe_row_adds_its_line_cost "Burger" "Potato"
                (Q2Qc (5 # 100)) "kg" kitchen_db _ _ eq_refl eq_refl)
      as [H _].
    destruct (H costed_kitchen_burger) as [-> _]; [done|]. cbn.
    apply (f_equal Returned), (f_equal2 pair).
    - apply (f_equal Some). by apply Qc_is_canon.
    - repeat (apply (f_equal2 cons);
              [apply (f_equal2 (Build_detail _));
               [|apply (f_equal Some)]; by apply Qc_is_canon|]).
      reflexivity. }
  assert (Hoil : inventory null_db !! "Oil"
    = Some {| inv_quantity := 0; inv_unit := "kg"; inv_total_cost := 0;
              inv_cost_per_unit := None |}).
  { vm_compute. do 2 f_equal; by apply Qc_is_canon. }
  destruct (new_recipe_row_adds_its_line_cost "Burger" "Oil" (Zc 2) "gm"
              null_db _ _ eq_refl Hoil) as [_ H].
  apply H. by right.
Defined.

(** ** Admin panel *)

Lemma run_admin_save_menu pwd dish p (c : conn) :
  run (admin_save_menu pwd dish p) c
  = if bool_decide (pwd = ADMIN_PASSWORD)
    then committed (set_menu (insert dish p) (session c))
    else (Returned (), c).
Proof. unfold admin_save_menu. by case_bool_decide. Qed.

Lemma run_admin_delete_inventory pwd item (c : conn) :
  run (admin_delete_inventory pwd item) c
  = if bool_decide (pwd = ADMIN_PASSWORD)
    then committed (set_inventory (delete item) (session c))
    else (Returned (), c).
Proof. unfold admin_delete_inventory. by case_bool_decide. Qed.

Lemma run_admin_delete_menu pwd dish (c : conn) :
  run (admin_delete_menu pwd dish) c
  = if bool_decide (pwd = ADMIN_PASSWORD)
    then committed (set_menu (delete dish) (session c))
    else (Returned (), c).
Proof. unfold admin_delete_menu. by case_bool_decide. Qed.

(** X11.  Without the admin password, saving a menu item, deleting an
    inventory item and deleting a menu item write nothing. *)
Theorem admin_actions_need_password pwd dish p item d :
  pwd ≠ ADMIN_PASSWORD →
  final (admin_save_menu pwd dish p) d = connect d
  ∧ final (admin_delete_inventory pwd item) d = connect d
  ∧ final (admin_delete_menu pwd dish) d = connect d.
Proof.
  intros Hpwd. unfold final.
  rewrite run_admin_save_menu, run_admin_delete_inventory,
    run_admin_delete_menu.
  by rewrite !bool_decide_eq_false_2.
Qed.

Lemma admin_actions_need_password_witness :
  "1234" ≠ ADMIN_PASSWORD
  ∧ final (admin_delete_inventory "1234" "Oil") oil_db = connect oil_db.
Proof.
  assert (H : "1234" ≠ ADMIN_PASSWORD) by done.
  split; [exact H|].
  apply (admin_actions_need_password "1234" "Burger" 0 "Oil" oil_db H).
Defined.

(** X12.  "Save Menu" with the password sets the price of the dish,
    whether the dish is new or not, and leaves the other dishes and the
    other tables as they were; saving again replaces the price; a sale
    made afterwards is billed at the price saved last. *)
Theorem saved_price_is_the_price_billed today dish p p' qty d :
  menu (durable (final (admin_save_menu ADMIN_PASSWORD dish p) d)) !! dish
    = Some p
  ∧ (∀ other, other ≠ dish →
       menu (durable (final (admin_save_menu ADMIN_PASSWORD dish p) d))
         !! other = menu d !! other)
  ∧ inventory (durable (final (admin_save_menu ADMIN_PASSWORD dish p) d))
    = inventory d
  ∧ recipes (durable (final (admin_save_menu ADMIN_PASSWORD dish p) d))
    = recipes d
  ∧ sales (durable (final (admin_save_menu ADMIN_PASSWORD dish p) d))
    = sales d
  ∧ expenses (durable (final (admin_save_menu ADMIN_PASSWORD dish p) d))
    = expenses d
  ∧ final (admin_save_menu ADMIN_PASSWORD dish p')
      (durable (final (admin_save_menu ADMIN_PASSWORD dish p) d))
    = final (admin_save_menu ADMIN_PASSWORD dish p') d
  ∧ result (pos_billing today dish qty)
      (durable (final (admin_save_menu ADMIN_PASSWORD dish p')
         (durable (final (admin_save_menu ADMIN_PASSWORD dish p) d))))
    = Returned (sale_record today dish qty p').
Proof.
  unfold result, final. rewrite !run_admin_save_menu, run_pos_billing.
  rewrite !bool_decide_eq_true_2 by done.
  cbn [connect session snd committed durable menu set_menu].
  rewrite lookup_insert_eq.
  split; [done|]. split; [intros; by apply lookup_insert_ne|].
  do 4 (split; [done|]). split.
  - unfold set_menu. cbn. by rewrite insert_insert_eq.
  - by rewrite lookup_insert_eq.
Qed.

(** X13.  "Delete Menu Item" with the password removes the price and
    nothing else: the recipe rows of the dish stay, and its making cost is
    computed as before; a sale of the dish then raises IndexError and
    writes nothing. *)
Theorem deleted_dish_keeps_its_recipe today dish qty d :
  menu (durable (final (admin_delete_menu ADMIN_PASSWORD dish) d)) !! dish
    = None
  ∧ (∀ other, other ≠ dish →
       menu (durable (final (admin_delete_menu ADMIN_PASSWORD dish) d))
         !! other = menu d !! other)
  ∧ recipes (durable (final (admin_delete_menu ADMIN_PASSWORD dish) d))
    = recipes d
  ∧ result (calculate_dish_cost dish)
      (durable (final (admin_delete_menu ADMIN_PASSWORD dish) d))
    = result (calculate_dish_cost dish) d
  ∧ result (pos_billing today dish qty)
      (durable (final (admin_delete_menu ADMIN_PASSWORD dish) d))
    = Raised IndexError
  ∧ durable (final (pos_billing today dish qty)
      (durable (final (admin_delete_menu ADMIN_PASSWORD dish) d)))
    = durable (final (admin_delete_menu ADMIN_PASSWORD dish) d).
Proof.
  unfold result, final.
  rewrite !run_admin_delete_menu, !run_pos_billing, !run_calculate_dish_cost.
  rewrite !bool_decide_eq_true_2 by done.
  cbn [connect session snd fst committed durable menu set_menu].
  rewrite lookup_delete_eq.
  split; [done|]. split; [intros; by apply lookup_delete_ne|].
  by repeat split.
Qed.

Lemma omap_as_filter {X Y} (f g : X → option Y) (P : Y → Prop)
    `{!∀ y, Decision (P y)} (l : list X) :
  (∀ x, f x = match g x with
              | Some y => if decide (P y) then Some y else None
              | None => None
              end) →
  omap f l = filter P (omap g l).
Proof.
  intros Hfg. induction l as [|x l IH]; [done|].
  rewrite !omap_cons_match, Hfg.
  destruct (g x) as [y|]; [|exact IH].
  rewrite filter_cons. destruct (decide (P y)); by rewrite IH.
Qed.

Lemma priced_rows_delete_inventory item dish d :
  priced_rows (set_inventory (delete item) d) dish
  = filter (λ rc, rec_ingredient rc.1 ≠ item) (priced_rows d dish).
Proof.
  unfold priced_rows.
  change (select_recipes dish (set_inventory (delete item) d))
    with (select_recipes dish d).
  apply omap_as_filter. intros r. unfold line_cost.
  cbn [inventory set_inventory].
  destruct (decide (rec_ingredient r = item)) as [Heq|Hne].
  - rewrite Heq, lookup_delete_eq. cbn.
    destruct (inventory d !! item) as [irow|]; cbn; [|done].
    rewrite decide_False; [done|]. cbn. tauto.
  - rewrite lookup_delete_ne by done.
    destruct (inventory d !! rec_ingredient r) as [irow|]; cbn; [|done].
    by rewrite decide_True.
Qed.

Lemma costed_delete_inventory item dish d :
  costed (set_inventory (delete item) d) dish
  ↔ (∀ r row, r ∈ select_recipes dish d → rec_ingredient r ≠ item →
       inventory d !! rec_ingredient r = Some row →
       stored_cost_per_unit row ≠ Null).
Proof.
  unfold costed.
  change (select_recipes dish (set_inventory (delete item) d))
    with (select_recipes dish d).
  cbn [inventory set_inventory]. split.
  - intros Hc r row Hr Hne Hrow. apply (Hc r row Hr).
    by rewrite lookup_delete_ne.
  - intros Hc r row Hr Hrow.
    destruct (decide (rec_ingredient r = item)) as [Heq|Hne].
    + by rewrite Heq, lookup_delete_eq in Hrow.
    + rewrite lookup_delete_ne in Hrow by done. by apply (Hc r row Hr).
Qed.

(** X14.  "Delete Inventory Item" with the password removes the row of
    the item and no other, and no recipe row.  Afterwards the cost of a
    dish is computed from the recipe rows of the other ingredients only:
    when none of them finds a NULL cost per unit, the lines of the deleted
    item are gone from the total and from the breakdown and the packaging
    cost is still added; when one of them does, the calculation raises
    TypeError. *)
Theorem deleted_item_drops_out_of_dish_cost item dish d :
  inventory (durable (final (admin_delete_inventory ADMIN_PASSWORD item) d))
    !! item = None
  ∧ (∀ other, other ≠ item →
       inventory (durable (final (admin_delete_inventory ADMIN_PASSWORD item) d))
         !! other = inventory d !! other)
  ∧ recipes (durable (final (admin_delete_inventory ADMIN_PASSWORD item) d))
    = recipes d
  ∧ ((∀ r row, r ∈ select_recipes dish d → rec_ingredient r ≠ item →
        inventory d !! rec_ingredient r = Some row →
        stored_cost_per_unit row ≠ Null) →
     result (calculate_dish_cost dish)
       (durable (final (admin_delete_inventory ADMIN_PASSWORD item) d))
     = Returned
         (xadd (xsum (snd <$> filter (λ rc, rec_ingredient rc.1 ≠ item)
                                (priced_rows d dish)))
               (Some (Zc PACKAGING_COST)),
          line_item <$> filter (λ rc, rec_ingredient rc.1 ≠ item)
                          (priced_rows d dish)))
  ∧ (¬ (∀ r row, r ∈ select_recipes dish d → rec_ingredient r ≠ item →
          inventory d !! rec_ingredient r = Some row →
          stored_cost_per_unit row ≠ Null) →
     result (calculate_dish_cost dish)
       (durable (final (admin_delete_inventory ADMIN_PASSWORD item) d))
     = Raised TypeError).
Proof.
  rewrite !result_calculate_dish_cost. unfold final.
  rewrite !run_admin_delete_inventory.
  rewrite !bool_decide_eq_true_2 by done.
  cbn [connect session snd fst committed durable].
  split; [apply lookup_delete_eq|].
  split; [intros; by apply lookup_delete_ne|]. split; [done|]. split.
  - intros Hc%costed_delete_inventory.
    rewrite (dish_cost_outcome_costed _ _ Hc). unfold making_cost.
    by rewrite priced_rows_delete_inventory.
  - intros Hc. apply dish_cost_outcome_not_costed.
    by rewrite costed_delete_inventory.
Qed.

Lemma deleted_item_witness :
  result (calculate_dish_cost "Burger")
    (durable (final (admin_delete_inventory ADMIN_PASSWORD "Rice") kitchen_db))
  = Returned (Some (Zc 205),
              [ {| Ingredient := "Oil"; Used_Amount := Zc 2;
                   Cost := Some (Zc 130) |};
                {| Ingredient := "Oil"; Used_Amount := Zc 1;
                   Cost := Some (Zc 65) |} ])
  ∧ result (calculate_dish_cost "Burger")
      (durable (final (admin_delete_inventory ADMIN_PASSWORD "Rice") null_db))
    = Raised TypeError
  ∧ result (calculate_dish_cost "Burger")
      (durable (final (admin_delete_inventory ADMIN_PASSWORD "Oil") null_db))
    = Returned (Some (Zc PACKAGING_COST), []).
Proof.
  split; [|split].
  - destruct (deleted_item_drops_out_of_dish_cost "Rice" "Burger" kitchen_db)
      as (_ & _ & _ & H & _).
    rewrite H.
    + vm_compute. qc_eq.
    + intros r row Hr _. apply costed_kitchen_burger. exact Hr.
  - destruct (deleted_item_drops_out_of_dish_cost "Rice" "Burger" null_db)
      as (_ & _ & _ & _ & H).
    apply H. intros Hc. apply not_costed_null_burger.
    intros r row Hr Hrow. apply (Hc r row Hr); [|exact Hrow].
    intros Heq. rewrite Heq in Hrow. by vm_compute in Hrow.
  - destruct (deleted_item_drops_out_of_dish_cost "Oil" "Burger" null_db)
      as (_ & _ & _ & H & _).
    rewrite H.
    + reflexivity.
    + intros r row Hr Hne Hrow. exfalso. apply Hne.
      assert (Hrec : select_recipes "Burger" null_db
        = [{| rec_dish := "Burger"; rec_ingredient := "Oil";
              rec_amount := Zc 1; rec_unit := "gm" |}]).
      { vm_compute. qc_eq. }
      rewrite Hrec in Hr. apply list_elem_of_singleton in Hr. by subst r.
Defined.

(** X15.  An item deleted from the inventory and then bought again starts
    afresh: the new row holds the bought quantity, the given unit, the
    cost of this purchase and their quotient, whatever the deleted row
    held; with quantity zero the purchase raises. *)
Theorem restock_after_delete_starts_afresh item qty unit cost d :
  qty ≠ 0 →
  result (update_inventory item qty unit cost)
    (durable (final (admin_delete_inventory ADMIN_PASSWORD item) d))
    = Returned ()
  ∧ inventory
      (durable (final (update_inventory item qty unit cost)
         (durable (final (admin_delete_inventory ADMIN_PASSWORD item) d))))
      !! item
    = Some {| inv_quantity := qty; inv_unit := unit; inv_total_cost := cost;
              inv_cost_per_unit := Some (cost / qty) |}
  ∧ result (update_inventory item 0 unit cost)
      (durable (final (admin_delete_inventory ADMIN_PASSWORD item) d))
    = Raised ZeroDivisionError.
Proof.
  intros Hq. unfold result, final.
  rewrite !run_admin_delete_inventory, !run_update_inventory.
  rewrite !bool_decide_eq_true_2 by done.
  cbn [connect session snd fst committed durable inventory set_inventory].
  rewrite lookup_delete_eq. rewrite decide_False by done.
  rewrite decide_True by done. cbn.
  by rewrite lookup_insert_eq.
Qed.

Lemma restock_after_delete_witness :
  Zc 1 ≠ 0
  ∧ inventory
      (durable (final (update_inventory "Oil" (Zc 1) "litre" (Zc 250))
         (durable (final (admin_delete_inventory ADMIN_PASSWORD "Oil")
                     oil_db)))) !! "Oil"
    = Some {| inv_quantity := Zc 1; inv_unit := "litre";
              inv_total_cost := Zc 250;
              inv_cost_per_unit := Some (Zc 250 / Zc 1) |}.
Proof.
  assert (H : Zc 1 ≠ 0) by by apply Qc_neq.
  split; [exact H|].
  apply (restock_after_delete_starts_afresh "Oil" (Zc 1) "litre" (Zc 250)
           oil_db H).
Defined.

(** ** Menu cost analysis *)

(** The loop of the page stops at the first dish whose cost calculation
    raises; otherwise it adds one card for each row. *)
Lemma run_menu_cost_loop (body : list cost_card → string * Qc → prog _)
    (rows : list (string * Qc)) (cards : list cost_card) (c : conn) :
  (∀ cards row, body cards row =
     r ← calculate_dish_cost row.1;
     Ret (cards ++ [{| card_dish := row.1; card_details := r.2;
                       card_making_cost := xround2 r.1; card_price := row.2;
                       card_profit := xround2 (xsub (Some row.2) r.1) |}])) →
  run (for_fold rows body cards) c
  = if existsb (λ row, cost_raises (session c) row.1) rows
    then (Raised TypeError, c)
    else (Returned (cards ++ (card_of (session c) <$> rows)), c).
Proof.
  intros Hb. revert cards.
  induction rows as [|row rows IH]; intros cards; cbn [for_fold existsb].
  - cbn. by rewrite app_nil_r.
  - rewrite run_bind, Hb, run_bind, run_calculate_dish_cost.
    unfold dish_cost_outcome.
    destruct (cost_raises (session c) row.1); cbn [run orb]; [done|].
    rewrite IH. destruct (existsb _ rows); [done|].
    cbn [fmap list_fmap]. by rewrite <- app_assoc.
Qed.

Lemma run_menu_cost_analysis (c : conn) :
  run menu_cost_analysis c
  = if existsb (λ row, cost_raises (session c) row.1)
         (map_to_list (menu (session c)))
    then (Raised TypeError, c)
    else (Returned (card_of (session c) <$> map_to_list (menu (session c))), c).
Proof.
  unfold menu_cost_analysis. rewrite run_bind. unfold query at 1. cbn [run].
  by rewrite run_menu_cost_loop.
Qed.

Lemma menu_raises_false d :
  existsb (λ row, cost_raises d row.1) (map_to_list (menu d)) = false
  ↔ ∀ dish price, menu d !! dish = Some price → costed d dish.
Proof.
  rewrite <- not_true_iff_false, existsb_exists. split.
  - intros Hno dish price Hm. apply cost_raises_false.
    destruct (cost_raises d dish) eqn:Hr; [|done].
    destruct Hno. exists (dish, price). split; [|done].
    by apply list_elem_of_In, elem_of_map_to_list.
  - intros Hall ([dish price] & Hin%list_elem_of_In & Hr).
    apply elem_of_map_to_list in Hin. apply Hall in Hin.
    apply cost_raises_false in Hin. cbn in Hr. congruence.
Qed.

(** X16.  When no recipe row of a dish of the menu finds a NULL cost per
    unit, the menu cost analysis shows one card for each dish of the menu
    and no other: the making cost of the dish rounded to two decimals, its
    price, and as estimated profit the price minus the making cost,
    rounded to two decimals; a dish with no recipe row shows the price
    minus the packaging cost.  When a recipe row of some dish of the menu
    finds a NULL cost per unit, the analysis raises TypeError.  Either way
    it writes nothing. *)
Theorem menu_cost_analysis_cards d :
  ((∀ dish price, menu d !! dish = Some price → costed d dish) →
   ∃ cards,
     result menu_cost_analysis d = Returned cards
     ∧ length cards = size (menu d)
     ∧ NoDup (card_dish <$> cards)
     ∧ (∀ card, card ∈ cards →
          menu d !! card_dish card = Some (card_price card)
          ∧ card_making_cost card = xround2 (making_cost d (card_dish card))
          ∧ card_profit card
            = xround2 (xsub (Some (card_price card))
                            (making_cost d (card_dish card)))
          ∧ card_details card = line_item <$> priced_rows d (card_dish card))
     ∧ (∀ dish price, menu d !! dish = Some price →
          ∃ card, card ∈ cards ∧ card_dish card = dish)
     ∧ (∀ card, card ∈ cards → select_recipes (card_dish card) d = [] →
          card_profit card
          = Some (round2 (card_price card - Zc PACKAGING_COST))))
  ∧ ((∃ dish price, menu d !! dish = Some price ∧ ¬ costed d dish) →
     result menu_cost_analysis d = Raised TypeError)
  ∧ final menu_cost_analysis d = connect d.
Proof.
  unfold result, final. rewrite run_menu_cost_analysis.
  cbn [connect session].
  split; [|split].
  - intros Hall%menu_raises_false. rewrite Hall. cbn [fst].
    exists (card_of d <$> map_to_list (menu d)).
    split; [done|].
    split; [by rewrite length_fmap, length_map_to_list|].
    split.
    { rewrite <- list_fmap_compose.
      apply (NoDup_fst_map_to_list (menu d)). }
    split; [|split].
    + intros card (row & -> & Hrow)%list_elem_of_fmap.
      destruct row as [dish price]. apply elem_of_map_to_list in Hrow.
      by repeat split.
    + intros dish price Hm. exists (card_of d (dish, price)). split; [|done].
      apply list_elem_of_fmap. exists (dish, price). split; [done|].
      by apply elem_of_map_to_list.
    + intros card (row & -> & Hrow)%list_elem_of_fmap Hnone.
      cbn in *. unfold making_cost, priced_rows. rewrite Hnone. reflexivity.
  - intros (dish & price & Hm & Hc).
    destruct (existsb _ _) eqn:Hr; [done|].
    destruct Hc. exact (proj1 (menu_raises_false d) Hr dish price Hm).
  - by destruct (existsb _ _).
Qed.

Lemma menu_cost_analysis_witness :
  (∀ dish price, menu kitchen_db !! dish = Some price → costed kitchen_db dish)
  ∧ (∃ cards card,
       result menu_cost_analysis kitchen_db = Returned cards
       ∧ length cards = 2%nat
       ∧ card ∈ cards
       ∧ card_dish card = "Burger"
       ∧ card_price card = Zc 120
       ∧ card_making_cost card = Some (Zc 355)
       ∧ card_profit card = Some (Zc (-235)))
  ∧ result menu_cost_analysis null_db = Raised TypeError.
Proof.
  assert (Hall : ∀ dish price,
    menu kitchen_db !! dish = Some price → costed kitchen_db dish)
    by (by apply menu_raises_false).
  split; [exact Hall|].
  destruct (menu_cost_analysis_cards kitchen_db) as (Hcards & _).
  destruct (Hcards Hall) as (cards & Hr & Hlen & _ & Hcard & Hex & _).
  destruct (menu_cost_analysis_cards null_db) as (_ & Hraise & _).
  split.
  - destruct (Hex "Burger" (Zc 120) eq_refl) as (card & Hin & Hd).
    destruct (Hcard card Hin) as (Hp & Hmc & Hprofit & _).
    rewrite Hd in Hp, Hmc, Hprofit.
    assert (Hprice : card_price card = Zc 120) by (by injection Hp).
    exists cards, card. rewrite Hmc, Hprofit, Hprice.
    split; [exact Hr|]. split; [exact Hlen|]. split; [exact Hin|].
    split; [exact Hd|]. split; [done|].
    split; vm_compute; qc_eq.
  - apply Hraise. exists "Burger", (Zc 120).
    split; [reflexivity | exact not_costed_null_burger].
Defined.

(** ** The two reports *)

(** X17.  For a day of the month, the daily report is the monthly report
    restricted to that day: its sales and its expenses are the rows of the
    monthly report dated that day, in the same order. *)
Theorem daily_report_is_part_of_monthly_report today month d :
  strftime_shaped month →
  String.prefix month today = true →
  ∃ sales_m exp_m,
    result (monthly_report month) d = Returned (sales_m, exp_m)
    ∧ result (daily_report today) d
      = Returned
          (filter (λ s, sale_date s = today) sales_m,
           filter (λ e, exp_date e = today) exp_m,
           sum (sale_total <$> filter (λ s, sale_date s = today) sales_m)
           - sum (exp_amount <$> filter (λ e, exp_date e = today) exp_m)).
Proof.
  intros Hm Hp. unfold result.
  rewrite (run_monthly_report _ _ Hm), run_daily_report.
  cbn [fst connect session]. do 2 eexists. split; [reflexivity|].
  assert (Hs : filter (λ s, sale_date s = today)
                 (filter (λ s, String.prefix month (sale_date s) = true)
                    (sales d))
               = filter (λ s, sale_date s = today) (sales d)).
  { rewrite list_filter_filter. apply list_filter_iff.
    intros s. split; [tauto|]. intros Hs. split; [done|]. by rewrite Hs. }
  assert (He : filter (λ e, exp_date e = today)
                 (filter (λ e, String.prefix month (exp_date e) = true)
                    (expenses d))
               = filter (λ e, exp_date e = today) (expenses d)).
  { rewrite list_filter_filter. apply list_filter_iff.
    intros e. split; [tauto|]. intros He. split; [done|]. by rewrite He. }
  by rewrite Hs, He.
Qed.

Lemma daily_in_monthly_witness :
  strftime_shaped "2026-01"
  ∧ String.prefix "2026-01" "2026-01-15" = true
  ∧ ∃ sales_m exp_m,
      result (monthly_report "2026-01") ledger_db = Returned (sales_m, exp_m)
      ∧ length exp_m = 2%nat
      ∧ ∃ s e, result (daily_report "2026-01-15") ledger_db
                 = Returned ([s], [e], Zc 140).
Proof.
  assert (Hm : strftime_shaped "2026-01") by reflexivity.
  split; [exact Hm|]. split; [reflexivity|].
  destruct (daily_report_is_part_of_monthly_report "2026-01-15" "2026-01"
              ledger_db Hm eq_refl) as (sales_m & exp_m & H1 & H2).
  exists sales_m, exp_m. split; [exact H1|].
  assert (Hexp : exp_m = filter (λ e, String.prefix "2026-01" (exp_date e) = true)
                           (expenses ledger_db)).
  { unfold result in H1. rewrite (run_monthly_report _ _ Hm) in H1.
    by injection H1. }
  split; [by rewrite Hexp|].
  do 2 eexists. rewrite result_daily_report. reflexivity.
Defined.

(** ** Cost per unit across sales and purchases *)

(** X18.  Stock consumed by a sale is taken off the quantity but not off
    the total cost: when an item is bought again after a sale, its cost
    per unit is the whole cost of the purchases so far divided by the
    quantity left plus the quantity bought. *)
Theorem purchase_after_sale_spreads_total_cost
    today dish n price item qty unit cost d row :
  menu d !! dish = Some price →
  inventory d !! item = Some row →
  inv_quantity row - recipe_amount d dish item * Zc n + qty ≠ 0 →
  inventory
    (durable (final (update_inventory item qty unit cost)
       (durable (final (pos_billing today dish n) d)))) !! item
  = Some {| inv_quantity :=
              inv_quantity row - recipe_amount d dish item * Zc n + qty;
            inv_unit := inv_unit row;
            inv_total_cost := inv_total_cost row + cost;
            inv_cost_per_unit :=
              Some ((inv_total_cost row + cost)
                    / (inv_quantity row - recipe_amount d dish item * Zc n
                       + qty)) |}.
Proof.
  intros Hprice Hrow Hnz. unfold final.
  rewrite run_pos_billing. cbn [connect session]. rewrite Hprice.
  cbn [snd durable connect]. rewrite run_update_inventory.
  cbn [connect session inventory set_sales set_inventory].
  rewrite lookup_deduct_rows, Hrow. fold (recipe_amount d dish item).
  cbn. rewrite lookup_insert_eq. by rewrite np_div_nonzero.
Qed.

Lemma purchase_after_sale_witness :
  menu oil_db !! "Burger" = Some (Zc 120)
  ∧ inv_cost_per_unit <$>
      inventory
        (durable (final (update_inventory "Oil" (Zc 1) "kg" (Zc 250))
           (durable (final (pos_billing "2026-01-15" "Burger" 2) oil_db))))
        !! "Oil"
    = Some (Some (Zc 450)).
Proof.
  split; [reflexivity|].
  rewrite (purchase_after_sale_spreads_total_cost "2026-01-15" "Burger" 2
             (Zc 120) "Oil" (Zc 1) "kg" (Zc 250) oil_db _ eq_refl eq_refl).
  - cbn. do 2 f_equal. apply Qc_is_canon. reflexivity.
  - by apply Qc_neq.
Defined.

(** ** Invariants of the reachable stores *)

(** Case analysis on an action, down to the tables it leaves. *)
Ltac step_cases H :=
  destruct H as
    [ d today item qty unit cost Hitem Hunit Hqty Hcost
    | d today dish qty [price Hprice] Hqty
    | d today staff manager
    | d today category amount note Hcat
    | d dish ing amt unit [price Hprice] [irow Hirow] Hamt Hunit
    | d i
    | d pwd dish p Hp
    | d pwd item
    | d pwd dish ];
  unfold final;
  rewrite ?run_bazar_entry, ?run_update_inventory, ?run_pos_billing,
    ?run_add_fixed_costs, ?run_add_expense,
    ?run_admin_save_menu, ?run_admin_delete_inventory, ?run_admin_delete_menu;
  cbn [connect session];
  [ destruct (inventory d !! item) as [irow|] eqn:Hirow;
      [|destruct (decide (qty = 0)) as [Hz|Hz]]
  | rewrite Hprice
  |
  |
  | rewrite (run_recipe_builder_add_shown _ _ _ _ _ _ _ Hprice Hirow)
  |
  | destruct (bool_decide (pwd = ADMIN_PASSWORD))
  | destruct (bool_decide (pwd = ADMIN_PASSWORD))
  | destruct (bool_decide (pwd = ADMIN_PASSWORD)) ];
  cbn [snd fst committed durable connect session].

Lemma count_fixed_more day category extra d0 d :
  expenses d = expenses d0 ++ extra →
  count_fixed day category d
  = (count_fixed day category d0
     + length (filter (λ e, exp_date e = day ∧ exp_category e = category)
                 extra))%nat.
Proof.
  intros He. unfold count_fixed, select_expenses_of.
  by rewrite He, filter_app, length_app.
Qed.

Lemma count_fixed_same day category d0 d :
  expenses d = expenses d0 → count_fixed day category d = count_fixed day category d0.
Proof. intros He. unfold count_fixed, select_expenses_of. by rewrite He. Qed.

Lemma filter_one_row day category (e : expense_row) :
  filter (λ e, exp_date e = day ∧ exp_category e = category) [e]
  = if bool_decide (exp_date e = day ∧ exp_category e = category)
    then [e] else [].
Proof.
  rewrite filter_cons, filter_nil.
  case_bool_decide; [by rewrite decide_True | by rewrite decide_False].
Qed.

Lemma fixed_rows_count today staff manager d day category :
  category = "Staff Food" ∨ category = "Manager Salary" →
  (count_fixed day category d ≤ 1)%nat →
  (count_fixed day category d
   + length (filter (λ e, exp_date e = day ∧ exp_category e = category)
               (fixed_rows today staff manager d)) ≤ 1)%nat.
Proof.
  intros Hcat Hle. unfold fixed_rows. rewrite filter_app, length_app.
  assert (Hmiss : ∀ c, missing today c d = true → count_fixed today c d = 0%nat).
  { intros c. unfold missing, count_fixed.
    by destruct (select_expenses_of today c d). }
  destruct (staff && missing today "Staff Food" d) eqn:Hs;
    destruct (manager && missing today "Manager Salary" d) eqn:Hm;
    rewrite ?filter_one_row, ?filter_nil; cbn [exp_date exp_category fixed_row];
    repeat case_bool_decide; cbn [length]; try lia;
    destruct Hcat; destruct_and?; simplify_eq;
    try (apply andb_true_iff in Hs as [_ Hs]; apply Hmiss in Hs);
    try (apply andb_true_iff in Hm as [_ Hm]; apply Hmiss in Hm);
    lia.
Qed.

Lemma fixed_costs_ok_step d d' : step d d' → fixed_costs_ok d → fixed_costs_ok d'.
Proof.
  intros Hstep [Hcount Hamount]. unfold fixed_costs_ok.
  assert (Hkeep : ∀ d1, expenses d1 = expenses d → fixed_costs_ok d1).
  { intros d1 He. split; [|by rewrite He].
    intros day. by rewrite !(count_fixed_same _ _ d d1 He). }
  assert (Hone : ∀ d1 e,
    expenses d1 = expenses d ++ [e] →
    exp_category e ≠ "Staff Food" → exp_category e ≠ "Manager Salary" →
    fixed_costs_ok d1).
  { intros d1 e He H1 H2. split.
    - intros day. rewrite !(count_fixed_more _ _ [e] d d1 He), !filter_one_row.
      rewrite !bool_decide_eq_false_2 by (intros [_ ?]; done).
      cbn [length]. rewrite !Nat.add_0_r. apply Hcount.
    - rewrite He. apply Forall_app. split; [done|].
      apply Forall_singleton. by split. }
  step_cases Hstep; try (by apply Hkeep).
  - eapply Hone; [reflexivity|done..].
  - eapply Hone; [reflexivity|done..].
  - split.
    + intros day.
      rewrite (count_fixed_more day "Staff Food"
                 (fixed_rows today staff manager d) d) by done.
      rewrite (count_fixed_more day "Manager Salary"
                 (fixed_rows today staff manager d) d) by done.
      split; apply fixed_rows_count; auto; apply Hcount.
    + cbn [expenses set_expenses]. apply Forall_app. split; [done|].
      unfold fixed_rows.
      destruct (staff && _), (manager && _); cbn [app];
        repeat (apply Forall_cons; split; [by split|]); apply Forall_nil_2.
  - eapply Hone; [reflexivity| |]; cbn [exp_category]; intros ->;
      unfold expense_types in Hcat; rewrite !elem_of_cons, elem_of_nil in Hcat;
      intuition discriminate.
Qed.

Lemma reachable_ind_step (P : db → Prop) :
  P empty_db → (∀ d d', step d d' → P d → P d') → ∀ d, reachable d → P d.
Proof.
  intros H0 Hs. unfold reachable.
  apply (rtc_ind_r P empty_db H0). intros y z _ Hstep Hy. eauto.
Qed.

(** X20.  In every store the operator can reach from the empty one, each
    day has at most one Staff Food row and at most one Manager Salary row,
    and these rows carry the amounts 100 and 450: no other action enters
    an expense of these categories. *)
Theorem fixed_costs_at_most_once_a_day d day :
  reachable d →
  (count_fixed day "Staff Food" d ≤ 1)%nat
  ∧ (count_fixed day "Manager Salary" d ≤ 1)%nat
  ∧ Forall (λ e, (exp_category e = "Staff Food" → exp_amount e = Zc 100)
                 ∧ (exp_category e = "Manager Salary" → exp_amount e = Zc 450))
           (expenses d).
Proof.
  intros Hr.
  assert (Hok : fixed_costs_ok d).
  { revert d Hr. apply reachable_ind_step.
    - split; [|by apply Forall_nil_2]. intros ?. cbn. lia.
    - apply fixed_costs_ok_step. }
  destruct Hok as [Hcount Hamount]. destruct (Hcount day). by repeat split.
Qed.

Lemma fixed_costs_at_most_once_witness :
  reachable
    (durable (final (add_fixed_costs "2026-01-15" true true)
       (durable (final (add_fixed_costs "2026-01-15" true false) empty_db))))
  ∧ (count_fixed "2026-01-15" "Staff Food"
       (durable (final (add_fixed_costs "2026-01-15" true true)
          (durable (final (add_fixed_costs "2026-01-15" true false)
                      empty_db)))) ≤ 1)%nat.
Proof.
  assert (Hr : reachable
    (durable (final (add_fixed_costs "2026-01-15" true true)
       (durable (final (add_fixed_costs "2026-01-15" true false) empty_db))))).
  { eapply rtc_l; [apply step_fixed_costs|]. apply rtc_once, step_fixed_costs. }
  split; [exact Hr|].
  apply (fixed_costs_at_most_once_a_day _ "2026-01-15" Hr).
Defined.

Lemma Zc_nonneg (z : Z) : (0 ≤ z)%Z → 0 ≤ Zc z.
Proof.
  intros Hz. unfold Qcle, Zc. cbn [this Q2Qc].
  rewrite !Qred_correct. unfold Qle. cbn. lia.
Qed.

Lemma to_base_unit_nonneg (amt : Qc) (unit : string) :
  0 ≤ amt → 0 ≤ to_base_unit amt unit.
Proof.
  intros Ha. unfold to_base_unit. apply Qcmult_nonneg_nonneg; [done|].
  apply Zc_nonneg. rewrite conversion_lookup.
  repeat case_bool_decide; cbn; lia.
Qed.

Lemma stock_ok_step d d' : step d d' → stock_ok d → stock_ok d'.
Proof.
  intros Hstep [Hinv Hrec]. unfold stock_ok.
  step_cases Hstep; cbn [inventory recipes set_inventory set_recipes set_sales
                           set_expenses set_menu]; try (by split).
  - split; [|done]. apply map_Forall_insert_2; [|done].
    destruct (Hinv item irow Hirow) as (_ & Hu & Ht). cbn.
    repeat split; try done. by apply Qcplus_nonneg_nonneg.
  - split; [|done]. apply map_Forall_insert_2; [|done]. by cbn.
  - split; [|done]. intros it row. rewrite lookup_deduct_rows.
    destruct (inventory d !! it) as [row0|] eqn:Hrow0; cbn; [|done].
    intros [= <-]. apply (Hinv it row0 Hrow0).
  - split; [done|]. apply Forall_app. split; [done|].
    apply Forall_singleton. cbn.
    destruct (Hinv ing irow Hirow) as (Hs & _ & _).
    split; [done|]. split; [|by apply to_base_unit_nonneg].
    destruct (base_unit_type_cases unit) as [-> | [-> | ->]];
      rewrite !elem_of_cons; auto.
  - split; [done|]. by apply Forall_delete.
  - split; [|done]. by apply map_Forall_delete.
Qed.

(** X21.  In every store the operator can reach from the empty one, the
    inventory holds rows of the six suggested items only, each in a listed
    unit and with a total cost that is not negative; and every recipe row
    names one of the six items and holds an amount that is not negative,
    in gm, ml or pieces. *)
Theorem reachable_stock_is_well_formed d :
  reachable d →
  (∀ item row, inventory d !! item = Some row →
     item ∈ suggestions ∧ inv_unit row ∈ units ∧ 0 ≤ inv_total_cost row)
  ∧ (∀ r, r ∈ recipes d →
       rec_ingredient r ∈ suggestions
       ∧ rec_unit r ∈ ["gm"; "ml"; "pieces"]
       ∧ 0 ≤ rec_amount r).
Proof.
  intros Hr.
  assert (Hok : stock_ok d).
  { revert d Hr. apply reachable_ind_step.
    - split; [apply map_Forall_empty | apply Forall_nil_2].
    - apply stock_ok_step. }
  destruct Hok as [Hinv Hrec]. split; [exact Hinv|].
  by apply Forall_forall.
Qed.

Lemma money_ok_step d d' : step d d' → money_ok d → money_ok d'.
Proof.
  intros Hstep [Hmenu Hsales]. unfold money_ok.
  step_cases Hstep; cbn [menu sales set_inventory set_recipes set_sales
                           set_expenses set_menu]; try (by split).
  - split; [done|]. apply Forall_app. split; [done|].
    apply Forall_singleton. cbn. split; [done|].
    apply Qcmult_nonneg_nonneg; [apply (Hmenu dish price Hprice)|].
    apply Zc_nonneg. lia.
  - split; [|done]. by apply map_Forall_insert_2.
  - split; [|done]. by apply map_Forall_delete.
Qed.

(** X22.  In every store the operator can reach from the empty one, no
    menu price is negative, and every sale on record has a quantity of at
    least one and a total that is not negative. *)
Theorem reachable_prices_and_totals_are_not_negative d :
  reachable d →
  (∀ dish price, menu d !! dish = Some price → 0 ≤ price)
  ∧ (∀ s, s ∈ sales d → (1 ≤ sale_qty s)%Z ∧ 0 ≤ sale_total s).
Proof.
  intros Hr.
  assert (Hok : money_ok d).
  { revert d Hr. apply reachable_ind_step.
    - split; [apply map_Forall_empty | apply Forall_nil_2].
    - apply money_ok_step. }
  destruct Hok as [Hmenu Hsales]. split; [exact Hmenu|].
  by apply Forall_forall.
Qed.

Lemma reachable_stock_witness :
  reachable (durable (final (bazar_entry "2026-01-15" "Oil" (Zc 2) "kg"
                               (Zc 400)) empty_db))
  ∧ ∃ row,
      inventory (durable (final (bazar_entry "2026-01-15" "Oil" (Zc 2) "kg"
                                   (Zc 400)) empty_db)) !! "Oil" = Some row
      ∧ inv_unit row ∈ units ∧ 0 ≤ inv_total_cost row.
Proof.
  assert (Hr : reachable
    (durable (final (bazar_entry "2026-01-15" "Oil" (Zc 2) "kg" (Zc 400))
                empty_db))).
  { apply rtc_once, step_add_inventory.
    - unfold suggestions. rewrite !elem_of_cons. auto.
    - unfold units. rewrite !elem_of_cons. auto.
    - by intros [=].
    - by intros [=]. }
  split; [exact Hr|].
  destruct (reachable_stock_is_well_formed _ Hr) as [Hinv _].
  assert (Hl : inventory
      (durable (final (bazar_entry "2026-01-15" "Oil" (Zc 2) "kg" (Zc 400))
                  empty_db)) !! "Oil"
    = Some {| inv_quantity := Zc 2; inv_unit := "kg";
              inv_total_cost := Zc 400;
              inv_cost_per_unit := Some (Zc 400 / Zc 2) |}) by reflexivity.
  eexists. split; [exact Hl|].
  destruct (Hinv "Oil" _ Hl) as (_ & Hu & Ht). by split.
Defined.

Lemma reachable_prices_witness :
  reachable
    (durable (final (pos_billing "2026-01-15" "Burger" 2)
       (durable (final (admin_save_menu ADMIN_PASSWORD "Burger" (Zc 120))
                   empty_db))))
  ∧ ∀ s, s ∈ sales
            (durable (final (pos_billing "2026-01-15" "Burger" 2)
               (durable (final (admin_save_menu ADMIN_PASSWORD "Burger"
                                  (Zc 120)) empty_db)))) →
         0 ≤ sale_total s.
Proof.
  assert (Hr : reachable
    (durable (final (pos_billing "2026-01-15" "Burger" 2)
       (durable (final (admin_save_menu ADMIN_PASSWORD "Burger" (Zc 120))
                   empty_db))))).
  { eapply rtc_l.
    - apply (step_save_menu empty_db ADMIN_PASSWORD "Burger" (Zc 120)).
      by intros [=].
    - apply rtc_once, step_generate_bill; [by eexists | lia]. }
  split; [exact Hr|].
  intros s Hs.
  by apply (reachable_prices_and_totals_are_not_negative _ Hr).
Defined.

(** ** Transactions of the further actions *)

Lemma commit_free_for_fold {X S} (l : list X) (body : S → X → prog S) (s : S) :
  (∀ s x, commit_free (body s x)) → commit_free (for_fold l body s).
Proof.
  intros Hb. revert s. induction l as [|x l IH]; intros s; cbn [for_fold].
  - constructor.
  - apply commit_free_bind; auto.
Qed.

(** X23.  Entering an expense, adding a recipe row and the three admin
    actions commit once, at their end: interrupted at any point they
    leave the store as it was or as they leave it when they end.  The
    cost calculation, the menu cost analysis and the two reports never
    commit: interrupted or not, they leave the store as it was. *)
Theorem further_actions_are_single_transactions
    today month category amount note dish ing amt unit pwd p item (k : nat) d :
  all_or_nothing (add_expense today category amount note) (connect d)
  ∧ all_or_nothing (recipe_builder_add dish ing amt unit) (connect d)
  ∧ all_or_nothing (admin_save_menu pwd dish p) (connect d)
  ∧ all_or_nothing (admin_delete_inventory pwd item) (connect d)
  ∧ all_or_nothing (admin_delete_menu pwd dish) (connect d)
  ∧ interrupted (calculate_dish_cost dish) k (connect d) = d
  ∧ interrupted menu_cost_analysis k (connect d) = d
  ∧ interrupted (daily_report today) k (connect d) = d
  ∧ interrupted (monthly_report month) k (connect d) = d.
Proof.
  assert (Hcost : ∀ dish0, commit_free (calculate_dish_cost dish0)).
  { intros dish0. unfold calculate_dish_cost.
    apply commit_free_bind; [repeat constructor|]. intros rows.
    apply commit_free_bind; [|intros; constructor].
    apply commit_free_for_fold. intros acc row.
    apply commit_free_bind; [repeat constructor|].
    intros [[q| |]|]; constructor. }
  split.
  { apply single_txn_all_or_nothing. unfold add_expense, execute, commit.
    cbn. repeat constructor. }
  split.
  { apply single_txn_all_or_nothing.
    unfold recipe_builder_add, query, execute, commit. cbn.
    constructor. intros dishes. constructor. intros ingredients.
    destruct (_ && _); cbn; repeat constructor. }
  split.
  { apply single_txn_all_or_nothing.
    unfold admin_save_menu, execute, commit.
    case_bool_decide; cbn; repeat constructor. }
  split.
  { apply single_txn_all_or_nothing.
    unfold admin_delete_inventory, execute, commit.
    case_bool_decide; cbn; repeat constructor. }
  split.
  { apply single_txn_all_or_nothing.
    unfold admin_delete_menu, execute, commit.
    case_bool_decide; cbn; repeat constructor. }
  split.
  { apply (commit_free_durable _ (Hcost dish) k (connect d)). }
  split.
  { apply (commit_free_durable menu_cost_analysis).
    unfold menu_cost_analysis.
    apply commit_free_bind; [repeat constructor|]. intros rows.
    apply commit_free_for_fold. intros acc row.
    apply commit_free_bind; [apply Hcost|]. intros r. constructor. }
  split; reflexivity.
Qed.

(** ** Costs and quantities across actions *)

Lemma omap_ext_in {X Y} (f g : X → option Y) (l : list X) :
  (∀ x, x ∈ l → f x = g x) → omap f l = omap g l.
Proof.
  induction l as [|x l IH]; intros Hfg; [done|].
  rewrite !omap_cons_match, (Hfg x) by left.
  rewrite IH; [done|]. intros y Hy. apply Hfg. by right.
Qed.

Lemma priced_rows_ext dish d d' :
  recipes d' = recipes d →
  (∀ r, r ∈ select_recipes dish d →
     inv_cost_per_unit <$> inventory d' !! rec_ingredient r
     = inv_cost_per_unit <$> inventory d !! rec_ingredient r) →
  priced_rows d' dish = priced_rows d dish.
Proof.
  intros Hrec Hcpu. unfold priced_rows.
  assert (Hsel : select_recipes dish d' = select_recipes dish d)
    by (unfold select_recipes; by rewrite Hrec).
  rewrite Hsel. apply omap_ext_in. intros r Hr. unfold line_cost.
  specialize (Hcpu r Hr).
  destruct (inventory d' !! rec_ingredient r) as [row'|],
    (inventory d !! rec_ingredient r) as [row|]; cbn in *; try done.
  by injection Hcpu as ->.
Qed.

Lemma existsb_ext_in {X} (f g : X → bool) (l : list X) :
  (∀ x, x ∈ l → f x = g x) → existsb f l = existsb g l.
Proof.
  induction l as [|x l IH]; intros Hfg; [done|]. cbn.
  rewrite (Hfg x) by left. rewrite IH; [done|].
  intros y Hy. apply Hfg. by right.
Qed.

(** The cost calculation reads the recipe rows of the dish and the cells
    [cost_per_unit] of their ingredients, and nothing else. *)
Lemma dish_cost_outcome_ext dish d d' :
  recipes d' = recipes d →
  (∀ r, r ∈ select_recipes dish d →
     stored_cost_per_unit <$> inventory d' !! rec_ingredient r
     = stored_cost_per_unit <$> inventory d !! rec_ingredient r) →
  dish_cost_outcome d' dish = dish_cost_outcome d dish.
Proof.
  intros Hrec Hcell. unfold dish_cost_outcome, making_cost.
  assert (Hsel : select_recipes dish d' = select_recipes dish d)
    by (unfold select_recipes; by rewrite Hrec).
  rewrite (priced_rows_ext dish d d' Hrec).
  - unfold cost_raises. rewrite Hsel.
    rewrite (existsb_ext_in (null_cost d') (null_cost d)); [done|].
    intros r Hr. unfold null_cost. by rewrite (Hcell r Hr).
  - intros r Hr. specialize (Hcell r Hr).
    destruct (inventory d' !! rec_ingredient r) as [row'|],
      (inventory d !! rec_ingredient r) as [row|]; cbn in *; try done.
    injection Hcell as Hcell.
    by rewrite <- (as_float_stored row'), <- (as_float_stored row), Hcell.
Qed.

(** X24.  A sale changes no making cost: the cost calculation returns for
    every dish the same total and the same breakdown after the sale as
    before it. *)
Theorem sale_leaves_dish_costs_unchanged today dish qty dish' d :
  result (calculate_dish_cost dish')
    (durable (final (pos_billing today dish qty) d))
  = result (calculate_dish_cost dish') d.
Proof.
  rewrite !result_calculate_dish_cost.
  apply dish_cost_outcome_ext.
  - unfold final. rewrite run_pos_billing. cbn [connect session].
    by destruct (menu d !! dish).
  - intros r _. unfold final. rewrite run_pos_billing. cbn [connect session].
    destruct (menu d !! dish); cbn; [|done].
    rewrite lookup_deduct_rows.
    by destruct (inventory d !! rec_ingredient r).
Qed.

(** X25.  A purchase changes the making cost of no dish whose recipe does
    not name the purchased item. *)
Theorem purchase_leaves_costs_of_other_dishes item qty unit cost dish d :
  (∀ r, r ∈ select_recipes dish d → rec_ingredient r ≠ item) →
  result (calculate_dish_cost dish)
    (durable (final (update_inventory item qty unit cost) d))
  = result (calculate_dish_cost dish) d.
Proof.
  intros Hnot. rewrite !result_calculate_dish_cost.
  apply dish_cost_outcome_ext.
  - unfold final. rewrite run_update_inventory. cbn [connect session].
    destruct (inventory d !! item); [done|]. by destruct (decide (qty = 0)).
  - intros r Hr. unfold final. rewrite run_update_inventory.
    cbn [connect session]. specialize (Hnot r Hr).
    destruct (inventory d !! item); [|destruct (decide (qty = 0))]; cbn;
      try done; by rewrite lookup_insert_ne.
Qed.

Lemma purchase_leaves_costs_witness :
  (∀ r, r ∈ select_recipes "Burger" oil_db → rec_ingredient r ≠ "Rice")
  ∧ result (calculate_dish_cost "Burger")
      (durable (final (update_inventory "Rice" (Zc 5) "kg" (Zc 300)) oil_db))
    = result (calculate_dish_cost "Burger") oil_db.
Proof.
  assert (H : ∀ r, r ∈ select_recipes "Burger" oil_db →
                   rec_ingredient r ≠ "Rice").
  { intros r Hr. cbn in Hr. apply list_elem_of_singleton in Hr. by subst r. }
  split; [exact H|].
  apply (purchase_leaves_costs_of_other_dishes "Rice" (Zc 5) "kg" (Zc 300)
           "Burger" oil_db H).
Defined.
